(** * GitHub PR analyzer: sync and aggregation pipeline

    A shallow embedding of the analyzer ([lib/analyzer.ts]), the cache
    ([lib/database.ts]), the two sync routes ([app/api/sync/route.ts] and
    its streaming sibling), the repository list ([lib/config.ts]), the
    analysis route ([app/api/analyze/route.ts]) and the dashboard's
    client-side recomputation ([app/page.tsx], [filteredData]), followed
    by the properties proved about them.

    Conventions.
    - A JavaScript number that only ever holds a line count, a file count, a
      PR number or a millisecond timestamp is carried as [Z]: below 2^53 the
      binary64 operations on such values are exact.
    - Every other arithmetic step ([0.7 * lines], [pct / 100], ...) is a
      binary64 operation: the exact rational result rounded to nearest, ties
      to even, at 53 bits of precision ([Num.round64]).  Overflow to
      Infinity and subnormal numbers do not occur at the magnitudes of this
      program and are not modelled; every division of the source is guarded
      by a test that its divisor is positive.
    - A JavaScript object used as a dictionary, and a [Map], iterate in
      insertion order; both are association lists updated in place
      ([obj_set]).  The keys used by the program (language names, handles,
      date labels) are never integer-like, so insertion order is the
      iteration order.
    - [Array.prototype.sort] is stable; it is modelled by a stable insertion
      sort driven by the source's comparator.
    - Dates are in UTC: the server's local time zone is taken to be UTC. *)

From Stdlib Require Import ZArith QArith Qround List String Ascii Bool Lia Lqa.
From Stdlib Require Import Sorting.Permutation Sorting.Sorted.
From Stdlib Require SpecFloat.
Import ListNotations.

Open Scope Z_scope.

(** ** Binary64 arithmetic *)

Module Num.

(** [ilog2 n d] is the floor of the binary logarithm of [n/d], for
    positive [n] and [d]. *)
Definition ilog2 (n d : Z) : Z :=
  let k := Z.log2 n - Z.log2 d in
  if (if 0 <=? k then n <? d * 2 ^ k else n * 2 ^ (- k) <? d)
  then k - 1 else k.

(** [rne a b]: the integer nearest to [a/b] ([b > 0]), ties to even. *)
Definition rne (a b : Z) : Z :=
  let f := a / b in
  let r := a mod b in
  if 2 * r <? b then f
  else if b <? 2 * r then f + 1
  else if Z.even f then f else f + 1.

(** Rounding of an exact rational to the nearest binary64 value. *)
Definition round64 (x : Q) : Q :=
  let n := Z.abs (Qnum x) in
  let d := Zpos (Qden x) in
  if n =? 0 then 0%Q else
  let s := ilog2 n d - 52 in
  let m := if 0 <=? s then rne n (d * 2 ^ s) else rne (n * 2 ^ (- s)) d in
  let v := if 0 <=? s then inject_Z (m * 2 ^ s)
           else (m # Z.to_pos (2 ^ (- s)))%Q in
  Qred (if Qnum x <? 0 then - v else v)%Q.

(** The value of a decimal literal of the source, such as [0.7]. *)
Definition lit (n : Z) (d : positive) : Q := round64 (n # d).

Definition of_int (z : Z) : Q := round64 (inject_Z z).

Definition fadd (x y : Q) : Q := round64 (x + y).
Definition fsub (x y : Q) : Q := round64 (x - y).
Definition fmul (x y : Q) : Q := round64 (x * y).
Definition fdiv (x y : Q) : Q := round64 (x / y).

(** [x < y] *)
Definition flt (x y : Q) : bool := negb (Qle_bool y x).

(** [Math.round]: the nearest integer, halves rounded up. *)
Definition Math_round (x : Q) : Z := Qfloor (x + (1 # 2)).

(** The value denoted by a finite [spec_float] of the Standard Library's
    IEEE 754 specification, used to cross-check [round64]. *)
Definition SF2Q (f : SpecFloat.spec_float) : option Q :=
  match f with
  | SpecFloat.S754_zero _ => Some 0%Q
  | SpecFloat.S754_finite s m e =>
      let a := if 0 <=? e then inject_Z (Zpos m * 2 ^ e)
               else (Zpos m # Z.to_pos (2 ^ (- e)))%Q in
      Some (Qred (if s then - a else a)%Q)
  | _ => None
  end.

Definition b64_of_Z (z : Z) : SpecFloat.spec_float :=
  SpecFloat.binary_normalize 53 1024 z 0 false.
Definition b64_lit (n d : Z) : SpecFloat.spec_float :=
  SpecFloat.SFdiv 53 1024 (b64_of_Z n) (b64_of_Z d).
Definition b64_mul := SpecFloat.SFmul 53 1024.
Definition b64_add := SpecFloat.SFadd 53 1024.

End Num.

(** ** Strings and dictionaries *)

Definition is_digit (c : ascii) : bool :=
  let n := nat_of_ascii c in (48 <=? n)%nat && (n <=? 57)%nat.

Definition lower_char (c : ascii) : ascii :=
  let n := nat_of_ascii c in
  if (65 <=? n)%nat && (n <=? 90)%nat then ascii_of_nat (n + 32) else c.

(** [String.prototype.toLowerCase] on ASCII text. *)
Fixpoint toLowerCase (s : string) : string :=
  match s with
  | EmptyString => EmptyString
  | String c r => String (lower_char c) (toLowerCase r)
  end.

(** [s.startsWith(p)] *)
Definition startsWith (s p : string) : bool := String.prefix p s.

(** [s.includes(p)] *)
Fixpoint includes (s p : string) : bool :=
  String.prefix p s ||
  match s with
  | EmptyString => false
  | String _ r => includes r p
  end.

(** [s.split(sep)] for a one-character separator. *)
Fixpoint split_on (sep : ascii) (s : string) : list string :=
  match s with
  | EmptyString => [EmptyString]
  | String c r =>
      if Ascii.eqb c sep then EmptyString :: split_on sep r
      else match split_on sep r with
           | [] => [String c EmptyString]
           | h :: t => String c h :: t
           end
  end.

Definition Obj (V : Type) : Type := list (string * V).

Fixpoint obj_get {V} (o : Obj V) (k : string) : option V :=
  match o with
  | [] => None
  | (k', v) :: r => if String.eqb k' k then Some v else obj_get r k
  end.

(** [o[k] = v], and [map.set(k, v)]: an existing key keeps its place. *)
Fixpoint obj_set {V} (o : Obj V) (k : string) (v : V) : Obj V :=
  match o with
  | [] => [(k, v)]
  | (k', v') :: r =>
      if String.eqb k' k then (k', v) :: r else (k', v') :: obj_set r k v
  end.

Definition obj_keys {V} (o : Obj V) : list string := map fst o.
Definition obj_values {V} (o : Obj V) : list V := map snd o.

(** [Object.fromEntries(entries)], and the equivalent [reduce] that assigns
    the entries one by one. *)
Definition fromEntries {V} (es : list (string * V)) : Obj V :=
  fold_left (fun acc e => obj_set acc (fst e) (snd e)) es [].

(** [xs.reduce((sum, n) => sum + n, 0)] on integer values. *)
Definition sumZ (xs : list Z) : Z := fold_left Z.add xs 0.

(** [Array.prototype.sort(cmp)]: stable; [cmp a b > 0] puts [a] after
    [b]. *)
Fixpoint sort_insert {A} (cmp : A -> A -> Z) (x : A) (l : list A) : list A :=
  match l with
  | [] => [x]
  | y :: r => if 0 <? cmp x y then y :: sort_insert cmp x r else x :: l
  end.

Definition sort {A} (cmp : A -> A -> Z) (l : list A) : list A :=
  fold_right (sort_insert cmp) [] l.

(** [a.localeCompare(b)] on labels made of digits and hyphens. *)
Definition localeCompare (a b : string) : Z :=
  match String.compare a b with
  | Lt => -1
  | Eq => 0
  | Gt => 1
  end.

(** ** Data model ([types/index.ts]) *)

Module Size.
Inductive PRSize : Set := XS | S | M | L | XL | XXL.
End Size.
Definition PRSize : Set := Size.PRSize.

Definition PRSize_eqb (a b : PRSize) : bool :=
  match a, b with
  | Size.XS, Size.XS | Size.S, Size.S | Size.M, Size.M
  | Size.L, Size.L | Size.XL, Size.XL | Size.XXL, Size.XXL => true
  | _, _ => false
  end.

Inductive PRState : Set := open | closed | merged.

Definition PRState_eqb (a b : PRState) : bool :=
  match a, b with
  | open, open | closed, closed | merged, merged => true
  | _, _ => false
  end.

Inductive ReviewState : Set :=
  APPROVED | CHANGES_REQUESTED | COMMENTED | DISMISSED | PENDING.

Record PRReview := {
  reviewer : string;
  review_state : ReviewState;
  submittedAt : string
}.

Record PullRequest := {
  id : Z;
  number : Z;
  title : string;
  author : string;
  authorAvatar : string;
  state : PRState;
  createdAt : string;
  mergedAt : option string;
  closedAt : option string;
  additions : Z;
  deletions : Z;
  changedFiles : Z;
  size : PRSize;
  url : string;
  repo : string;
  languages : option (Obj Z);
  reviewCount : option Z;
  reviews : option (list PRReview);
  complexity : option Z
}.

(** [{ ...pr, complexity: c }] *)
Definition with_complexity (pr : PullRequest) (c : Z) : PullRequest :=
  {| id := id pr; number := number pr; title := title pr;
     author := author pr; authorAvatar := authorAvatar pr;
     state := state pr; createdAt := createdAt pr; mergedAt := mergedAt pr;
     closedAt := closedAt pr; additions := additions pr;
     deletions := deletions pr; changedFiles := changedFiles pr;
     size := size pr; url := url pr; repo := repo pr;
     languages := languages pr; reviewCount := reviewCount pr;
     reviews := reviews pr; complexity := Some c |}.

(** A [Record<PRSize, number>]: one counter per size. *)
Record SizeCounts := {
  nXS : Z; nS : Z; nM : Z; nL : Z; nXL : Z; nXXL : Z
}.

Definition zeroCounts : SizeCounts :=
  {| nXS := 0; nS := 0; nM := 0; nL := 0; nXL := 0; nXXL := 0 |}.

(** [counts[size]] *)
Definition count_of (c : SizeCounts) (s : PRSize) : Z :=
  match s with
  | Size.XS => nXS c | Size.S => nS c | Size.M => nM c
  | Size.L => nL c | Size.XL => nXL c | Size.XXL => nXXL c
  end.

(** [counts[size]++] *)
Definition bump (c : SizeCounts) (s : PRSize) : SizeCounts :=
  match s with
  | Size.XS => {| nXS := nXS c + 1; nS := nS c; nM := nM c; nL := nL c;
                  nXL := nXL c; nXXL := nXXL c |}
  | Size.S => {| nXS := nXS c; nS := nS c + 1; nM := nM c; nL := nL c;
                 nXL := nXL c; nXXL := nXXL c |}
  | Size.M => {| nXS := nXS c; nS := nS c; nM := nM c + 1; nL := nL c;
                 nXL := nXL c; nXXL := nXXL c |}
  | Size.L => {| nXS := nXS c; nS := nS c; nM := nM c; nL := nL c + 1;
                 nXL := nXL c; nXXL := nXXL c |}
  | Size.XL => {| nXS := nXS c; nS := nS c; nM := nM c; nL := nL c;
                  nXL := nXL c + 1; nXXL := nXXL c |}
  | Size.XXL => {| nXS := nXS c; nS := nS c; nM := nM c; nL := nL c;
                   nXL := nXL c; nXXL := nXXL c + 1 |}
  end.

(** [{ XS: size === 'XS' ? 1 : 0, ... }] *)
Definition oneCount (s : PRSize) : SizeCounts :=
  {| nXS := if PRSize_eqb s Size.XS then 1 else 0;
     nS := if PRSize_eqb s Size.S then 1 else 0;
     nM := if PRSize_eqb s Size.M then 1 else 0;
     nL := if PRSize_eqb s Size.L then 1 else 0;
     nXL := if PRSize_eqb s Size.XL then 1 else 0;
     nXXL := if PRSize_eqb s Size.XXL then 1 else 0 |}.

Record ContributorStats := {
  c_username : string;
  c_avatar : string;
  c_totalPRs : Z;
  c_mergedPRs : Z;
  c_sizeDistribution : SizeCounts;
  c_additions : Z;
  c_deletions : Z;
  c_prs : list PullRequest;
  c_languageStats : option (Obj Z);
  c_avgComplexity : option Z
}.

Record ReviewerStats := {
  r_username : string;
  r_totalReviews : Z;
  r_approvals : Z;
  r_changesRequested : Z;
  r_comments : Z;
  r_reviewedPRs : list Z
}.

(** The source's [TimelineData] spreads the six counters next to [date] and
    [count]; they are grouped in [t_sizes] here. *)
Record TimelineData := {
  t_date : string;
  t_count : Z;
  t_sizes : SizeCounts
}.

Record AnalysisResult := {
  totalPRs : Z;
  mergedPRs : Z;
  openPRs : Z;
  closedPRs : Z;
  uniqueContributors : Z;
  sizeDistribution : SizeCounts;
  languageDistribution : Obj Z;
  contributors : list ContributorStats;
  reviewers : list ReviewerStats;
  totalReviews : Z;
  avgComplexity : Z;
  prs : list PullRequest;
  timeline : list TimelineData;
  repos : list string;
  dateRange : string * string
}.

(** [x || 0] on an optional count. *)
Definition or0 (x : option Z) : Z :=
  match x with Some v => v | None => 0 end.

Definition lengthZ {A} (l : list A) : Z := Z.of_nat (List.length l).

(** ** Dates: [Date] and the date-fns functions the analyzer imports

    A [Date] is its number of milliseconds since the epoch.  The calendar
    conversions are the usual proleptic Gregorian ones.  The functions follow
    the documented behaviour of date-fns in a UTC process; labels are
    produced for years 0 to 9999. *)

Module Dates.

Definition MS_PER_DAY : Z := 86400000.

(** Days since 1970-01-01 of the civil date [y]-[m]-[d]. *)
Definition days_from_civil (y m d : Z) : Z :=
  let y' := if m <=? 2 then y - 1 else y in
  let era := y' / 400 in
  let yoe := y' - era * 400 in
  let doy := (153 * (if 2 <? m then m - 3 else m + 9) + 2) / 5 + d - 1 in
  let doe := yoe * 365 + yoe / 4 - yoe / 100 + doy in
  era * 146097 + doe - 719468.

(** The civil date (year, month, day) of a day number. *)
Definition civil_from_days (z : Z) : Z * Z * Z :=
  let z' := z + 719468 in
  let era := z' / 146097 in
  let doe := z' - era * 146097 in
  let yoe := (doe - doe / 1460 + doe / 36524 - doe / 146096) / 365 in
  let y := yoe + era * 400 in
  let doy := doe - (365 * yoe + yoe / 4 - yoe / 100) in
  let mp := (5 * doy + 2) / 153 in
  let d := doy - (153 * mp + 2) / 5 + 1 in
  let m := if mp <? 10 then mp + 3 else mp - 9 in
  (if m <=? 2 then y + 1 else y, m, d).

Definition is_leap (y : Z) : bool :=
  ((y mod 4 =? 0) && negb (y mod 100 =? 0)) || (y mod 400 =? 0).

Definition days_in_month (y m : Z) : Z :=
  if m =? 2 then (if is_leap y then 29 else 28)
  else if (m =? 4) || (m =? 6) || (m =? 9) || (m =? 11) then 30 else 31.

Definition digit_val (c : ascii) : option Z :=
  if is_digit c then Some (Z.of_nat (nat_of_ascii c) - 48) else None.

(** The number written with [len] decimal digits at position [i] of [s]. *)
Fixpoint num_at (s : string) (i len : nat) (acc : Z) : option Z :=
  match len with
  | O => Some acc
  | Datatypes.S len' =>
      match String.get i s with
      | Some c =>
          match digit_val c with
          | Some v => num_at s (Datatypes.S i) len' (acc * 10 + v)
          | None => None
          end
      | None => None
      end
  end.

Definition char_is (s : string) (i : nat) (c : ascii) : bool :=
  match String.get i s with
  | Some c' => Ascii.eqb c' c
  | None => false
  end.

(** [parseISO(s)], and [new Date(s)], on the timestamps the hosting API
    sends, [YYYY-MM-DDTHH:MM:SSZ]; [None] is the Invalid Date.  Other ISO
    shapes are not modelled. *)
Definition parseISO (s : string) : option Z :=
  if negb (Nat.eqb (String.length s) 20
           && char_is s 4 "-" && char_is s 7 "-" && char_is s 10 "T"
           && char_is s 13 ":" && char_is s 16 ":" && char_is s 19 "Z")
  then None
  else
    match num_at s 0 4 0, num_at s 5 2 0, num_at s 8 2 0,
          num_at s 11 2 0, num_at s 14 2 0, num_at s 17 2 0 with
    | Some y, Some mo, Some d, Some h, Some mi, Some sec =>
        if (1 <=? mo) && (mo <=? 12) && (1 <=? d) && (d <=? days_in_month y mo)
           && (if h =? 24 then (mi =? 0) && (sec =? 0)
               else (h <? 24) && (mi <? 60) && (sec <? 60))
        then Some ((((days_from_civil y mo d * 24 + h) * 60 + mi) * 60 + sec)
                   * 1000)
        else None
    | _, _, _, _, _, _ => None
    end.

Definition digit (n : Z) : ascii := ascii_of_nat (48 + Z.to_nat (n mod 10)).

Definition pad2 (n : Z) : string :=
  String (digit (n / 10)) (String (digit n) EmptyString).

Definition pad3 (n : Z) : string := String (digit (n / 100)) (pad2 n).

Definition pad4 (n : Z) : string := String (digit (n / 1000)) (pad3 n).

(** The day number of an instant. *)
Definition day_of (t : Z) : Z := t / MS_PER_DAY.

(** [format(date, formatStr)] for the two patterns the analyzer uses:
    ['yyyy-MM'], and ['yyyy-MM-dd'] for anything else. *)
Definition format (t : Z) (formatStr : string) : string :=
  let '(y, m, d) := civil_from_days (day_of t) in
  if String.eqb formatStr "yyyy-MM"
  then pad4 y ++ "-" ++ pad2 m
  else pad4 y ++ "-" ++ pad2 m ++ "-" ++ pad2 d.

(** [date.toISOString()] *)
Definition toISOString (t : Z) : string :=
  let '(y, m, d) := civil_from_days (day_of t) in
  let ms := t mod MS_PER_DAY in
  pad4 y ++ "-" ++ pad2 m ++ "-" ++ pad2 d ++ "T"
  ++ pad2 (ms / 3600000) ++ ":" ++ pad2 (ms / 60000 mod 60) ++ ":"
  ++ pad2 (ms / 1000 mod 60) ++ "." ++ pad3 (ms mod 1000) ++ "Z".

(** [differenceInDays(left, right)]: full days, truncated toward zero. *)
Definition differenceInDays (left right : Z) : Z :=
  Z.quot (left - right) MS_PER_DAY.

(** [a; a+1; ...; a+n-1] *)
Definition zrange (a : Z) (n : nat) : list Z :=
  map (fun k => a + Z.of_nat k) (seq 0 n).

(** [eachDayOfInterval({start, end})]: midnight of every day the interval
    touches.  An interval that ends before it starts is rejected by the
    analysis route before the analyzer runs; it yields no day here. *)
Definition eachDayOfInterval (start end_ : Z) : list Z :=
  if end_ <? start then []
  else map (fun d => d * MS_PER_DAY)
           (zrange (day_of start) (Z.to_nat (day_of end_ - day_of start + 1))).

(** The day number of the Sunday that starts the week of day [d]
    (1970-01-01 was a Thursday). *)
Definition week_start_day (d : Z) : Z := d - (d + 4) mod 7.

(** [eachWeekOfInterval({start, end})]: the Sunday midnight of every week
    the interval touches. *)
Definition eachWeekOfInterval (start end_ : Z) : list Z :=
  if end_ <? start then []
  else
    let w0 := week_start_day (day_of start) in
    let w1 := week_start_day (day_of end_) in
    map (fun k => (w0 + 7 * k) * MS_PER_DAY)
        (zrange 0 (Z.to_nat ((w1 - w0) / 7 + 1))).

(** The index [12 * year + (month - 1)] of the month of an instant. *)
Definition month_index (t : Z) : Z :=
  let '(y, m, _) := civil_from_days (day_of t) in 12 * y + (m - 1).

(** [eachMonthOfInterval({start, end})]: midnight of the first day of every
    month the interval touches. *)
Definition eachMonthOfInterval (start end_ : Z) : list Z :=
  if end_ <? start then []
  else
    map (fun i => days_from_civil (i / 12) (i mod 12 + 1) 1 * MS_PER_DAY)
        (zrange (month_index start)
                (Z.to_nat (month_index end_ - month_index start + 1))).

End Dates.

(** ** The analyzer ([lib/analyzer.ts]) *)

Module Analyzer.

Import Num.
Open Scope string_scope.
Open Scope Z_scope.

(** [(lineScore * 0.7) + (fileScore * 0.3)] *)
Definition combinedScore (additions deletions filesChanged : Z) : Q :=
  let linesChanged := additions + deletions in
  let lineScore := linesChanged in
  let fileScore := filesChanged * 20 in
  fadd (fmul (of_int lineScore) (lit 7 10))
       (fmul (of_int fileScore) (lit 3 10)).

Definition calculatePRSize (additions deletions filesChanged : Z) : PRSize :=
  let combinedScore := combinedScore additions deletions filesChanged in
  if flt combinedScore (of_int 10) then Size.XS
  else if flt combinedScore (of_int 50) then Size.S
  else if flt combinedScore (of_int 200) then Size.M
  else if flt combinedScore (of_int 500) then Size.L
  else if flt combinedScore (of_int 1000) then Size.XL
  else Size.XXL.

Definition LANGUAGE_COMPLEXITY_WEIGHTS : Obj Q :=
  [ ("C", lit 15 10); ("C++", lit 15 10); ("Rust", lit 15 10);
    ("Go", lit 14 10); ("Scala", lit 14 10); ("Haskell", lit 15 10);
    ("Java", lit 12 10); ("TypeScript", lit 12 10); ("C#", lit 12 10);
    ("Kotlin", lit 12 10); ("Swift", lit 12 10); ("F#", lit 13 10);
    ("JavaScript", lit 10 10); ("Python", lit 10 10); ("Ruby", lit 10 10);
    ("PHP", lit 10 10); ("Perl", lit 10 10);
    ("Elixir", lit 11 10); ("Clojure", lit 12 10); ("Erlang", lit 12 10);
    ("Lua", lit 10 10); ("R", lit 10 10);
    ("HTML", lit 5 10); ("CSS", lit 6 10); ("SCSS", lit 7 10);
    ("LESS", lit 7 10);
    ("Markdown", lit 3 10); ("JSON", lit 4 10); ("YAML", lit 4 10);
    ("TOML", lit 4 10); ("XML", lit 5 10);
    ("Vue", lit 11 10); ("Svelte", lit 10 10); ("Dart", lit 11 10);
    ("Shell", lit 8 10);
    ("SQL", lit 9 10);
    ("Other", lit 10 10) ].

(** [LANGUAGE_COMPLEXITY_WEIGHTS[lang] || 1.0]; no weight of the table is
    0, and a language name is never the name of a member that every
    object inherits. *)
Definition weight_of (lang : string) : Q :=
  match obj_get LANGUAGE_COMPLEXITY_WEIGHTS lang with
  | Some w => w
  | None => lit 10 10
  end.

(** 1. Size component *)
Definition sizeScore (pr : PullRequest) : Z :=
  let linesChanged := additions pr + deletions pr in
  if linesChanged <=? 50 then 5
  else if linesChanged <=? 200 then 15
  else if linesChanged <=? 500 then 25
  else if linesChanged <=? 1000 then 35
  else 40.

(** 2. File spread component *)
Definition fileScore (pr : PullRequest) : Z :=
  if changedFiles pr <=? 2 then 5
  else if changedFiles pr <=? 5 then 10
  else if changedFiles pr <=? 10 then 15
  else if changedFiles pr <=? 20 then 20
  else 25.

(** The loop over [Object.entries(pr.languages)]: the pair
    [(weightedSum, totalWeight)]. *)
Definition weightSums (langs : Obj Z) : Q * Q :=
  fold_left
    (fun acc e =>
       let weight := weight_of (fst e) in
       (fadd (fst acc) (fmul weight (of_int (snd e))),
        fadd (snd acc) (of_int (snd e))))
    langs (0%Q, 0%Q).

(** 3. Language complexity component *)
Definition languageScore (pr : PullRequest) : Z :=
  match languages pr with
  | Some langs =>
      if (0 <? List.length (obj_keys langs))%nat then
        let '(weightedSum, totalWeight) := weightSums langs in
        if flt 0 totalWeight then
          let avgWeight := fdiv weightedSum totalWeight in
          let languageScore :=
            Math_round
              (fmul (fdiv (fsub avgWeight (lit 3 10)) (lit 12 10))
                    (of_int 20)) in
          Z.max 0 (Z.min 20 languageScore)
        else 10
      else 10
  | None => 10
  end.

(** 4. Review intensity component *)
Definition reviewScore (pr : PullRequest) : Z :=
  let reviewCount := or0 (reviewCount pr) in
  if reviewCount =? 0 then 0
  else if reviewCount <=? 2 then 5
  else if reviewCount <=? 5 then 10
  else 15.

Definition calculateComplexity (pr : PullRequest) : Z :=
  let total := sizeScore pr + fileScore pr + languageScore pr
               + reviewScore pr in
  Z.min 100 (Z.max 0 total).

(** [Math.round((pct / 100) * prLines)] *)
Definition lineEstimate (pct prLines : Z) : Z :=
  Math_round (fmul (fdiv (of_int pct) (of_int 100)) (of_int prLines)).

(** [Math.round((lines / totalLines) * 100)] *)
Definition percentOf (lines totalLines : Z) : Z :=
  Math_round (fmul (fdiv (of_int lines) (of_int totalLines)) (of_int 100)).

(** The loop [languageLines[lang] = (languageLines[lang] || 0) + lines]
    over the language map of one PR. *)
Definition addLanguageLines (languageLines : Obj Z) (pr : PullRequest)
  : Obj Z :=
  match languages pr with
  | Some langs =>
      let prLines := additions pr + deletions pr in
      fold_left
        (fun ll e =>
           let lines := lineEstimate (snd e) prLines in
           obj_set ll (fst e) (or0 (obj_get ll (fst e)) + lines))
        langs languageLines
  | None => languageLines
  end.

(** The loop [languageLines[lang] = Math.round(...)] that starts the
    language lines of a new contributor. *)
Definition initLanguageLines (pr : PullRequest) : Obj Z :=
  match languages pr with
  | Some langs =>
      let prLines := additions pr + deletions pr in
      fold_left
        (fun ll e => obj_set ll (fst e) (lineEstimate (snd e) prLines))
        langs []
  | None => []
  end.

(** The percentages re-derived from summed line estimates; empty when the
    total is not positive. *)
Definition toPercentages (languageLines : Obj Z) : Obj Z :=
  let totalLines := sumZ (obj_values languageLines) in
  if 0 <? totalLines then
    fold_left (fun acc e => obj_set acc (fst e) (percentOf (snd e) totalLines))
              languageLines []
  else [].

(** [Math.round(prs.reduce((sum, pr) => sum + (pr.complexity || 0), 0)
    / prs.length)] *)
Definition meanComplexity (l : list PullRequest) : Z :=
  Math_round
    (fdiv (of_int (fold_left (fun sum pr => sum + or0 (complexity pr)) l 0))
          (of_int (lengthZ l))).

(** An entry of [contributorMap]: the statistics and the language lines. *)
Record ContributorData := {
  d_username : string;
  d_avatar : string;
  d_totalPRs : Z;
  d_mergedPRs : Z;
  d_sizeDistribution : SizeCounts;
  d_additions : Z;
  d_deletions : Z;
  d_prs : list PullRequest;
  d_languageLines : Obj Z
}.

Definition updateContributor (existing : ContributorData) (pr : PullRequest)
  : ContributorData :=
  {| d_username := d_username existing;
     d_avatar := d_avatar existing;
     d_totalPRs := d_totalPRs existing + 1;
     d_mergedPRs := if PRState_eqb (state pr) merged
                    then d_mergedPRs existing + 1 else d_mergedPRs existing;
     d_sizeDistribution := bump (d_sizeDistribution existing) (size pr);
     d_additions := d_additions existing + additions pr;
     d_deletions := d_deletions existing + deletions pr;
     d_prs := d_prs existing ++ [pr];
     d_languageLines := addLanguageLines (d_languageLines existing) pr |}.

Definition newContributor (pr : PullRequest) : ContributorData :=
  {| d_username := author pr;
     d_avatar := authorAvatar pr;
     d_totalPRs := 1;
     d_mergedPRs := if PRState_eqb (state pr) merged then 1 else 0;
     d_sizeDistribution := oneCount (size pr);
     d_additions := additions pr;
     d_deletions := deletions pr;
     d_prs := [pr];
     d_languageLines := initLanguageLines pr |}.

(** The first loop of [aggregateByContributor]. *)
Definition contributorMap (prs : list PullRequest) : Obj ContributorData :=
  fold_left
    (fun m pr =>
       match obj_get m (author pr) with
       | Some existing => obj_set m (author pr) (updateContributor existing pr)
       | None => obj_set m (author pr) (newContributor pr)
       end)
    prs [].

Definition finishContributor (data : ContributorData) : ContributorStats :=
  let languageStats := toPercentages (d_languageLines data) in
  let avgComplexity :=
    if (0 <? List.length (d_prs data))%nat
    then Some (meanComplexity (d_prs data)) else None in
  {| c_username := d_username data;
     c_avatar := d_avatar data;
     c_totalPRs := d_totalPRs data;
     c_mergedPRs := d_mergedPRs data;
     c_sizeDistribution := d_sizeDistribution data;
     c_additions := d_additions data;
     c_deletions := d_deletions data;
     c_prs := d_prs data;
     c_languageStats :=
       if (0 <? List.length (obj_keys languageStats))%nat
       then Some languageStats else None;
     c_avgComplexity := avgComplexity |}.

Definition aggregateByContributor (prs : list PullRequest)
  : list ContributorStats :=
  sort (fun a b => c_totalPRs b - c_totalPRs a)
       (map finishContributor (obj_values (contributorMap prs))).

Definition aggregateSizeDistribution (prs : list PullRequest) : SizeCounts :=
  fold_left (fun distribution pr => bump distribution (size pr)) prs
            zeroCounts.

Definition aggregateLanguageDistribution (prs : list PullRequest) : Obj Z :=
  let languageLines := fold_left addLanguageLines prs [] in
  let distribution := toPercentages languageLines in
  fromEntries (sort (fun a b => snd b - snd a) distribution).

Definition review_is (r : PRReview) (s : ReviewState) : bool :=
  match review_state r, s with
  | APPROVED, APPROVED | CHANGES_REQUESTED, CHANGES_REQUESTED
  | COMMENTED, COMMENTED | DISMISSED, DISMISSED | PENDING, PENDING => true
  | _, _ => false
  end.

Definition updateReviewer (existing : ReviewerStats) (pr : PullRequest)
  (review : PRReview) : ReviewerStats :=
  {| r_username := r_username existing;
     r_totalReviews := r_totalReviews existing + 1;
     r_approvals := if review_is review APPROVED
                    then r_approvals existing + 1 else r_approvals existing;
     r_changesRequested :=
       if review_is review APPROVED then r_changesRequested existing
       else if review_is review CHANGES_REQUESTED
            then r_changesRequested existing + 1
            else r_changesRequested existing;
     r_comments :=
       if review_is review APPROVED then r_comments existing
       else if review_is review CHANGES_REQUESTED then r_comments existing
       else if review_is review COMMENTED then r_comments existing + 1
            else r_comments existing;
     r_reviewedPRs :=
       if existsb (Z.eqb (number pr)) (r_reviewedPRs existing)
       then r_reviewedPRs existing
       else r_reviewedPRs existing ++ [number pr] |}.

Definition newReviewer (pr : PullRequest) (review : PRReview)
  : ReviewerStats :=
  {| r_username := reviewer review;
     r_totalReviews := 1;
     r_approvals := if review_is review APPROVED then 1 else 0;
     r_changesRequested := if review_is review CHANGES_REQUESTED then 1 else 0;
     r_comments := if review_is review COMMENTED then 1 else 0;
     r_reviewedPRs := [number pr] |}.

Definition addReview (pr : PullRequest) (m : Obj ReviewerStats)
  (review : PRReview) : Obj ReviewerStats :=
  match obj_get m (reviewer review) with
  | Some existing =>
      obj_set m (reviewer review) (updateReviewer existing pr review)
  | None => obj_set m (reviewer review) (newReviewer pr review)
  end.

(** The loop of [aggregateByReviewer]; a PR without reviews is skipped. *)
Definition reviewerMap (prs : list PullRequest) : Obj ReviewerStats :=
  fold_left
    (fun m pr =>
       match reviews pr with
       | Some rs => fold_left (addReview pr) rs m
       | None => m
       end)
    prs [].

Definition aggregateByReviewer (prs : list PullRequest) : list ReviewerStats :=
  sort (fun a b => r_totalReviews b - r_totalReviews a)
       (obj_values (reviewerMap prs)).

Definition emptyBucket (key : string) : TimelineData :=
  {| t_date := key; t_count := 0; t_sizes := zeroCounts |}.

(** The choice of [intervals] and [formatStr] from [daysDiff]. *)
Definition timelineIntervals (startDate endDate : Z) : list Z * string :=
  let daysDiff := Dates.differenceInDays endDate startDate in
  if daysDiff <=? 31
  then (Dates.eachDayOfInterval startDate endDate, "yyyy-MM-dd")
  else if daysDiff <=? 180
  then (Dates.eachWeekOfInterval startDate endDate, "yyyy-MM-dd")
  else (Dates.eachMonthOfInterval startDate endDate, "yyyy-MM").

(** "Initialize all intervals" *)
Definition initTimeline (intervals : list Z) (formatStr : string)
  : Obj TimelineData :=
  fold_left
    (fun m date =>
       let key := Dates.format date formatStr in
       obj_set m key (emptyBucket key))
    intervals [].

(** [intervals.find((d, i) => prDate >= d &&
    (!intervals[i + 1] || prDate < intervals[i + 1]))] *)
Fixpoint findWeekStart (intervals : list Z) (prDate : Z) : option Z :=
  match intervals with
  | [] => None
  | d :: rest =>
      if (d <=? prDate)
         && match rest with
            | [] => true
            | nextWeek :: _ => prDate <? nextWeek
            end
      then Some d
      else findWeekStart rest prDate
  end.

(** The label under which a PR created at [prDate] is counted. *)
Definition timelineKey (daysDiff : Z) (intervals : list Z)
  (formatStr : string) (prDate : Z) : string :=
  if daysDiff <=? 31 then Dates.format prDate formatStr
  else if daysDiff <=? 180 then
    match findWeekStart intervals prDate with
    | Some weekStart => Dates.format weekStart formatStr
    | None => Dates.format prDate formatStr
    end
  else Dates.format prDate "yyyy-MM".

(** One turn of "Aggregate PRs into intervals"; [None] when [createdAt] is
    not a date, where [format] throws a [RangeError]. *)
Definition addToTimeline (daysDiff : Z) (intervals : list Z)
  (formatStr : string) (m : Obj TimelineData) (pr : PullRequest)
  : option (Obj TimelineData) :=
  match Dates.parseISO (createdAt pr) with
  | None => None
  | Some prDate =>
      let key := timelineKey daysDiff intervals formatStr prDate in
      match obj_get m key with
      | Some existing =>
          Some (obj_set m key
                  {| t_date := t_date existing;
                     t_count := t_count existing + 1;
                     t_sizes := bump (t_sizes existing) (size pr) |})
      | None => Some m
      end
  end.

Fixpoint distribute (daysDiff : Z) (intervals : list Z) (formatStr : string)
  (prs : list PullRequest) (m : Obj TimelineData)
  : option (Obj TimelineData) :=
  match prs with
  | [] => Some m
  | pr :: rest =>
      match addToTimeline daysDiff intervals formatStr m pr with
      | Some m' => distribute daysDiff intervals formatStr rest m'
      | None => None
      end
  end.

Definition aggregateTimeline (prs : list PullRequest) (startDate endDate : Z)
  : option (list TimelineData) :=
  let daysDiff := Dates.differenceInDays endDate startDate in
  let '(intervals, formatStr) := timelineIntervals startDate endDate in
  match distribute daysDiff intervals formatStr prs
          (initTimeline intervals formatStr) with
  | Some timelineMap =>
      Some (sort (fun a b => localeCompare (t_date a) (t_date b))
                 (obj_values timelineMap))
  | None => None
  end.

(** [pr.complexity ?? calculateComplexity(pr)] on every PR. *)
Definition annotate (prs : list PullRequest) : list PullRequest :=
  map (fun pr =>
         with_complexity pr
           (match complexity pr with
            | Some c => c
            | None => calculateComplexity pr
            end))
      prs.

Definition countState (s : PRState) (prs : list PullRequest) : Z :=
  lengthZ (filter (fun pr => PRState_eqb (state pr) s) prs).

(** [analyzeResults]; [None] when the timeline throws. *)
Definition analyzeResults (prs : list PullRequest) (repos : list string)
  (startDate endDate : Z) : option AnalysisResult :=
  let prsWithComplexity := annotate prs in
  let mergedPRs := countState merged prsWithComplexity in
  let openPRs := countState open prsWithComplexity in
  let closedPRs := countState closed prsWithComplexity in
  let contributors := aggregateByContributor prsWithComplexity in
  let reviewers := aggregateByReviewer prsWithComplexity in
  let sizeDistribution := aggregateSizeDistribution prsWithComplexity in
  let languageDistribution :=
    aggregateLanguageDistribution prsWithComplexity in
  match aggregateTimeline prsWithComplexity startDate endDate with
  | None => None
  | Some timeline =>
      let totalReviews :=
        fold_left (fun sum pr => sum + or0 (reviewCount pr))
                  prsWithComplexity 0 in
      let avgComplexity :=
        if (0 <? List.length prsWithComplexity)%nat
        then meanComplexity prsWithComplexity else 0 in
      Some {| totalPRs := lengthZ prsWithComplexity;
              mergedPRs := mergedPRs;
              openPRs := openPRs;
              closedPRs := closedPRs;
              uniqueContributors := lengthZ contributors;
              sizeDistribution := sizeDistribution;
              languageDistribution := languageDistribution;
              contributors := contributors;
              reviewers := reviewers;
              totalReviews := totalReviews;
              avgComplexity := avgComplexity;
              prs := prsWithComplexity;
              timeline := timeline;
              repos := repos;
              dateRange := (Dates.toISOString startDate,
                            Dates.toISOString endDate) |}
  end.

End Analyzer.

(** ** The dashboard's recomputation ([app/page.tsx], [filteredData])

    The loops that [page.tsx] repeats verbatim from the analyzer (language
    lines, contributor map, reviewer map) reuse the analyzer's loop bodies;
    the steps that the page writes differently are written out here. *)

Module Dashboard.

Import Num.
Open Scope string_scope.
Open Scope Z_scope.

(** [repoFilter.includes(pr.repo)] *)
Definition inRepoFilter (repoFilter : list string) (pr : PullRequest) : bool :=
  existsb (String.eqb (repo pr)) repoFilter.

(** [contributorFilter.some(handle =>
    pr.author.toLowerCase() === handle.toLowerCase())] *)
Definition inContributorFilter (contributorFilter : list string)
  (pr : PullRequest) : bool :=
  existsb (fun handle =>
             String.eqb (toLowerCase (author pr)) (toLowerCase handle))
          contributorFilter.

(** [sizeFilter.includes(pr.size)] *)
Definition inSizeFilter (sizeFilter : list PRSize) (pr : PullRequest) : bool :=
  existsb (PRSize_eqb (size pr)) sizeFilter.

(** The three filters, in the order the page applies them. *)
Definition fullyFilteredPRs (dataPrs : list PullRequest)
  (repoFilter contributorFilter : list string) (sizeFilter : list PRSize)
  : list PullRequest :=
  let repoFilteredPRs :=
    if (0 <? List.length repoFilter)%nat
    then filter (inRepoFilter repoFilter) dataPrs else dataPrs in
  let contributorFilteredPRs :=
    if (0 <? List.length contributorFilter)%nat
    then filter (inContributorFilter contributorFilter) repoFilteredPRs
    else repoFilteredPRs in
  filter (inSizeFilter sizeFilter) contributorFilteredPRs.

Definition newSizeDistribution (l : list PullRequest) : SizeCounts :=
  fold_left (fun counts pr => bump counts (size pr)) l zeroCounts.

Definition sortedLangDist (l : list PullRequest) : Obj Z :=
  let languageLines := fold_left Analyzer.addLanguageLines l [] in
  let newLanguageDistribution := Analyzer.toPercentages languageLines in
  fromEntries (sort (fun a b => snd b - snd a) newLanguageDistribution).

(** The callback of [Array.from(contributorMap.values()).map(...)]: the
    language statistics are sorted by percentage and no average complexity
    is set. *)
Definition finishContributor (c : Analyzer.ContributorData)
  : ContributorStats :=
  let languageStats := Analyzer.toPercentages (Analyzer.d_languageLines c) in
  let sortedStats := fromEntries (sort (fun a b => snd b - snd a)
                                       languageStats) in
  {| c_username := Analyzer.d_username c;
     c_avatar := Analyzer.d_avatar c;
     c_totalPRs := Analyzer.d_totalPRs c;
     c_mergedPRs := Analyzer.d_mergedPRs c;
     c_sizeDistribution := Analyzer.d_sizeDistribution c;
     c_additions := Analyzer.d_additions c;
     c_deletions := Analyzer.d_deletions c;
     c_prs := Analyzer.d_prs c;
     c_languageStats :=
       if (0 <? List.length (obj_keys sortedStats))%nat
       then Some sortedStats else None;
     c_avgComplexity := None |}.

Definition newContributors (l : list PullRequest) : list ContributorStats :=
  sort (fun a b => c_totalPRs b - c_totalPRs a)
       (map finishContributor (obj_values (Analyzer.contributorMap l))).

(** The test that puts a PR in the bucket labelled [tdate]:
    [prDate === t.date || t.date.startsWith(prDate.substring(0, 7))]
    with [prDate = pr.createdAt.substring(0, 10)]. *)
Definition inBucket (tdate : string) (pr : PullRequest) : bool :=
  let prDate := String.substring 0 10 (createdAt pr) in
  String.eqb prDate tdate || startsWith tdate (String.substring 0 7 prDate).

Definition newTimeline (dataTimeline : list TimelineData)
  (l : list PullRequest) : list TimelineData :=
  map (fun t =>
         let prsForDate := filter (inBucket (t_date t)) l in
         let counts :=
           fold_left (fun counts pr => bump counts (size pr)) prsForDate
                     zeroCounts in
         {| t_date := t_date t;
            t_count := lengthZ prsForDate;
            t_sizes := counts |})
      dataTimeline.

Definition newReviewers (l : list PullRequest) : list ReviewerStats :=
  sort (fun a b => r_totalReviews b - r_totalReviews a)
       (obj_values (Analyzer.reviewerMap l)).

Definition newTotalReviews (l : list PullRequest) : Z :=
  fold_left (fun sum pr => sum + or0 (reviewCount pr)) l 0.

Definition newAvgComplexity (l : list PullRequest) : Z :=
  if (0 <? List.length l)%nat then Analyzer.meanComplexity l else 0.

(** [filteredData]: [None] is [null]. *)
Definition filteredData (data : option AnalysisResult)
  (sizeFilter : list PRSize) (contributorFilter repoFilter : list string)
  : option AnalysisResult :=
  match data with
  | None => None
  | Some data =>
      let l := fullyFilteredPRs (prs data) repoFilter contributorFilter
                                sizeFilter in
      Some {| totalPRs := lengthZ l;
              mergedPRs := Analyzer.countState merged l;
              openPRs := Analyzer.countState open l;
              closedPRs := Analyzer.countState closed l;
              uniqueContributors := lengthZ (newContributors l);
              sizeDistribution := newSizeDistribution l;
              languageDistribution := sortedLangDist l;
              contributors := newContributors l;
              reviewers := newReviewers l;
              totalReviews := newTotalReviews l;
              avgComplexity := newAvgComplexity l;
              prs := l;
              timeline := newTimeline (timeline data) l;
              repos := repos data;
              dateRange := dateRange data |}
  end.

Definition ALL_SIZES : list PRSize :=
  [Size.XS; Size.S; Size.M; Size.L; Size.XL; Size.XXL].

End Dashboard.

(** ** The cache ([lib/database.ts])

    A [TEXT] column that holds the [toISOString()] of an instant is carried
    as that instant; on these fixed-width texts the text comparison of the
    store is the chronological order.  A column that holds
    [JSON.stringify] of a value is carried as the value. *)

Module Database.

Open Scope Z_scope.

(** A row of [pull_requests]: [id INTEGER PRIMARY KEY] and
    [UNIQUE(repo, number)]. *)
Record Row := {
  row_id : Z;
  row_number : Z;
  row_repo : string;
  row_title : string;
  row_author : string;
  row_author_avatar : string;
  row_state : PRState;
  row_created_at : string;
  row_merged_at : option string;
  row_closed_at : option string;
  row_additions : Z;
  row_deletions : Z;
  row_changed_files : Z;
  row_size : PRSize;
  row_url : string;
  row_updated_at : Z;
  row_languages : option (Obj Z);
  row_review_count : Z;
  row_reviews : option (list PRReview)
}.

(** A row of [sync_status]: [repo TEXT PRIMARY KEY]. *)
Record SyncRow := {
  s_repo : string;
  s_last_synced_at : Z;
  s_pr_count : Z
}.

Record Db := {
  pull_requests : list Row;
  sync_status : list SyncRow
}.

Definition emptyDb : Db := {| pull_requests := []; sync_status := [] |}.

Definition same_key (a b : Row) : bool :=
  String.eqb (row_repo a) (row_repo b) && (row_number a =? row_number b).

(** A stored row conflicts with a new one when it has its primary key or
    its unique pair. *)
Definition conflicts (new old : Row) : bool :=
  (row_id old =? row_id new) || same_key old new.

(** [INSERT OR REPLACE INTO pull_requests]: the rows that conflict with
    the new row are deleted, then the new row is inserted. *)
Definition insertOrReplace (new : Row) (t : list Row) : list Row :=
  filter (fun old => negb (conflicts new old)) t ++ [new].

(** The values bound by [stmt.run(...)]; [now] is [new Date()]. *)
Definition toRow (now : Z) (pr : PullRequest) : Row :=
  {| row_id := id pr;
     row_number := number pr;
     row_repo := repo pr;
     row_title := title pr;
     row_author := author pr;
     row_author_avatar := authorAvatar pr;
     row_state := state pr;
     row_created_at := createdAt pr;
     row_merged_at := mergedAt pr;
     row_closed_at := closedAt pr;
     row_additions := additions pr;
     row_deletions := deletions pr;
     row_changed_files := changedFiles pr;
     row_size := size pr;
     row_url := url pr;
     row_updated_at := now;
     row_languages := languages pr;
     row_review_count := or0 (reviewCount pr);
     row_reviews := reviews pr |}.

Definition savePullRequest (now : Z) (pr : PullRequest) (db : Db) : Db :=
  {| pull_requests := insertOrReplace (toRow now pr) (pull_requests db);
     sync_status := sync_status db |}.

(** [savePullRequests]: [clock i] is the reading of [new Date()] taken for
    the [i]-th record of the batch. *)
Fixpoint insertMany (clock : nat -> Z) (i : nat) (prs : list PullRequest)
  (t : list Row) : list Row :=
  match prs with
  | [] => t
  | pr :: rest =>
      insertMany clock (Datatypes.S i) rest
                 (insertOrReplace (toRow (clock i) pr) t)
  end.

Definition savePullRequests (clock : nat -> Z) (prs : list PullRequest)
  (db : Db) : Db :=
  {| pull_requests := insertMany clock 0 prs (pull_requests db);
     sync_status := sync_status db |}.

(** The mapping of a selected row in [getPullRequests]. *)
Definition rowToPullRequest (row : Row) : PullRequest :=
  {| id := row_id row;
     number := row_number row;
     title := row_title row;
     author := row_author row;
     authorAvatar := row_author_avatar row;
     state := row_state row;
     createdAt := row_created_at row;
     mergedAt := row_merged_at row;
     closedAt := row_closed_at row;
     additions := row_additions row;
     deletions := row_deletions row;
     changedFiles := row_changed_files row;
     size := row_size row;
     url := row_url row;
     repo := row_repo row;
     languages := row_languages row;
     reviewCount := Some (row_review_count row);
     reviews := row_reviews row;
     complexity := None |}.

(** [getPullRequests]: the rows of the given repositories touched within
    the window, latest first. *)
Definition getPullRequests (repos : list string) (since until : Z) (db : Db)
  : list PullRequest :=
  map rowToPullRequest
    (sort (fun a b => row_updated_at b - row_updated_at a)
       (filter (fun row =>
                  existsb (String.eqb (row_repo row)) repos
                  && (since <=? row_updated_at row)
                  && (row_updated_at row <=? until))
               (pull_requests db))).

Definition getLastSyncedAt (repo : string) (db : Db) : option Z :=
  match find (fun r => String.eqb (s_repo r) repo) (sync_status db) with
  | Some row => Some (s_last_synced_at row)
  | None => None
  end.

(** [INSERT OR REPLACE INTO sync_status] *)
Definition updateSyncStatus (now : Z) (repo : string) (prCount : Z) (db : Db)
  : Db :=
  {| pull_requests := pull_requests db;
     sync_status :=
       filter (fun r => negb (String.eqb (s_repo r) repo)) (sync_status db)
       ++ [{| s_repo := repo; s_last_synced_at := now;
              s_pr_count := prCount |}] |}.

Definition getTotalCachedPRs (db : Db) : Z := lengthZ (pull_requests db).

(** The stored record of a (repository, number) pair, as read back. *)
Definition readBack (repo : string) (number : Z) (db : Db)
  : option PullRequest :=
  option_map rowToPullRequest
    (find (fun row =>
             String.eqb (row_repo row) repo && (row_number row =? number))
          (pull_requests db)).

(** [getRepoStats(repo).prCount] *)
Definition repoPrCount (repo : string) (db : Db) : Z :=
  lengthZ (filter (fun row => String.eqb (row_repo row) repo)
                  (pull_requests db)).

(** [clearRepoData]: both [DELETE ... WHERE repo = ?]. *)
Definition clearRepoData (repo : string) (db : Db) : Db :=
  {| pull_requests :=
       filter (fun row => negb (String.eqb (row_repo row) repo))
              (pull_requests db);
     sync_status :=
       filter (fun r => negb (String.eqb (s_repo r) repo))
              (sync_status db) |}.

(** The order of [ORDER BY] on a [TEXT] column: byte by byte. *)
Definition textOrder (a b : string) : Z :=
  match String.compare a b with
  | Lt => -1
  | Eq => 0
  | Gt => 1
  end.

(** [getSyncStatus]: the rows of [sync_status], [ORDER BY repo]; [repo] is
    the primary key, so no two rows compare equal. *)
Definition getSyncStatus (db : Db) : list SyncRow :=
  sort (fun a b => textOrder (s_repo a) (s_repo b)) (sync_status db).

End Database.

(** ** The sync routes ([app/api/sync/route.ts] and its streaming sibling) *)

Module Sync.

Import Num.
Open Scope string_scope.
Open Scope Z_scope.
Open Scope list_scope.

Record GraphQLFileNode := {
  path : string;
  f_additions : Z;
  f_deletions : Z
}.

(** [rv_author] is [review.author?.login]. *)
Record GraphQLReviewNode := {
  rv_author : option string;
  rv_state : ReviewState;
  rv_submittedAt : string
}.

Inductive GraphQLState : Set := OPEN | CLOSED | MERGED.

(** [n_author] is the pair (login, avatarUrl); [n_reviews] the pair
    (totalCount, nodes). *)
Record GraphQLPRNode := {
  n_id : string;
  n_number : Z;
  n_title : string;
  n_state : GraphQLState;
  n_createdAt : string;
  n_updatedAt : string;
  n_mergedAt : option string;
  n_closedAt : option string;
  n_additions : Z;
  n_deletions : Z;
  n_changedFiles : Z;
  n_url : string;
  n_author : option (string * string);
  n_files : option (list GraphQLFileNode);
  n_reviews : option (Z * list GraphQLReviewNode)
}.

(** The table of [route.ts]. *)
Definition EXTENSION_TO_LANGUAGE : Obj string :=
  [ (".js", "JavaScript"); (".jsx", "JavaScript"); (".mjs", "JavaScript");
    (".cjs", "JavaScript");
    (".ts", "TypeScript"); (".tsx", "TypeScript"); (".mts", "TypeScript");
    (".cts", "TypeScript");
    (".py", "Python"); (".pyw", "Python"); (".pyi", "Python");
    (".java", "Java"); (".kt", "Kotlin"); (".kts", "Kotlin");
    (".c", "C"); (".h", "C"); (".cpp", "C++"); (".cc", "C++");
    (".cxx", "C++"); (".hpp", "C++"); (".hxx", "C++");
    (".cs", "C#");
    (".go", "Go");
    (".rs", "Rust");
    (".rb", "Ruby"); (".erb", "Ruby");
    (".php", "PHP");
    (".swift", "Swift");
    (".scala", "Scala"); (".sc", "Scala");
    (".sh", "Shell"); (".bash", "Shell"); (".zsh", "Shell");
    (".sql", "SQL");
    (".html", "HTML"); (".htm", "HTML"); (".css", "CSS"); (".scss", "SCSS");
    (".sass", "SCSS"); (".less", "LESS");
    (".md", "Markdown"); (".mdx", "Markdown"); (".rst", "reStructuredText");
    (".json", "JSON"); (".yaml", "YAML"); (".yml", "YAML"); (".toml", "TOML");
    (".xml", "XML");
    (".vue", "Vue"); (".svelte", "Svelte"); (".dart", "Dart"); (".r", "R");
    (".R", "R");
    (".lua", "Lua"); (".pl", "Perl"); (".pm", "Perl"); (".ex", "Elixir");
    (".exs", "Elixir");
    (".erl", "Erlang"); (".hrl", "Erlang"); (".clj", "Clojure");
    (".cljs", "Clojure");
    (".hs", "Haskell"); (".ml", "OCaml"); (".fs", "F#"); (".fsx", "F#") ].

(** The shorter table of the streaming route. *)
Definition EXTENSION_TO_LANGUAGE_stream : Obj string :=
  [ (".js", "JavaScript"); (".jsx", "JavaScript"); (".mjs", "JavaScript");
    (".cjs", "JavaScript");
    (".ts", "TypeScript"); (".tsx", "TypeScript"); (".mts", "TypeScript");
    (".cts", "TypeScript");
    (".py", "Python"); (".pyw", "Python"); (".pyi", "Python");
    (".java", "Java"); (".kt", "Kotlin"); (".kts", "Kotlin");
    (".c", "C"); (".h", "C"); (".cpp", "C++"); (".cc", "C++");
    (".cxx", "C++"); (".hpp", "C++");
    (".cs", "C#"); (".go", "Go"); (".rs", "Rust");
    (".rb", "Ruby"); (".erb", "Ruby"); (".php", "PHP");
    (".swift", "Swift"); (".scala", "Scala"); (".sc", "Scala");
    (".sh", "Shell"); (".bash", "Shell"); (".zsh", "Shell");
    (".sql", "SQL");
    (".html", "HTML"); (".htm", "HTML"); (".css", "CSS"); (".scss", "SCSS");
    (".sass", "SCSS");
    (".md", "Markdown"); (".mdx", "Markdown");
    (".json", "JSON"); (".yaml", "YAML"); (".yml", "YAML"); (".toml", "TOML");
    (".xml", "XML");
    (".vue", "Vue"); (".svelte", "Svelte"); (".dart", "Dart") ].

(** [getLanguageFromPath], for either table. *)
Definition getLanguageFromPath (table : Obj string) (path : string) : string :=
  let ext := ("." ++ toLowerCase (List.last (split_on "." path) ""))%string in
  match obj_get table ext with
  | Some language => language
  | None => "Other"
  end.

(** "Calculate language breakdown from files": lines per language. *)
Definition languageLinesOf (table : Obj string)
  (files : list GraphQLFileNode) : Obj Z :=
  fold_left
    (fun languageLines file =>
       let language := getLanguageFromPath table (path file) in
       let lines := f_additions file + f_deletions file in
       obj_set languageLines language
               (or0 (obj_get languageLines language) + lines))
    files [].

(** "Convert to percentages":
    [languages[lang] = totalLines > 0
       ? Math.round((lines / totalLines) * 100) : 0]. *)
Definition languagesOf (table : Obj string) (files : list GraphQLFileNode)
  : Obj Z :=
  let languageLines := languageLinesOf table files in
  let totalLines := sumZ (obj_values languageLines) in
  fold_left
    (fun languages e =>
       obj_set languages (fst e)
               (if 0 <? totalLines
                then Analyzer.percentOf (snd e) totalLines else 0))
    languageLines [].

(** [parseInt(s)] on a string of decimal digits; [None] is [NaN]. *)
Definition parseInt (digits : list ascii) : option Z :=
  match digits with
  | [] => None
  | _ => Some (fold_left
                 (fun acc c => acc * 10 + (Z.of_nat (nat_of_ascii c) - 48))
                 digits 0)
  end.

(** [parseInt(pr.id.replace(/\D/g, '').slice(-10)) || pr.number] *)
Definition recordId (node : GraphQLPRNode) : Z :=
  let digits := filter is_digit (list_ascii_of_string (n_id node)) in
  let last10 := skipn (List.length digits - 10) digits in
  match parseInt last10 with
  | Some v => if v =? 0 then n_number node else v
  | None => n_number node
  end.

(** "Process reviews": the events whose author has a login. *)
Definition reviewsOf (node : GraphQLPRNode) : list PRReview :=
  let nodes := match n_reviews node with
               | Some (_, nodes) => nodes
               | None => []
               end in
  flat_map
    (fun review =>
       match rv_author review with
       | Some login =>
           if String.eqb login "" then []
           else [{| reviewer := login;
                    review_state := rv_state review;
                    submittedAt := rv_submittedAt review |}]
       | None => []
       end)
    nodes.

(** [x || fallback] on an optional string. *)
Definition orString (x : option string) (fallback : string) : string :=
  match x with
  | Some s => if String.eqb s "" then fallback else s
  | None => fallback
  end.

(** The record pushed on [pullRequests] for one node. *)
Definition buildPullRequest (table : Obj string) (repoPath : string)
  (pr : GraphQLPRNode) : PullRequest :=
  let size :=
    Analyzer.calculatePRSize (n_additions pr) (n_deletions pr)
                             (n_changedFiles pr) in
  let state := match n_state pr with
               | MERGED => merged
               | CLOSED => closed
               | OPEN => open
               end in
  let languages :=
    languagesOf table (match n_files pr with Some fs => fs | None => [] end) in
  let reviews := reviewsOf pr in
  {| id := recordId pr;
     number := n_number pr;
     title := n_title pr;
     author := orString (option_map fst (n_author pr)) "unknown";
     authorAvatar := orString (option_map snd (n_author pr)) "";
     state := state;
     createdAt := n_createdAt pr;
     mergedAt := n_mergedAt pr;
     closedAt := n_closedAt pr;
     additions := n_additions pr;
     deletions := n_deletions pr;
     changedFiles := n_changedFiles pr;
     size := size;
     url := n_url pr;
     repo := repoPath;
     languages := Some languages;
     reviewCount := Some (match n_reviews pr with
                          | Some (totalCount, _) => totalCount
                          | None => 0
                          end);
     reviews := if (0 <? List.length reviews)%nat then Some reviews else None;
     complexity := None |}.

(** [new Date('2025-07-01T00:00:00Z')] *)
Definition SYNC_CUTOFF_DATE : Z := 1751328000000.

(** "Determine cutoff date"; [lastSynced] is [getLastSyncedAt(repoPath)]. *)
Definition cutoffDate (fullSync : bool) (lastSynced : option Z) : Z :=
  if fullSync then SYNC_CUTOFF_DATE
  else match lastSynced with
       | Some t => t - 24 * 60 * 60 * 1000
       | None => SYNC_CUTOFF_DATE
       end.

(** [new Date(pr.updatedAt) < cutoffDate]; false on an Invalid Date. *)
Definition olderThan (cutoff : Z) (pr : GraphQLPRNode) : bool :=
  match Dates.parseISO (n_updatedAt pr) with
  | Some t => t <? cutoff
  | None => false
  end.

(** The loop over the nodes of one page: the accumulator and
    [shouldStop]. *)
Fixpoint processNodes (table : Obj string) (repoPath : string) (cutoff : Z)
  (nodes : list GraphQLPRNode) (pullRequests : list PullRequest)
  : list PullRequest * bool :=
  match nodes with
  | [] => (pullRequests, false)
  | pr :: rest =>
      if olderThan cutoff pr then (pullRequests, true)
      else processNodes table repoPath cutoff rest
             (pullRequests ++ [buildPullRequest table repoPath pr])
  end.

(** What a [try] block can catch. *)
Inductive Thrown :=
| ErrorObject (message : string)
| OtherValue.

(** [error instanceof Error ? error.message : 'Unknown error'] *)
Definition messageOf (e : Thrown) : string :=
  match e with
  | ErrorObject m => m
  | OtherValue => "Unknown error"
  end.

(** The hosting API as one repository's pagination sees it: a request
    either throws or answers a page; [next] is what the page's end cursor
    leads to, present exactly when [hasNextPage] is set. *)
#[local] Unset Elimination Schemes.
Inductive Source :=
| Fails (e : Thrown)
| Page (nodes : list GraphQLPRNode) (next : option Source).
#[local] Set Elimination Schemes.

(** The outcome of the pagination loop: the accumulator, the thrown value
    if a request threw, the number of requests made, and the [fetched]
    counts of the progress events sent between pages. *)
Record Fetched := {
  accumulated : list PullRequest;
  thrown : option Thrown;
  requests : nat;
  progress : list Z
}.

(** [while (!shouldStop) { ... }] *)
Fixpoint fetchLoop (table : Obj string) (repoPath : string) (cutoff : Z)
  (src : Source) (pullRequests : list PullRequest) : Fetched :=
  match src with
  | Fails e =>
      {| accumulated := pullRequests; thrown := Some e; requests := 1;
         progress := [] |}
  | Page nodes next =>
      let '(pullRequests', shouldStop) :=
        processNodes table repoPath cutoff nodes pullRequests in
      match next with
      | Some src' =>
          if shouldStop
          then {| accumulated := pullRequests'; thrown := None;
                  requests := 1; progress := [] |}
          else
            let r := fetchLoop table repoPath cutoff src' pullRequests' in
            {| accumulated := accumulated r; thrown := thrown r;
               requests := Datatypes.S (requests r);
               progress := lengthZ pullRequests' :: progress r |}
      | None =>
          {| accumulated := pullRequests'; thrown := None; requests := 1;
             progress := [] |}
      end
  end.

(** The process-wide state: the cache, and how many times the clock has
    been read. *)
Record World := {
  db : Database.Db;
  ticks : nat
}.

(** An entry of [results]. *)
Record SyncResult := {
  res_repo : string;
  synced : Z;
  error : option string
}.

(** The outcome of the [try] block for one repository. *)
Record RepoOutcome := {
  o_result : SyncResult;
  o_thrown : option Thrown;
  o_requests : nat;
  o_progress : list Z;
  o_world : World
}.

Section Engine.

(** [clock k] is what the [k]-th reading of the clock returns. *)
Variable clock : nat -> Z.

(** The body of the [try] block, with the [results.push] of its [catch]:
    cutoff, pagination, save, sync status. *)
Definition syncOneRepo (table : Obj string) (fullSync : bool)
  (repoPath : string) (src : Source) (w : World) : RepoOutcome :=
  let cutoff :=
    cutoffDate fullSync (Database.getLastSyncedAt repoPath (db w)) in
  let r := fetchLoop table repoPath cutoff src [] in
  match thrown r with
  | Some e =>
      {| o_result := {| res_repo := repoPath; synced := 0;
                        error := Some (messageOf e) |};
         o_thrown := Some e;
         o_requests := requests r;
         o_progress := progress r;
         o_world := w |}
  | None =>
      let pullRequests := accumulated r in
      let n := List.length pullRequests in
      let db1 :=
        if (0 <? n)%nat
        then Database.savePullRequests (fun i => clock (ticks w + i)%nat)
                                       pullRequests (db w)
        else db w in
      let ticks1 := if (0 <? n)%nat then (ticks w + n)%nat else ticks w in
      let db2 :=
        Database.updateSyncStatus (clock ticks1) repoPath (lengthZ pullRequests)
                                  db1 in
      {| o_result := {| res_repo := repoPath;
                        synced := lengthZ pullRequests; error := None |};
         o_thrown := None;
         o_requests := requests r;
         o_progress := progress r;
         o_world := {| db := db2; ticks := Datatypes.S ticks1 |} |}
  end.

(** [const [owner, repo] = repoPath.split('/');
     if (!owner || !repo) continue;] *)
Definition wellFormedRepoPath (repoPath : string) : bool :=
  match split_on "/" repoPath with
  | owner :: repo :: _ =>
      negb (String.eqb owner "") && negb (String.eqb repo "")
  | _ => false
  end.

(** [message.includes('rate limit') || message.includes('403')
     || message.includes('RATE_LIMITED')] *)
Definition isRateLimit (message : string) : bool :=
  includes message "rate limit" || includes message "403"
  || includes message "RATE_LIMITED".

(** The loop of the batch route over the requested repositories, each
    paired with the behaviour of the hosting API during its turn. *)
Fixpoint batchLoop (fullSync : bool) (repos : list (string * Source))
  (results : list SyncResult) (w : World) : list SyncResult * World :=
  match repos with
  | [] => (results, w)
  | (repoPath, src) :: rest =>
      if negb (wellFormedRepoPath repoPath)
      then batchLoop fullSync rest results w
      else
        let o := syncOneRepo EXTENSION_TO_LANGUAGE fullSync repoPath src w in
        match o_thrown o with
        | None => batchLoop fullSync rest (results ++ [o_result o]) (o_world o)
        | Some e =>
            if isRateLimit (messageOf e)
            then (results ++ [o_result o], o_world o)
            else batchLoop fullSync rest (results ++ [o_result o]) (o_world o)
        end
  end.

(** The events of the streaming route. *)
Inductive SyncEvent :=
| ev_start (totalRepos : Z) (repos skippedRepos : list string)
           (skippedCount : Z)
| ev_repo_start (repo : string) (index totalRepos progress : Z)
| ev_repo_progress (repo : string) (fetched : Z)
| ev_repo_complete (repo : string) (synced index totalRepos progress
                                    totalSynced : Z)
| ev_repo_error (repo error : string) (index totalRepos progress : Z)
| ev_rate_limited (message : string)
| ev_complete (results : list SyncResult) (totalSynced totalRepos : Z).

(** [Math.round((i / repos.length) * 100)] *)
Definition percentDone (i total : Z) : Z :=
  Math_round (fmul (fdiv (of_int i) (of_int total)) (of_int 100)).

Record StreamState := {
  st_results : list SyncResult;
  st_totalSynced : Z;
  st_events : list SyncEvent;
  st_world : World
}.

(** The loop of the streaming route; [i] is the index of the head of
    [repos] in the request and [total] is [repos.length]. *)
Fixpoint streamLoop (fullSync : bool) (total : Z) (i : Z)
  (repos : list (string * Source)) (st : StreamState) : StreamState :=
  match repos with
  | [] => st
  | (repoPath, src) :: rest =>
      if negb (wellFormedRepoPath repoPath)
      then streamLoop fullSync total (i + 1) rest st
      else
        let started :=
          st_events st
          ++ [ev_repo_start repoPath i total (percentDone i total)] in
        let o := syncOneRepo EXTENSION_TO_LANGUAGE_stream fullSync repoPath src
                             (st_world st) in
        let fetching :=
          started ++ map (ev_repo_progress repoPath) (o_progress o) in
        match o_thrown o with
        | None =>
            let totalSynced := st_totalSynced st + synced (o_result o) in
            streamLoop fullSync total (i + 1) rest
              {| st_results := st_results st ++ [o_result o];
                 st_totalSynced := totalSynced;
                 st_events :=
                   fetching
                   ++ [ev_repo_complete repoPath (synced (o_result o)) i total
                         (percentDone (i + 1) total) totalSynced];
                 st_world := o_world o |}
        | Some e =>
            let message := messageOf e in
            let failed :=
              fetching
              ++ [ev_repo_error repoPath message i total
                    (percentDone (i + 1) total)] in
            if isRateLimit message
            then {| st_results := st_results st ++ [o_result o];
                    st_totalSynced := st_totalSynced st;
                    st_events := failed ++ [ev_rate_limited message];
                    st_world := o_world o |}
            else streamLoop fullSync total (i + 1) rest
                   {| st_results := st_results st ++ [o_result o];
                      st_totalSynced := st_totalSynced st;
                      st_events := failed;
                      st_world := o_world o |}
        end
  end.

(** The body of the stream: [start], the loop, [complete]. *)
Definition syncStream (fullSync : bool) (repos : list (string * Source))
  (skippedRepos : list string) (w : World) : StreamState :=
  let total := lengthZ repos in
  let st :=
    streamLoop fullSync total 0 repos
      {| st_results := []; st_totalSynced := 0;
         st_events := [ev_start total (map fst repos) skippedRepos
                                (lengthZ skippedRepos)];
         st_world := w |} in
  {| st_results := st_results st;
     st_totalSynced := st_totalSynced st;
     st_events := st_events st
                  ++ [ev_complete (st_results st) (st_totalSynced st) total];
     st_world := st_world st |}.

(** The resume filter: a repository synced less than an hour before [now]
    is skipped.  The pair is ([reposToSync], [skippedRepos]). *)
Definition resumeFilter (now : Z) (d : Database.Db)
  (repos : list (string * Source))
  : list (string * Source) * list string :=
  fold_left
    (fun acc r =>
       match Database.getLastSyncedAt (fst r) d with
       | Some lastSynced =>
           if now - lastSynced <? 60 * 60 * 1000
           then (fst acc, snd acc ++ [fst r])
           else (fst acc ++ [r], snd acc)
       | None => (fst acc ++ [r], snd acc)
       end)
    repos ([], []).

End Engine.

(** An entry of [repos] in the answer of the status route ([GET]). *)
Record RepoStatus := {
  rs_repo : string;
  rs_lastSyncedAt : option Z;
  rs_prCount : Z;
  rs_needsSync : bool
}.

(** [config.repos.map((repo) => { const status = syncStatus.find(...); ... })]
    in [GET]; [configRepos] is [config.repos]. *)
Definition repoStatus (configRepos : list string) (d : Database.Db)
  : list RepoStatus :=
  let syncStatus := Database.getSyncStatus d in
  map (fun repo =>
         let status :=
           find (fun s => String.eqb (Database.s_repo s) repo) syncStatus in
         {| rs_repo := repo;
            rs_lastSyncedAt := option_map Database.s_last_synced_at status;
            rs_prCount := match status with
                          | Some s => Database.s_pr_count s
                          | None => 0
                          end;
            rs_needsSync := match status with
                            | Some _ => false
                            | None => true
                            end |})
      configRepos.

End Sync.

(** ** The repository list ([lib/config.ts])

    The configuration file holds the list [repos]; a function that reads
    and rewrites the file is a function on that list.  An [inl] is the
    message of the [Error] thrown. *)

Module Config.

Open Scope string_scope.
Open Scope list_scope.

(** A character of the class [[a-zA-Z0-9_.-]]. *)
Definition nameChar (c : ascii) : bool :=
  let n := nat_of_ascii c in
  ((97 <=? n)%nat && (n <=? 122)%nat)
  || ((65 <=? n)%nat && (n <=? 90)%nat)
  || ((48 <=? n)%nat && (n <=? 57)%nat)
  || Ascii.eqb c "_" || Ascii.eqb c "." || Ascii.eqb c "-".

(** [/^[a-zA-Z0-9_.-]+$/] *)
Definition isName (s : string) : bool :=
  negb (String.eqb s "")
  && forallb nameChar (list_ascii_of_string s).

(** [repo.match(/^[a-zA-Z0-9_.-]+\/[a-zA-Z0-9_.-]+$/)] *)
Definition validFormat (repo : string) : bool :=
  match split_on "/" repo with
  | [owner; name] => isName owner && isName name
  | _ => false
  end.

(** [config.repos.includes(repo)] *)
Definition includesRepo (repos : list string) (repo : string) : bool :=
  existsb (String.eqb repo) repos.

Definition addRepo (repo : string) (repos : list string)
  : string + list string :=
  if negb (validFormat repo)
  then inl "Invalid repo format. Expected: owner/repo"
  else if includesRepo repos repo
  then inl "Repository already exists in config"
  else inr (repos ++ [repo]).

(** [repos.splice(repos.indexOf(repo), 1)]: without the first
    occurrence. *)
Fixpoint removeFirst (repo : string) (repos : list string) : list string :=
  match repos with
  | [] => []
  | r :: rest => if String.eqb r repo then rest else r :: removeFirst repo rest
  end.

Definition removeRepo (repo : string) (repos : list string)
  : string + list string :=
  if negb (includesRepo repos repo)
  then inl "Repository not found in config"
  else inr (removeFirst repo repos).

Definition addMultipleRepos (new : list string) (repos : list string)
  : list string :=
  fold_left
    (fun acc repo =>
       if negb (validFormat repo) then acc
       else if negb (includesRepo acc repo) then acc ++ [repo] else acc)
    new repos.

End Config.

(** ** The analysis route ([app/api/analyze/route.ts]) *)

Module Analyze.

Open Scope string_scope.
Open Scope Z_scope.
Open Scope list_scope.

(** The answers of [GET]: status 400 with its message, status 404 with
    [needsSync], status 200 with the analysis and the size of the cache,
    and status 500 from the handler's [catch]. *)
Inductive Response :=
| BadRequest (error : string)
| NeedsSync
| Analysis (results : AnalysisResult) (totalCachedPRs : Z)
| ServerError.

(** [GET]: [since] and [until] are the two dates after the defaults are
    applied, [None] the Invalid Date; [repos] is the list read from the
    query or from the configuration. *)
Definition GET (since until : option Z) (repos : list string)
  (d : Database.Db) : Response :=
  match since, until with
  | Some since, Some until =>
      if until <? since
      then BadRequest "Start date must be before end date"
      else if (List.length repos =? 0)%nat
      then BadRequest "No repositories configured. Add repositories first."
      else
        let prs := Database.getPullRequests repos since until d in
        let totalCached := Database.getTotalCachedPRs d in
        if (List.length prs =? 0)%nat then NeedsSync
        else match Analyzer.analyzeResults prs repos since until with
             | Some results => Analysis results totalCached
             | None => ServerError
             end
  | _, _ => BadRequest "Invalid date format. Use ISO 8601 format."
  end.

End Analyze.

(** ** Specification-level notions used by the statements *)

Module Spec.

Open Scope string_scope.
Open Scope Z_scope.

(** The total changed lines of a file list. *)
Definition totalChangedLines (files : list Sync.GraphQLFileNode) : Z :=
  sumZ (map (fun f => Sync.f_additions f + Sync.f_deletions f) files).

(** Every record carries a creation timestamp that is a date. *)
Definition wellDated (prs : list PullRequest) : Prop :=
  Forall (fun pr => Dates.parseISO (createdAt pr) <> None) prs.

(** The sum of the optional review counts, absent counts as 0. *)
Definition reviewCountSum (prs : list PullRequest) : Z :=
  sumZ (map (fun pr => or0 (reviewCount pr)) prs).

(** The sum of [totalReviews] over the reviewer entries. *)
Definition reviewerTotal (rs : list ReviewerStats) : Z :=
  sumZ (map r_totalReviews rs).

(** The nodes of a page before the first one older than the cutoff. *)
Fixpoint keptPrefix (cutoff : Z) (nodes : list Sync.GraphQLPRNode)
  : list Sync.GraphQLPRNode :=
  match nodes with
  | [] => []
  | n :: rest =>
      if Sync.olderThan cutoff n then [] else n :: keptPrefix cutoff rest
  end.


(** The entry recorded for a repository whose sync threw [e]. *)
Definition errorEntry (repoPath : string) (e : Sync.Thrown)
  : Sync.SyncResult :=
  {| Sync.res_repo := repoPath; Sync.synced := 0;
     Sync.error := Some (Sync.messageOf e) |}.

(** The (repository, number) pair of a stored row. *)
Definition rowKey (row : Database.Row) : string * Z :=
  (Database.row_repo row, Database.row_number row).

(** No two stored rows share their (repository, number) pair. *)
Definition uniqueKeys (d : Database.Db) : Prop :=
  NoDup (map rowKey (Database.pull_requests d)).

(** Every record carries a complexity score, as the records of an
    analysis result do. *)
Definition annotated (prs : list PullRequest) : Prop :=
  Forall (fun pr => complexity pr <> None) prs.

(** The records a contributor owns. *)
Definition owned (handle : string) (prs : list PullRequest)
  : list PullRequest :=
  filter (fun pr => String.eqb (author pr) handle) prs.

(** The line estimates of one record: each language of its language map
    with [round(pct / 100 * (additions + deletions))]. *)
Definition estimatesOf (pr : PullRequest) : list (string * Z) :=
  match languages pr with
  | Some langs =>
      map (fun e => (fst e, Analyzer.lineEstimate
                              (snd e) (additions pr + deletions pr)))
          langs
  | None => []
  end.

Definition allEstimates (l : list PullRequest) : list (string * Z) :=
  flat_map estimatesOf l.

(** The sum of the estimates of one language in a list of estimates. *)
Definition sumFor (lang : string) (es : list (string * Z)) : Z :=
  sumZ (map snd (filter (fun e => String.eqb (fst e) lang) es)).

(** The percentage of a language re-derived from the line estimates summed
    over a list of records: absent when the language occurs in no language
    map or the estimates do not add up to a positive total. *)
Definition rederived (l : list PullRequest) (lang : string) : option Z :=
  let total := sumZ (map snd (allEstimates l)) in
  if (0 <? total) && existsb (String.eqb lang) (map fst (allEstimates l))
  then Some (Analyzer.percentOf (sumFor lang (allEstimates l)) total)
  else None.

(** [stats?.[lang]] *)
Definition statsLookup (stats : option (Obj Z)) (lang : string) : option Z :=
  match stats with
  | Some m => obj_get m lang
  | None => None
  end.

(** The language maps are objects: no key occurs twice. *)
Definition languageMapsAreObjects (prs : list PullRequest) : Prop :=
  Forall (fun pr => match languages pr with
                    | Some langs => NoDup (obj_keys langs)
                    | None => True
                    end) prs.

(** One turn of [lines[lang] = (lines[lang] || 0) + n]. *)
Definition addEstimate (acc : Obj Z) (e : string * Z) : Obj Z :=
  obj_set acc (fst e) (or0 (obj_get acc (fst e)) + snd e).

(** The first instant after the year 9999, 10000-01-01T00:00:00Z: the
    labels of the timeline have four-digit years up to there. *)
Definition END_OF_LABELS : Z := 253402300800000.

(** An instant between the epoch and the end of the year 9999. *)
Definition labelled (t : Z) : Prop := 0 <= t < END_OF_LABELS.

(** The labels of the pre-created buckets of a date window. *)
Definition bucketLabels (startDate endDate : Z) : list string :=
  let '(intervals, formatStr) :=
    Analyzer.timelineIntervals startDate endDate in
  map (fun d => Dates.format d formatStr) intervals.

(** The first instant after the bucket that starts at [d]: the next day
    for daily buckets, seven days later for weekly ones, the first of the
    next month for monthly ones. *)
Definition bucketEnd (startDate endDate d : Z) : Z :=
  let daysDiff := Dates.differenceInDays endDate startDate in
  if daysDiff <=? 31 then d + Dates.MS_PER_DAY
  else if daysDiff <=? 180 then d + 7 * Dates.MS_PER_DAY
  else
    let i := Dates.month_index d + 1 in
    Dates.days_from_civil (i / 12) (i mod 12 + 1) 1 * Dates.MS_PER_DAY.

(** The instant [t] lies in the interval of the bucket that starts at
    [d]: from [d] on and before the bucket's end. *)
Definition withinBucket (startDate endDate t d : Z) : bool :=
  (d <=? t) && (t <? bucketEnd startDate endDate d).

(** The instant [t] lies in the interval of one of the pre-created
    buckets of the window. *)
Definition coveredByBuckets (startDate endDate t : Z) : bool :=
  existsb (withinBucket startDate endDate t)
          (fst (Analyzer.timelineIntervals startDate endDate)).

(** A bucket without records. *)
Definition isEmptyBucket (t : TimelineData) : Prop :=
  t_count t = 0 /\ t_sizes t = zeroCounts.

(** The combined score in exact arithmetic,
    [0.7 * (additions + deletions) + 0.3 * (filesChanged * 20)]. *)
Definition exactScore (additions deletions filesChanged : Z) : Q :=
  ((7 # 10) * inject_Z (additions + deletions)
   + (3 # 10) * inject_Z (filesChanged * 20))%Q.

(** The bucket of the exact score: strict comparisons with the ascending
    thresholds, first match first. *)
Definition classify (additions deletions filesChanged : Z) : PRSize :=
  let score := exactScore additions deletions filesChanged in
  if Num.flt score 10 then Size.XS
  else if Num.flt score 50 then Size.S
  else if Num.flt score 200 then Size.M
  else if Num.flt score 500 then Size.L
  else if Num.flt score 1000 then Size.XL
  else Size.XXL.

(** The number of records of one size. *)
Definition countSize (s : PRSize) (l : list PullRequest) : Z :=
  lengthZ (filter (fun pr => PRSize_eqb (size pr) s) l).

(** The sum of the six counters. *)
Definition totalOf (c : SizeCounts) : Z :=
  nXS c + nS c + nM c + nL c + nXL c + nXXL c.

(** The review events of a list of records, each with the number of its
    pull request; a record without [reviews] has none. *)
Definition reviewEvents (prs : list PullRequest)
  : list (PullRequest * PRReview) :=
  flat_map (fun pr => match reviews pr with
                      | Some rs => map (fun r => (pr, r)) rs
                      | None => []
                      end) prs.

(** The review events of one reviewer. *)
Definition eventsOf (login : string) (prs : list PullRequest)
  : list (PullRequest * PRReview) :=
  filter (fun e => String.eqb (reviewer (snd e)) login) (reviewEvents prs).

(** The number of events in a given state. *)
Definition countReviews (s : ReviewState)
  (es : list (PullRequest * PRReview)) : Z :=
  lengthZ (filter (fun e => Analyzer.review_is (snd e) s) es).

(** A repository whose last sync is less than an hour before [now]. *)
Definition recentlySynced (now : Z) (d : Database.Db) (repoPath : string)
  : bool :=
  match Database.getLastSyncedAt repoPath d with
  | Some lastSynced => now - lastSynced <? 60 * 60 * 1000
  | None => false
  end.

(** No two stored rows share their [id], and no two rows of [sync_status]
    their [repo]: the primary keys of the two tables. *)
Definition uniqueIds (d : Database.Db) : Prop :=
  NoDup (map Database.row_id (Database.pull_requests d)).

Definition oneStatusPerRepo (d : Database.Db) : Prop :=
  NoDup (map Database.s_repo (Database.sync_status d)).

End Spec.

(** ** Sample data *)

Module Samples.

Open Scope string_scope.
Open Scope Z_scope.

(** A record without changed lines, files, languages or reviews. *)
Definition emptyRecord : PullRequest :=
  {| id := 1; number := 1; title := "typo"; author := "alice";
     authorAvatar := ""; state := open;
     createdAt := "2025-07-02T10:00:00Z"; mergedAt := None;
     closedAt := None; additions := 0; deletions := 0; changedFiles := 0;
     size := Size.XS; url := ""; repo := "o/r"; languages := None;
     reviewCount := None; reviews := None; complexity := None |}.

(** A pull request as the hosting API reports it: three reviews in total,
    two of them by accounts that no longer exist. *)
Definition reviewedNode : Sync.GraphQLPRNode :=
  {| Sync.n_id := "PR_kwDOAbCdEf"; Sync.n_number := 7;
     Sync.n_title := "Add parser"; Sync.n_state := Sync.MERGED;
     Sync.n_createdAt := "2025-07-02T10:00:00Z";
     Sync.n_updatedAt := "2025-07-03T08:30:00Z";
     Sync.n_mergedAt := Some "2025-07-03T08:30:00Z";
     Sync.n_closedAt := Some "2025-07-03T08:30:00Z";
     Sync.n_additions := 120; Sync.n_deletions := 30;
     Sync.n_changedFiles := 3; Sync.n_url := "https://example.org/pr/7";
     Sync.n_author := Some ("alice", "https://example.org/alice.png");
     Sync.n_files :=
       Some [ {| Sync.path := "src/parser.py"; Sync.f_additions := 120;
                 Sync.f_deletions := 30 |} ];
     Sync.n_reviews :=
       Some (3, [ {| Sync.rv_author := None; Sync.rv_state := COMMENTED;
                     Sync.rv_submittedAt := "2025-07-02T12:00:00Z" |};
                  {| Sync.rv_author := None; Sync.rv_state := COMMENTED;
                     Sync.rv_submittedAt := "2025-07-02T13:00:00Z" |};
                  {| Sync.rv_author := Some "bob"; Sync.rv_state := APPROVED;
                     Sync.rv_submittedAt := "2025-07-03T08:00:00Z" |} ]) |}.

(** The record the sync stores for it. *)
Definition reviewedRecord : PullRequest :=
  Sync.buildPullRequest Sync.EXTENSION_TO_LANGUAGE "octo/parser" reviewedNode.

(** 2025-07-01T00:00:00Z and 2025-07-10T23:59:59Z *)
Definition july1 : Z := 1751328000000.
Definition july10_end : Z := 1752191999000.

(** A clock that advances by one second per reading. *)
Definition sampleClock (k : nat) : Z := july10_end + 1000 * Z.of_nat k.

Definition emptyWorld : Sync.World :=
  {| Sync.db := Database.emptyDb; Sync.ticks := 0 |}.

(** A request for three repositories: the first fetch throws, the others
    answer one page. *)
Definition requestWithFailure (message : string)
  : list (string * Sync.Source) :=
  [ ("octo/broken", Sync.Fails (Sync.ErrorObject message));
    ("octo/parser", Sync.Page [reviewedNode] None);
    ("octo/empty", Sync.Page [] None) ].

(** Two pull requests of different repositories whose node identifiers
    hold the same digits, 8, 5 and 4. *)
Definition parserNode : Sync.GraphQLPRNode :=
  {| Sync.n_id := "PR_kwDOJ8fK5sXq4mZb"; Sync.n_number := 12;
     Sync.n_title := "Parse dates"; Sync.n_state := Sync.OPEN;
     Sync.n_createdAt := "2025-07-04T09:00:00Z";
     Sync.n_updatedAt := "2025-07-05T09:00:00Z";
     Sync.n_mergedAt := None; Sync.n_closedAt := None;
     Sync.n_additions := 40; Sync.n_deletions := 2;
     Sync.n_changedFiles := 2; Sync.n_url := "https://example.org/pr/12";
     Sync.n_author := Some ("alice", "https://example.org/alice.png");
     Sync.n_files :=
       Some [ {| Sync.path := "src/dates.ts"; Sync.f_additions := 40;
                 Sync.f_deletions := 2 |} ];
     Sync.n_reviews := Some (0, []) |}.

Definition lexerNode : Sync.GraphQLPRNode :=
  {| Sync.n_id := "PR_kwDOQ85zP4LmNoPq"; Sync.n_number := 31;
     Sync.n_title := "Lex strings"; Sync.n_state := Sync.OPEN;
     Sync.n_createdAt := "2025-07-06T09:00:00Z";
     Sync.n_updatedAt := "2025-07-06T10:00:00Z";
     Sync.n_mergedAt := None; Sync.n_closedAt := None;
     Sync.n_additions := 10; Sync.n_deletions := 1;
     Sync.n_changedFiles := 1; Sync.n_url := "https://example.org/pr/31";
     Sync.n_author := Some ("bob", "https://example.org/bob.png");
     Sync.n_files :=
       Some [ {| Sync.path := "src/lexer.rs"; Sync.f_additions := 10;
                 Sync.f_deletions := 1 |} ];
     Sync.n_reviews := Some (0, []) |}.

Definition parserRecord : PullRequest :=
  Sync.buildPullRequest Sync.EXTENSION_TO_LANGUAGE "octo/parser" parserNode.

Definition lexerRecord : PullRequest :=
  Sync.buildPullRequest Sync.EXTENSION_TO_LANGUAGE "octo/lexer" lexerNode.

(** The cache after the first record is upserted, then the second. *)
Definition cacheAfterParser : Database.Db :=
  Database.savePullRequests sampleClock [parserRecord] Database.emptyDb.

Definition cacheAfterLexer : Database.Db :=
  Database.savePullRequests (fun i => sampleClock (10 + i)) [lexerRecord]
                            cacheAfterParser.

(** The analysis of two records of one repository over ten days of July
    2025, and its recomputation under filters that let everything pass. *)
Definition julyAnalysis : option AnalysisResult :=
  Analyzer.analyzeResults [parserRecord; reviewedRecord] ["octo/parser"]
                          july1 july10_end.

Definition julyRefiltered : option AnalysisResult :=
  Dashboard.filteredData julyAnalysis Dashboard.ALL_SIZES [] ["octo/parser"].

(** A record of [handle] with the given changed lines and language map. *)
Definition recordOf (n : Z) (handle : string) (lines : Z) (langs : Obj Z)
  : PullRequest :=
  {| id := n; number := n; title := "change"; author := handle;
     authorAvatar := ""; state := merged;
     createdAt := "2025-07-02T10:00:00Z"; mergedAt := None;
     closedAt := None; additions := lines; deletions := 0;
     changedFiles := 1; size := Size.M; url := ""; repo := "o/r";
     languages := Some langs; reviewCount := None; reviews := None;
     complexity := None |}.

(** One record at 100% Python over 100 lines, one at 50% Python and 50%
    JSON over 200 lines. *)
Definition pythonRecords : list PullRequest :=
  [ recordOf 1 "carol" 100 [("Python", 100)];
    recordOf 2 "carol" 200 [("Python", 50); ("JSON", 50)] ].

(** A record created on 15 August 2025, outside the July window. *)
Definition augustRecord : PullRequest :=
  {| id := 99; number := 99; title := "late"; author := "dave";
     authorAvatar := ""; state := open;
     createdAt := "2025-08-15T12:00:00Z"; mergedAt := None;
     closedAt := None; additions := 3; deletions := 1; changedFiles := 1;
     size := Size.XS; url := ""; repo := "octo/parser"; languages := None;
     reviewCount := None; reviews := None; complexity := None |}.

(** The entry of carol in the contributor list of [pythonRecords]. *)
Definition carolEntry : ContributorStats :=
  Analyzer.finishContributor
    (fold_left Analyzer.updateContributor
       [recordOf 2 "carol" 200 [("Python", 50); ("JSON", 50)]]
       (Analyzer.newContributor (recordOf 1 "carol" 100 [("Python", 100)]))).

(** The entry of bob in the reviewer list of [reviewedRecord]. *)
Definition bobEntry : ReviewerStats :=
  {| r_username := "bob"; r_totalReviews := 1; r_approvals := 1;
     r_changesRequested := 0; r_comments := 0; r_reviewedPRs := [7] |}.

(** 2025-08-15T00:00:00Z, 45 days after [july1], and
    2025-12-25T12:00:00Z *)
Definition august15 : Z := 1755216000000.
Definition december25_noon : Z := 1766664000000.

(** A record created on 25 December 2025, months after a window that
    ends on 15 August. *)
Definition decemberRecord : PullRequest :=
  {| id := 100; number := 100; title := "holiday"; author := "erin";
     authorAvatar := ""; state := open;
     createdAt := "2025-12-25T12:00:00Z"; mergedAt := None;
     closedAt := None; additions := 3; deletions := 1; changedFiles := 1;
     size := Size.XS; url := ""; repo := "octo/parser"; languages := None;
     reviewCount := None; reviews := None; complexity := None |}.

End Samples.

(** * Properties *)

Open Scope string_scope.
Open Scope Z_scope.
Open Scope list_scope.

(** ** Size classification *)

(** The buckets are cut by strict comparisons of the computed score with
    the ascending thresholds, first match first. *)
Lemma calculatePRSize_by_thresholds (a d f : Z) :
  let c := Analyzer.combinedScore a d f in
  Analyzer.calculatePRSize a d f =
    if Num.flt c (Num.of_int 10) then Size.XS
    else if Num.flt c (Num.of_int 50) then Size.S
    else if Num.flt c (Num.of_int 200) then Size.M
    else if Num.flt c (Num.of_int 500) then Size.L
    else if Num.flt c (Num.of_int 1000) then Size.XL
    else Size.XXL.
Proof. reflexivity. Qed.

(** The Standard Library's IEEE 754 binary64 operations compute the same
    score, [499.99999999999994], for 680 changed lines in 4 files. *)
Lemma combinedScore_680_4_binary64 :
  Num.SF2Q
    (Num.b64_add (Num.b64_mul (Num.b64_of_Z 680) (Num.b64_lit 7 10))
                 (Num.b64_mul (Num.b64_of_Z (4 * 20)) (Num.b64_lit 3 10)))
  = Some (Analyzer.combinedScore 680 0 4).
Proof. vm_compute. reflexivity. Qed.

(** A threshold input whose products are exact lands in the higher
    bucket: 20 lines in 6 files score exactly 50. *)
Lemma calculatePRSize_20_6 :
  (Spec.exactScore 20 0 6 == 50)%Q
  /\ Analyzer.combinedScore 20 0 6 = 50%Q
  /\ Analyzer.calculatePRSize 20 0 6 = Size.M.
Proof. split; [ reflexivity | split; vm_compute; reflexivity ]. Qed.

(** C4, at the failing input: 680 changed lines in 4 files have the
    combined score 0.7 * 680 + 0.3 * 80 = 500 exactly, a threshold, whose
    bucket is XL; the binary64 product 680 * 0.7 is 475.99999999999994,
    the computed score is below 500 and the function answers L. *)
Theorem calculatePRSize_680_4_lower_bucket :
  (Spec.exactScore 680 0 4 == 500)%Q
  /\ Spec.classify 680 0 4 = Size.XL
  /\ Analyzer.combinedScore 680 0 4
     = (8796093022207999 # 17592186044416)%Q
  /\ Num.flt (Analyzer.combinedScore 680 0 4) (Num.of_int 500) = true
  /\ Analyzer.calculatePRSize 680 0 4 = Size.L.
Proof.
  split; [ reflexivity | ].
  repeat split; vm_compute; reflexivity.
Qed.

(** The same happens at the threshold 1000. *)
Lemma calculatePRSize_1420_1_lower_bucket :
  (Spec.exactScore 1420 0 1 == 1000)%Q
  /\ Spec.classify 1420 0 1 = Size.XXL
  /\ Analyzer.calculatePRSize 1420 0 1 = Size.XL.
Proof. split; [ reflexivity | split; vm_compute; reflexivity ]. Qed.

(** ** Complexity score *)

Lemma sizeScore_steps (pr : PullRequest) :
  let lines := additions pr + deletions pr in
  (lines <= 50 -> Analyzer.sizeScore pr = 5)
  /\ (50 < lines <= 200 -> Analyzer.sizeScore pr = 15)
  /\ (200 < lines <= 500 -> Analyzer.sizeScore pr = 25)
  /\ (500 < lines <= 1000 -> Analyzer.sizeScore pr = 35)
  /\ (1000 < lines -> Analyzer.sizeScore pr = 40).
Proof.
  cbv zeta. unfold Analyzer.sizeScore.
  repeat match goal with
         | |- context [?a <=? ?b] => destruct (Z.leb_spec a b)
         end; repeat split; intros; lia.
Qed.

Lemma fileScore_steps (pr : PullRequest) :
  let files := changedFiles pr in
  (files <= 2 -> Analyzer.fileScore pr = 5)
  /\ (2 < files <= 5 -> Analyzer.fileScore pr = 10)
  /\ (5 < files <= 10 -> Analyzer.fileScore pr = 15)
  /\ (10 < files <= 20 -> Analyzer.fileScore pr = 20)
  /\ (20 < files -> Analyzer.fileScore pr = 25).
Proof.
  cbv zeta. unfold Analyzer.fileScore.
  repeat match goal with
         | |- context [?a <=? ?b] => destruct (Z.leb_spec a b)
         end; repeat split; intros; lia.
Qed.

Lemma reviewScore_steps (pr : PullRequest) :
  let n := or0 (reviewCount pr) in
  (n = 0 -> Analyzer.reviewScore pr = 0)
  /\ (n <> 0 -> n <= 2 -> Analyzer.reviewScore pr = 5)
  /\ (2 < n <= 5 -> Analyzer.reviewScore pr = 10)
  /\ (5 < n -> Analyzer.reviewScore pr = 15).
Proof.
  cbv zeta. unfold Analyzer.reviewScore.
  destruct (Z.eqb_spec (or0 (reviewCount pr)) 0);
  repeat match goal with
         | |- context [?a <=? ?b] => destruct (Z.leb_spec a b)
         end; repeat split; intros; lia.
Qed.

Lemma languageScore_range (pr : PullRequest) :
  0 <= Analyzer.languageScore pr <= 20.
Proof.
  unfold Analyzer.languageScore.
  destruct (languages pr) as [langs|]; [ | lia ].
  destruct (0 <? List.length (obj_keys langs))%nat; [ | lia ].
  destruct (Analyzer.weightSums langs) as [weightedSum totalWeight].
  destruct (Num.flt 0 totalWeight); lia.
Qed.

Lemma languageScore_without_languages (pr : PullRequest) :
  languages pr = None -> Analyzer.languageScore pr = 10.
Proof. intros H. unfold Analyzer.languageScore. now rewrite H. Qed.

Lemma sizeScore_range (pr : PullRequest) : 5 <= Analyzer.sizeScore pr <= 40.
Proof.
  unfold Analyzer.sizeScore.
  repeat match goal with
         | |- context [?a <=? ?b] => destruct (a <=? b)
         end; lia.
Qed.

Lemma fileScore_range (pr : PullRequest) : 5 <= Analyzer.fileScore pr <= 25.
Proof.
  unfold Analyzer.fileScore.
  repeat match goal with
         | |- context [?a <=? ?b] => destruct (a <=? b)
         end; lia.
Qed.

Lemma reviewScore_range (pr : PullRequest) :
  0 <= Analyzer.reviewScore pr <= 15.
Proof.
  unfold Analyzer.reviewScore.
  destruct (or0 (reviewCount pr) =? 0);
  repeat match goal with
         | |- context [?a <=? ?b] => destruct (a <=? b)
         end; lia.
Qed.

(** The outer clamp never changes the sum. *)
Lemma calculateComplexity_is_sum (pr : PullRequest) :
  Analyzer.calculateComplexity pr
  = Analyzer.sizeScore pr + Analyzer.fileScore pr
    + Analyzer.languageScore pr + Analyzer.reviewScore pr.
Proof.
  pose proof (sizeScore_range pr) as Bs.
  pose proof (fileScore_range pr) as Bf.
  pose proof (languageScore_range pr) as Bl.
  pose proof (reviewScore_range pr) as Br.
  unfold Analyzer.calculateComplexity. cbv zeta.
  revert Bs Bf Bl Br.
  generalize (Analyzer.sizeScore pr), (Analyzer.fileScore pr),
             (Analyzer.languageScore pr), (Analyzer.reviewScore pr).
  intros s f l r Bs Bf Bl Br. lia.
Qed.

(** C5: the complexity score is the sum of the four sub-scores, each
    within its component maximum (40, 25, 20, 15), so it lies in [0, 100];
    every step of a sub-score includes its upper bound; and a record with
    no changed lines, no changed files, no language map and no reviews
    scores 5 + 5 + 10 + 0 = 20. *)
Theorem calculateComplexity_sum_of_clamped_components (pr : PullRequest) :
  let lines := additions pr + deletions pr in
  let files := changedFiles pr in
  let n := or0 (reviewCount pr) in
  0 <= Analyzer.calculateComplexity pr <= 100
  /\ Analyzer.calculateComplexity pr
     = Analyzer.sizeScore pr + Analyzer.fileScore pr
       + Analyzer.languageScore pr + Analyzer.reviewScore pr
  /\ 5 <= Analyzer.sizeScore pr <= 40
  /\ 5 <= Analyzer.fileScore pr <= 25
  /\ 0 <= Analyzer.languageScore pr <= 20
  /\ 0 <= Analyzer.reviewScore pr <= 15
  /\ ((lines <= 50 -> Analyzer.sizeScore pr = 5)
      /\ (50 < lines <= 200 -> Analyzer.sizeScore pr = 15)
      /\ (200 < lines <= 500 -> Analyzer.sizeScore pr = 25)
      /\ (500 < lines <= 1000 -> Analyzer.sizeScore pr = 35)
      /\ (1000 < lines -> Analyzer.sizeScore pr = 40))
  /\ ((files <= 2 -> Analyzer.fileScore pr = 5)
      /\ (2 < files <= 5 -> Analyzer.fileScore pr = 10)
      /\ (5 < files <= 10 -> Analyzer.fileScore pr = 15)
      /\ (10 < files <= 20 -> Analyzer.fileScore pr = 20)
      /\ (20 < files -> Analyzer.fileScore pr = 25))
  /\ ((n = 0 -> Analyzer.reviewScore pr = 0)
      /\ (n <> 0 -> n <= 2 -> Analyzer.reviewScore pr = 5)
      /\ (2 < n <= 5 -> Analyzer.reviewScore pr = 10)
      /\ (5 < n -> Analyzer.reviewScore pr = 15))
  /\ (languages pr = None -> Analyzer.languageScore pr = 10)
  /\ (lines = 0 -> files = 0 -> languages pr = None -> n = 0 ->
      Analyzer.calculateComplexity pr = 20).
Proof.
  cbv zeta.
  pose proof (sizeScore_steps pr) as Hs.
  pose proof (fileScore_steps pr) as Hf.
  pose proof (reviewScore_steps pr) as Hr.
  pose proof (languageScore_without_languages pr) as Hn.
  pose proof (sizeScore_range pr) as Bs.
  pose proof (fileScore_range pr) as Bf.
  pose proof (languageScore_range pr) as Bl.
  pose proof (reviewScore_range pr) as Br.
  pose proof (calculateComplexity_is_sum pr) as E.
  cbv zeta in Hs, Hf, Hr.
  split; [ rewrite E; split | ].
  - apply Z.le_trans with (5 + 5 + 0 + 0); [ discriminate | ].
    repeat apply Z.add_le_mono; tauto.
  - apply Z.le_trans with (40 + 25 + 20 + 15); [ | discriminate ].
    repeat apply Z.add_le_mono; tauto.
  - repeat match goal with |- _ /\ _ => split end;
      try solve [ assumption | tauto ].
    intros H1 H2 H3 H4.
    destruct Hs as [Hs _]. destruct Hf as [Hf _]. destruct Hr as [Hr _].
    rewrite E, Hs, Hf, Hr, Hn; trivial.
    + rewrite H2. discriminate.
    + rewrite H1. discriminate.
Qed.

Lemma calculateComplexity_sum_of_clamped_components_witness :
  Analyzer.calculateComplexity Samples.emptyRecord = 20.
Proof.
  apply (calculateComplexity_sum_of_clamped_components Samples.emptyRecord);
    reflexivity.
Defined.

(** ** Dictionaries, sums and sorting *)

Arguments sumZ : simpl never.

Lemma sumZ_from (xs : list Z) (a : Z) : fold_left Z.add xs a = a + sumZ xs.
Proof.
  unfold sumZ. revert a.
  induction xs as [|x xs IH]; intros a; simpl; [ lia | ].
  rewrite (IH (a + x)), (IH x). lia.
Qed.

Lemma sumZ_cons (x : Z) (xs : list Z) : sumZ (x :: xs) = x + sumZ xs.
Proof. unfold sumZ at 1. simpl. apply sumZ_from. Qed.

Lemma sumZ_app (xs ys : list Z) : sumZ (xs ++ ys) = sumZ xs + sumZ ys.
Proof.
  induction xs as [|x xs IH]; simpl; [ reflexivity | ].
  rewrite !sumZ_cons, IH. lia.
Qed.

Section ObjFacts.

Context {V : Type}.

Lemma obj_get_set_eq (o : Obj V) (k : string) (v : V) :
  obj_get (obj_set o k v) k = Some v.
Proof.
  induction o as [|[k' v'] o IH]; simpl.
  - now rewrite String.eqb_refl.
  - destruct (String.eqb_spec k' k) as [->|N]; simpl.
    + now rewrite String.eqb_refl.
    + destruct (String.eqb_spec k' k); [ contradiction | exact IH ].
Qed.

Lemma obj_get_set_neq (o : Obj V) (k k' : string) (v : V) :
  k <> k' -> obj_get (obj_set o k v) k' = obj_get o k'.
Proof.
  intros N. induction o as [|[k0 v0] o IH]; simpl.
  - destruct (String.eqb_spec k k'); [ contradiction | reflexivity ].
  - destruct (String.eqb_spec k0 k) as [->|N0]; simpl.
    + destruct (String.eqb_spec k k'); [ contradiction | reflexivity ].
    + destruct (String.eqb_spec k0 k'); [ reflexivity | exact IH ].
Qed.

Lemma obj_get_None (o : Obj V) (k : string) :
  obj_get o k = None <-> ~ In k (obj_keys o).
Proof.
  induction o as [|[k' v'] o IH]; simpl.
  - tauto.
  - destruct (String.eqb_spec k' k) as [->|N].
    + split; [ discriminate | intros H; exfalso; apply H; now left ].
    + rewrite IH. tauto.
Qed.

Lemma obj_get_Some_In (o : Obj V) (k : string) (v : V) :
  obj_get o k = Some v -> In (k, v) o.
Proof.
  induction o as [|[k' v'] o IH]; simpl; [ discriminate | ].
  destruct (String.eqb_spec k' k) as [->|N].
  - intros [= ->]. now left.
  - intros H. right. now apply IH.
Qed.

Lemma obj_get_In (o : Obj V) (k : string) (v : V) :
  NoDup (obj_keys o) -> In (k, v) o -> obj_get o k = Some v.
Proof.
  induction o as [|[k' v'] o IH]; simpl; [ tauto | ].
  intros ND [E|H].
  - injection E as -> ->. now rewrite String.eqb_refl.
  - inversion ND as [|? ? Hn ND']; subst.
    destruct (String.eqb_spec k' k) as [->|N].
    + exfalso. apply Hn. unfold obj_keys.
      change k with (fst (k, v)). now apply in_map.
    + now apply IH.
Qed.

(** Assigning an absent key appends it; assigning a present key keeps the
    keys. *)
Lemma obj_set_absent (o : Obj V) (k : string) (v : V) :
  ~ In k (obj_keys o) -> obj_set o k v = o ++ [(k, v)].
Proof.
  induction o as [|[k' v'] o IH]; simpl; [ reflexivity | ].
  intros H. destruct (String.eqb_spec k' k) as [->|N].
  - exfalso. apply H. now left.
  - f_equal. apply IH. tauto.
Qed.

Lemma obj_keys_set_present (o : Obj V) (k : string) (v : V) :
  In k (obj_keys o) -> obj_keys (obj_set o k v) = obj_keys o.
Proof.
  induction o as [|[k' v'] o IH]; simpl; [ tauto | ].
  intros H. destruct (String.eqb_spec k' k) as [->|N]; simpl.
  - reflexivity.
  - f_equal. apply IH. destruct H; [ contradiction | assumption ].
Qed.

Lemma obj_keys_set (o : Obj V) (k : string) (v : V) :
  obj_keys (obj_set o k v) = obj_keys o
  \/ (~ In k (obj_keys o) /\ obj_keys (obj_set o k v) = obj_keys o ++ [k]).
Proof.
  destruct (in_dec string_dec k (obj_keys o)) as [H|H].
  - left. now apply obj_keys_set_present.
  - right. split; [ assumption | ].
    rewrite obj_set_absent by assumption.
    unfold obj_keys. now rewrite map_app.
Qed.

Lemma obj_keys_set_In (o : Obj V) (k k' : string) (v : V) :
  In k' (obj_keys (obj_set o k v)) <-> k' = k \/ In k' (obj_keys o).
Proof.
  destruct (obj_keys_set o k v) as [E|[N E]]; rewrite E.
  - split; [ tauto | ].
    intros [->|H]; [ | assumption ].
    destruct (in_dec string_dec k (obj_keys o)) as [H|H]; [ assumption | ].
    exfalso.
    assert (G : obj_get (obj_set o k v) k = None).
    { apply obj_get_None. now rewrite E. }
    rewrite obj_get_set_eq in G. discriminate.
  - rewrite in_app_iff. simpl. intuition congruence.
Qed.

Lemma obj_set_NoDup (o : Obj V) (k : string) (v : V) :
  NoDup (obj_keys o) -> NoDup (obj_keys (obj_set o k v)).
Proof.
  intros ND. destruct (obj_keys_set o k v) as [E|[N E]]; rewrite E.
  - assumption.
  - apply NoDup_app; [ assumption | repeat constructor; simpl; tauto | ].
    intros x Hx [<-|[]]. contradiction.
Qed.

End ObjFacts.

(** A loop that assigns one value per entry of a dictionary rebuilds the
    dictionary entry by entry. *)
Lemma fold_obj_set_map {V W : Type} (g : string * V -> W) (l : Obj V)
  (acc : Obj W) :
  NoDup (obj_keys acc ++ obj_keys l) ->
  fold_left (fun a e => obj_set a (fst e) (g e)) l acc
  = acc ++ map (fun e => (fst e, g e)) l.
Proof.
  revert acc. induction l as [|[k v] l IH]; intros acc ND; simpl.
  - now rewrite app_nil_r.
  - simpl in ND.
    assert (Hk : ~ In k (obj_keys acc)).
    { intros H. apply NoDup_remove_2 in ND. apply ND.
      apply in_or_app. now left. }
    rewrite obj_set_absent by assumption.
    rewrite IH.
    + now rewrite <- app_assoc.
    + unfold obj_keys in *. rewrite map_app. simpl.
      rewrite <- app_assoc. simpl.
      apply NoDup_remove_1 in ND as ND1.
      apply NoDup_remove_2 in ND as ND2.
      clear -ND1 ND2.
      induction (map fst acc) as [|a r IHr]; simpl in *.
      * constructor; assumption.
      * inversion ND1 as [|? ? Hn ND']; subst. constructor.
        -- intros H. apply in_app_or in H. destruct H as [H|[<-|H]].
           ++ apply Hn. apply in_or_app. now left.
           ++ apply ND2. now left.
           ++ apply Hn. apply in_or_app. now right.
        -- apply IHr; [ assumption | ]. intros H. apply ND2. now right.
Qed.

Lemma sumZ_obj_set_add (o : Obj Z) (k : string) (x : Z) :
  sumZ (obj_values (obj_set o k (or0 (obj_get o k) + x)))
  = sumZ (obj_values o) + x.
Proof.
  induction o as [|[k' v'] o IH]; simpl.
  - unfold sumZ. simpl. lia.
  - destruct (String.eqb_spec k' k) as [->|N]; simpl.
    + rewrite !sumZ_cons. lia.
    + rewrite !sumZ_cons, IH. lia.
Qed.
(** ** Language attribution at sync time *)

Lemma languageLinesOf_snoc (table : Obj string)
  (files : list Sync.GraphQLFileNode) (f : Sync.GraphQLFileNode) :
  Sync.languageLinesOf table (files ++ [f])
  = let ll := Sync.languageLinesOf table files in
    let language := Sync.getLanguageFromPath table (Sync.path f) in
    obj_set ll language
      (or0 (obj_get ll language) + (Sync.f_additions f + Sync.f_deletions f)).
Proof. unfold Sync.languageLinesOf. now rewrite fold_left_app. Qed.

Lemma languageLinesOf_total (table : Obj string)
  (files : list Sync.GraphQLFileNode) :
  sumZ (obj_values (Sync.languageLinesOf table files))
  = Spec.totalChangedLines files.
Proof.
  induction files as [|f files IH] using rev_ind.
  - reflexivity.
  - rewrite languageLinesOf_snoc. cbv zeta.
    rewrite sumZ_obj_set_add, IH.
    unfold Spec.totalChangedLines. rewrite map_app, sumZ_app. simpl.
    rewrite sumZ_cons. unfold sumZ at 3. simpl. lia.
Qed.

Lemma languageLinesOf_NoDup (table : Obj string)
  (files : list Sync.GraphQLFileNode) :
  NoDup (obj_keys (Sync.languageLinesOf table files)).
Proof.
  induction files as [|f files IH] using rev_ind.
  - constructor.
  - rewrite languageLinesOf_snoc. now apply obj_set_NoDup.
Qed.

Lemma languageLinesOf_keys (table : Obj string)
  (files : list Sync.GraphQLFileNode) (lang : string) :
  In lang (obj_keys (Sync.languageLinesOf table files))
  <-> exists f, In f files
                /\ Sync.getLanguageFromPath table (Sync.path f) = lang.
Proof.
  induction files as [|f files IH] using rev_ind.
  - simpl. split; [ tauto | intros [f [[] _]] ].
  - rewrite languageLinesOf_snoc. cbv zeta. rewrite obj_keys_set_In, IH.
    split.
    + intros [->|[g [Hg E]]].
      * exists f. split; [ apply in_or_app; right; now left | reflexivity ].
      * exists g. split; [ apply in_or_app; now left | assumption ].
    + intros [g [Hg E]]. apply in_app_or in Hg. destruct Hg as [Hg|[<-|[]]].
      * right. now exists g.
      * left. now symmetry.
Qed.

(** The percentages are written entry by entry of the language lines. *)
Lemma languagesOf_map (table : Obj string)
  (files : list Sync.GraphQLFileNode) :
  Sync.languagesOf table files
  = map (fun e =>
           (fst e,
            if 0 <? sumZ (obj_values (Sync.languageLinesOf table files))
            then Analyzer.percentOf
                   (snd e)
                   (sumZ (obj_values (Sync.languageLinesOf table files)))
            else 0))
        (Sync.languageLinesOf table files).
Proof.
  unfold Sync.languagesOf. cbv zeta.
  rewrite (fold_obj_set_map
             (fun e =>
                if 0 <? sumZ (obj_values (Sync.languageLinesOf table files))
                then Analyzer.percentOf
                       (snd e)
                       (sumZ (obj_values (Sync.languageLinesOf table files)))
                else 0)).
  - reflexivity.
  - simpl. apply languageLinesOf_NoDup.
Qed.

(** C6, counterexample: one Markdown file without changed lines has total
    0, and its language map is [{"Markdown": 0}], not the empty map. *)
Lemma zero_total_gives_map_of_zeros :
  let files := [ {| Sync.path := "README.md"; Sync.f_additions := 0;
                    Sync.f_deletions := 0 |} ] in
  Spec.totalChangedLines files = 0
  /\ Sync.languagesOf Sync.EXTENSION_TO_LANGUAGE files = [("Markdown", 0)]
  /\ Sync.languagesOf Sync.EXTENSION_TO_LANGUAGE_stream files
     = [("Markdown", 0)]
  /\ Sync.languagesOf Sync.EXTENSION_TO_LANGUAGE files <> [].
Proof. repeat split; try (vm_compute; reflexivity). discriminate. Qed.

(** C6, as the code has it: when the total of changed lines is 0, every
    language of the file list is an entry of the language map and is mapped
    to 0 percent; the map is empty only for an empty file list. *)
Theorem languagesOf_zero_total (table : Obj string)
  (files : list Sync.GraphQLFileNode) :
  Spec.totalChangedLines files = 0 ->
  Sync.languagesOf table files
  = map (fun e => (fst e, 0)) (Sync.languageLinesOf table files)
  /\ (forall f, In f files ->
        obj_get (Sync.languagesOf table files)
                (Sync.getLanguageFromPath table (Sync.path f)) = Some 0)
  /\ (forall lang pct,
        obj_get (Sync.languagesOf table files) lang = Some pct -> pct = 0)
  /\ (Sync.languagesOf table files = [] <-> files = []).
Proof.
  intros T.
  assert (E : Sync.languagesOf table files
              = map (fun e => (fst e, 0)) (Sync.languageLinesOf table files)).
  { rewrite languagesOf_map, languageLinesOf_total, T. reflexivity. }
  assert (K : obj_keys (Sync.languagesOf table files)
              = obj_keys (Sync.languageLinesOf table files)).
  { rewrite E. unfold obj_keys. rewrite map_map. reflexivity. }
  assert (Z0 : forall lang pct,
             In (lang, pct) (Sync.languagesOf table files) -> pct = 0).
  { intros lang pct H. rewrite E in H. apply in_map_iff in H.
    destruct H as [e [[= _ <-] _]]. reflexivity. }
  repeat split.
  - exact E.
  - intros f Hf.
    destruct (obj_get (Sync.languagesOf table files)
                      (Sync.getLanguageFromPath table (Sync.path f)))
      as [pct|] eqn:G.
    + apply obj_get_Some_In in G. now rewrite (Z0 _ _ G).
    + exfalso. apply obj_get_None in G. apply G. rewrite K.
      apply languageLinesOf_keys. now exists f.
  - intros lang pct G. apply obj_get_Some_In in G. now apply (Z0 lang).
  - intros H. destruct files as [|f files]; [ reflexivity | exfalso ].
    assert (I : In (Sync.getLanguageFromPath table (Sync.path f))
                   (obj_keys (Sync.languagesOf table (f :: files)))).
    { rewrite K. apply languageLinesOf_keys. exists f.
      split; [ now left | reflexivity ]. }
    rewrite H in I. exact I.
  - intros ->. reflexivity.
Qed.

Lemma languagesOf_zero_total_witness :
  Spec.totalChangedLines
    [ {| Sync.path := "logo.png"; Sync.f_additions := 0;
         Sync.f_deletions := 0 |} ] = 0
  /\ Sync.languagesOf Sync.EXTENSION_TO_LANGUAGE
       [ {| Sync.path := "logo.png"; Sync.f_additions := 0;
            Sync.f_deletions := 0 |} ]
     = map (fun e => (fst e, 0))
           (Sync.languageLinesOf Sync.EXTENSION_TO_LANGUAGE
              [ {| Sync.path := "logo.png"; Sync.f_additions := 0;
                   Sync.f_deletions := 0 |} ]).
Proof.
  split; [ reflexivity | ].
  apply (languagesOf_zero_total Sync.EXTENSION_TO_LANGUAGE
           [ {| Sync.path := "logo.png"; Sync.f_additions := 0;
                Sync.f_deletions := 0 |} ]).
  reflexivity.
Defined.

(** ** The analysis returns a result on dated records *)

Lemma addToTimeline_some (daysDiff : Z) (intervals : list Z)
  (formatStr : string) (m : Obj TimelineData) (pr : PullRequest) :
  Dates.parseISO (createdAt pr) <> None ->
  exists m', Analyzer.addToTimeline daysDiff intervals formatStr m pr
             = Some m'.
Proof.
  intros H. unfold Analyzer.addToTimeline.
  destruct (Dates.parseISO (createdAt pr)) as [t|]; [ | contradiction ].
  destruct (obj_get m _); eauto.
Qed.

Lemma distribute_some (daysDiff : Z) (intervals : list Z)
  (formatStr : string) (prs : list PullRequest) (m : Obj TimelineData) :
  Spec.wellDated prs ->
  exists m', Analyzer.distribute daysDiff intervals formatStr prs m = Some m'.
Proof.
  intros W. revert m. induction W as [|pr prs H W IH]; intros m; simpl.
  - eauto.
  - destruct (addToTimeline_some daysDiff intervals formatStr m pr H)
      as [m' E].
    rewrite E. apply IH.
Qed.

Lemma aggregateTimeline_some (prs : list PullRequest) (startDate endDate : Z) :
  Spec.wellDated prs ->
  exists tl, Analyzer.aggregateTimeline prs startDate endDate = Some tl.
Proof.
  intros W. unfold Analyzer.aggregateTimeline.
  destruct (Analyzer.timelineIntervals startDate endDate)
    as [intervals formatStr].
  destruct (distribute_some (Dates.differenceInDays endDate startDate)
              intervals formatStr prs
              (Analyzer.initTimeline intervals formatStr) W) as [m E].
  rewrite E. eauto.
Qed.

Lemma annotate_wellDated (prs : list PullRequest) :
  Spec.wellDated prs -> Spec.wellDated (Analyzer.annotate prs).
Proof.
  unfold Spec.wellDated, Analyzer.annotate. intros W.
  apply Forall_map. simpl. exact W.
Qed.

Lemma analyzeResults_some (prs : list PullRequest) (repos : list string)
  (startDate endDate : Z) :
  Spec.wellDated prs ->
  exists r, Analyzer.analyzeResults prs repos startDate endDate = Some r.
Proof.
  intros W. unfold Analyzer.analyzeResults. cbv zeta.
  destruct (aggregateTimeline_some (Analyzer.annotate prs) startDate endDate
              (annotate_wellDated prs W)) as [tl E].
  rewrite E. eauto.
Qed.

(** ** Review totals *)

Lemma fold_reviewCount (l : list PullRequest) (a : Z) :
  fold_left (fun sum pr => sum + or0 (reviewCount pr)) l a
  = a + Spec.reviewCountSum l.
Proof.
  unfold Spec.reviewCountSum. revert a.
  induction l as [|pr l IH]; intros a; simpl.
  - unfold sumZ. simpl. lia.
  - rewrite IH, sumZ_cons. lia.
Qed.

Lemma reviewCountSum_annotate (prs : list PullRequest) :
  Spec.reviewCountSum (Analyzer.annotate prs) = Spec.reviewCountSum prs.
Proof.
  unfold Spec.reviewCountSum, Analyzer.annotate.
  rewrite map_map. reflexivity.
Qed.

Lemma analyzeResults_totalReviews (prs : list PullRequest)
  (repos : list string) (startDate endDate : Z) (r : AnalysisResult) :
  Analyzer.analyzeResults prs repos startDate endDate = Some r ->
  totalReviews r = Spec.reviewCountSum prs.
Proof.
  unfold Analyzer.analyzeResults. cbv zeta.
  destruct (Analyzer.aggregateTimeline _ _ _); [ | discriminate ].
  intros [= <-]. simpl.
  rewrite fold_reviewCount, reviewCountSum_annotate. lia.
Qed.

(** C10: on every list of dated records the analysis returns a result
    whose [totalReviews] is the sum of the records' optional [reviewCount]
    (0 when absent), whatever their review-event lists hold; and for the
    record that the sync stores for a pull request with three reviews of
    which one has an author, that total is 3 while the reviewer entries
    add up to 1. *)
Theorem totalReviews_is_reviewCount_sum :
  (forall prs repos startDate endDate,
      Spec.wellDated prs ->
      exists r,
        Analyzer.analyzeResults prs repos startDate endDate = Some r
        /\ totalReviews r = Spec.reviewCountSum prs)
  /\ (exists r,
        Analyzer.analyzeResults [Samples.reviewedRecord] ["octo/parser"]
          Samples.july1 Samples.july10_end = Some r
        /\ reviewCount Samples.reviewedRecord = Some 3
        /\ option_map (@List.length PRReview) (reviews Samples.reviewedRecord)
           = Some 1%nat
        /\ totalReviews r = 3
        /\ Spec.reviewerTotal (reviewers r) = 1
        /\ totalReviews r <> Spec.reviewerTotal (reviewers r)).
Proof.
  split.
  - intros prs repos startDate endDate W.
    destruct (analyzeResults_some prs repos startDate endDate W) as [r E].
    exists r. split; [ exact E | ].
    now apply analyzeResults_totalReviews with repos startDate endDate.
  - destruct (Analyzer.analyzeResults [Samples.reviewedRecord]
                ["octo/parser"] Samples.july1 Samples.july10_end)
      as [r|] eqn:E; [ | vm_compute in E; discriminate ].
    exists r. split; [ reflexivity | ].
    vm_compute in E. injection E as <-.
    repeat split; try (vm_compute; reflexivity).
    vm_compute. discriminate.
Qed.

Lemma totalReviews_is_reviewCount_sum_witness :
  exists r,
    Analyzer.analyzeResults [Samples.emptyRecord] ["o/r"]
      Samples.july1 Samples.july10_end = Some r
    /\ totalReviews r = Spec.reviewCountSum [Samples.emptyRecord].
Proof.
  apply (proj1 totalReviews_is_reviewCount_sum).
  repeat constructor. vm_compute. discriminate.
Defined.

(** ** Cutoff and pagination *)

Lemma Source_induction (P : Sync.Source -> Prop) :
  (forall e, P (Sync.Fails e)) ->
  (forall nodes, P (Sync.Page nodes None)) ->
  (forall nodes s, P s -> P (Sync.Page nodes (Some s))) ->
  forall s, P s.
Proof.
  intros HF H0 H1. fix IH 1.
  intros [e|nodes [s|]].
  - apply HF.
  - apply H1, IH.
  - apply H0.
Qed.

Lemma keptPrefix_notOlder (cutoff : Z) (nodes : list Sync.GraphQLPRNode) :
  Forall (fun n => Sync.olderThan cutoff n = false)
         (Spec.keptPrefix cutoff nodes).
Proof.
  induction nodes as [|n nodes IH]; simpl; [ constructor | ].
  destruct (Sync.olderThan cutoff n) eqn:E; constructor; assumption.
Qed.



Lemma processNodes_spec (table : Obj string) (repoPath : string) (cutoff : Z)
  (nodes : list Sync.GraphQLPRNode) (acc : list PullRequest) :
  Sync.processNodes table repoPath cutoff nodes acc
  = (acc ++ map (Sync.buildPullRequest table repoPath)
                (Spec.keptPrefix cutoff nodes),
     existsb (Sync.olderThan cutoff) nodes).
Proof.
  revert acc. induction nodes as [|n nodes IH]; intros acc; simpl.
  - now rewrite app_nil_r.
  - destruct (Sync.olderThan cutoff n); simpl.
    + now rewrite app_nil_r.
    + rewrite IH, <- app_assoc. reflexivity.
Qed.

(** Whatever the hosting API answers, the accumulator only grows by
    records built from nodes that are not older than the cutoff. *)
Lemma fetchLoop_accumulates_notOlder (table : Obj string) (repoPath : string)
  (cutoff : Z) (src : Sync.Source) :
  forall acc, exists kept,
    Sync.accumulated (Sync.fetchLoop table repoPath cutoff src acc)
    = acc ++ map (Sync.buildPullRequest table repoPath) kept
    /\ Forall (fun n => Sync.olderThan cutoff n = false) kept.
Proof.
  induction src as [e|nodes|nodes s IH] using Source_induction; intros acc.
  - exists []. simpl. rewrite app_nil_r. split; [ reflexivity | constructor ].
  - simpl. rewrite processNodes_spec.
    exists (Spec.keptPrefix cutoff nodes). simpl.
    split; [ reflexivity | apply keptPrefix_notOlder ].
  - simpl. rewrite processNodes_spec.
    destruct (existsb (Sync.olderThan cutoff) nodes).
    + exists (Spec.keptPrefix cutoff nodes). simpl.
      split; [ reflexivity | apply keptPrefix_notOlder ].
    + destruct (IH (acc ++ map (Sync.buildPullRequest table repoPath)
                                (Spec.keptPrefix cutoff nodes)))
        as [kept [E F]].
      exists (Spec.keptPrefix cutoff nodes ++ kept). simpl.
      rewrite E, map_app, app_assoc. split; [ reflexivity | ].
      apply Forall_app. split; [ apply keptPrefix_notOlder | exact F ].
Qed.



(** ** Failures of one repository in a multi-repository sync *)

Lemma last_app_nonempty {A : Type} (l1 l2 : list A) (d : A) :
  l2 <> [] -> last (l1 ++ l2) d = last l2 d.
Proof.
  intros N. induction l1 as [|a l1 IH]; simpl; [ reflexivity | ].
  rewrite IH. destruct (l1 ++ l2) eqn:E; [ | reflexivity ].
  apply app_eq_nil in E. destruct E as [_ E]. contradiction.
Qed.

Section SyncFailures.

Variable clock : nat -> Z.
Variable fullSync : bool.

(** A failed repository leaves the cache as it was and records the
    message of what was thrown. *)
Lemma syncOneRepo_thrown (table : Obj string) (repoPath : string)
  (src : Sync.Source) (w : Sync.World) (e : Sync.Thrown) :
  Sync.o_thrown (Sync.syncOneRepo clock table fullSync repoPath src w)
  = Some e ->
  Sync.o_result (Sync.syncOneRepo clock table fullSync repoPath src w)
  = Spec.errorEntry repoPath e
  /\ Sync.o_world (Sync.syncOneRepo clock table fullSync repoPath src w) = w.
Proof.
  unfold Sync.syncOneRepo. cbv zeta.
  destruct (Sync.thrown _) as [e'|]; simpl; [ | discriminate ].
  intros [= ->]. split; reflexivity.
Qed.

(** The outcome of a repository is a thrown value exactly when one of its
    page requests threw. *)
Lemma syncOneRepo_thrown_iff (table : Obj string) (repoPath : string)
  (src : Sync.Source) (w : Sync.World) :
  Sync.o_thrown (Sync.syncOneRepo clock table fullSync repoPath src w)
  = Sync.thrown
      (Sync.fetchLoop table repoPath
         (Sync.cutoffDate fullSync
            (Database.getLastSyncedAt repoPath (Sync.db w)))
         src []).
Proof.
  unfold Sync.syncOneRepo. cbv zeta.
  destruct (Sync.thrown _); reflexivity.
Qed.





End SyncFailures.



(** A gateway error on the first repository: three entries, the other
    two repositories synced. *)
Lemma batch_continues_after_failure :
  fst (Sync.batchLoop Samples.sampleClock false
         (Samples.requestWithFailure "Bad gateway") [] Samples.emptyWorld)
  = [ {| Sync.res_repo := "octo/broken"; Sync.synced := 0;
         Sync.error := Some "Bad gateway" |};
      {| Sync.res_repo := "octo/parser"; Sync.synced := 1;
         Sync.error := None |};
      {| Sync.res_repo := "octo/empty"; Sync.synced := 0;
         Sync.error := None |} ].
Proof. vm_compute. reflexivity. Qed.

(** A rate-limit error on the first repository: one entry, nothing else
    is attempted, and the stream ends with [repo_error], [rate_limited],
    [complete]. *)
Lemma rate_limit_aborts_the_request :
  fst (Sync.batchLoop Samples.sampleClock false
         (Samples.requestWithFailure "API rate limit exceeded") []
         Samples.emptyWorld)
  = [ {| Sync.res_repo := "octo/broken"; Sync.synced := 0;
         Sync.error := Some "API rate limit exceeded" |} ]
  /\ Sync.st_events
       (Sync.syncStream Samples.sampleClock false
          (Samples.requestWithFailure "API rate limit exceeded") []
          Samples.emptyWorld)
     = [ Sync.ev_start 3 ["octo/broken"; "octo/parser"; "octo/empty"] [] 0;
         Sync.ev_repo_start "octo/broken" 0 3 0;
         Sync.ev_repo_error "octo/broken" "API rate limit exceeded" 0 3 33;
         Sync.ev_rate_limited "API rate limit exceeded";
         Sync.ev_complete
           [ {| Sync.res_repo := "octo/broken"; Sync.synced := 0;
                Sync.error := Some "API rate limit exceeded" |} ] 0 3 ].
Proof. split; vm_compute; reflexivity. Qed.

(** ** Upserts into the cache *)

Lemma same_key_iff (a b : Database.Row) :
  Database.same_key a b = true <-> Spec.rowKey a = Spec.rowKey b.
Proof.
  unfold Database.same_key, Spec.rowKey.
  rewrite andb_true_iff, String.eqb_eq, Z.eqb_eq.
  split; [ intros [-> ->]; reflexivity | intros [= -> ->]; auto ].
Qed.

Lemma find_app_none {A : Type} (f : A -> bool) (l1 l2 : list A) :
  find f l1 = None -> find f (l1 ++ l2) = find f l2.
Proof.
  induction l1 as [|a l1 IH]; simpl; [ reflexivity | ].
  destruct (f a); [ discriminate | exact IH ].
Qed.

(** After an upsert the record read back for its pair is the upserted
    one, field by field: nothing of an older version remains. *)
Lemma upsert_overwrites (now : Z) (pr : PullRequest) (d : Database.Db) :
  Database.readBack (repo pr) (number pr) (Database.savePullRequest now pr d)
  = Some (Database.rowToPullRequest (Database.toRow now pr)).
Proof.
  unfold Database.readBack, Database.savePullRequest,
    Database.insertOrReplace. simpl.
  rewrite find_app_none.
  - simpl. now rewrite String.eqb_refl, Z.eqb_refl.
  - induction (Database.pull_requests d) as [|row rows IH]; simpl;
      [ reflexivity | ].
    unfold Database.conflicts at 1, Database.same_key at 1. simpl.
    destruct (String.eqb (Database.row_repo row) (repo pr)
              && (Database.row_number row =? number pr)) eqn:K.
    + rewrite orb_true_r. simpl. exact IH.
    + destruct (Database.row_id row =? id pr); simpl;
        [ exact IH | rewrite K; exact IH ].
Qed.

(** The record read back does not hold the bookkeeping timestamp, so a
    second upsert of the same record changes nothing that is read back. *)
Lemma upsert_twice (now1 now2 : Z) (pr : PullRequest) (d : Database.Db) :
  Database.readBack (repo pr) (number pr)
    (Database.savePullRequest now2 pr (Database.savePullRequest now1 pr d))
  = Database.readBack (repo pr) (number pr)
      (Database.savePullRequest now1 pr d).
Proof. now rewrite !upsert_overwrites. Qed.

Lemma insertOrReplace_keys (new : Database.Row) (t : list Database.Row) :
  NoDup (map Spec.rowKey t) ->
  NoDup (map Spec.rowKey (Database.insertOrReplace new t)).
Proof.
  intros ND. unfold Database.insertOrReplace. rewrite map_app. simpl.
  apply NoDup_app.
  - induction t as [|row t IH]; simpl; [ constructor | ].
    inversion ND as [|? ? Hn ND']; subst.
    destruct (negb (Database.conflicts new row)); simpl; [ | now apply IH ].
    constructor; [ | now apply IH ].
    intros H. apply Hn. apply in_map_iff in H.
    destruct H as [x [E I]]. apply filter_In in I.
    apply in_map_iff. exists x. tauto.
  - repeat constructor. simpl. tauto.
  - intros k H [<-|[]]. apply in_map_iff in H.
    destruct H as [x [E I]]. apply filter_In in I. destruct I as [_ C].
    apply same_key_iff in E. unfold Database.conflicts in C.
    rewrite E, orb_true_r in C. discriminate.
Qed.

(** No sequence of upserts stores two rows with the same pair. *)
Lemma upserts_keep_keys_unique (clock : nat -> Z) (prs : list PullRequest)
  (d : Database.Db) :
  Spec.uniqueKeys d ->
  Spec.uniqueKeys (Database.savePullRequests clock prs d).
Proof.
  unfold Spec.uniqueKeys, Database.savePullRequests. simpl.
  generalize 0%nat. generalize (Database.pull_requests d).
  induction prs as [|pr prs IH]; intros t i ND; simpl; [ exact ND | ].
  apply IH. now apply insertOrReplace_keys.
Qed.

(** An upsert keeps every stored row that has neither the pair nor the
    [id] of the new record. *)
Lemma upsert_keeps_unrelated_rows (now : Z) (pr : PullRequest)
  (d : Database.Db) (row : Database.Row) :
  In row (Database.pull_requests d) ->
  Spec.rowKey row <> (repo pr, number pr) ->
  Database.row_id row <> id pr ->
  In row (Database.pull_requests (Database.savePullRequest now pr d)).
Proof.
  intros I K N. unfold Database.savePullRequest, Database.insertOrReplace.
  simpl. apply in_or_app. left. apply filter_In. split; [ exact I | ].
  unfold Database.conflicts. simpl.
  destruct (Z.eqb_spec (Database.row_id row) (id pr)); [ contradiction | ].
  simpl. destruct (Database.same_key row (Database.toRow now pr)) eqn:S;
    [ | reflexivity ].
  apply same_key_iff in S. contradiction.
Qed.

(** C2, at the failing input: two pull requests of different repositories
    whose node identifiers hold the same digits get the same [id]; the
    upsert of the second deletes the stored row of the first, although
    their (repository, number) pairs differ. *)
Theorem upsert_removes_row_with_other_key :
  id Samples.parserRecord = 854
  /\ id Samples.lexerRecord = 854
  /\ (repo Samples.parserRecord, number Samples.parserRecord)
     = ("octo/parser", 12)
  /\ (repo Samples.lexerRecord, number Samples.lexerRecord)
     = ("octo/lexer", 31)
  /\ option_map title
       (Database.readBack "octo/parser" 12 Samples.cacheAfterParser)
     = Some "Parse dates"
  /\ Database.readBack "octo/parser" 12 Samples.cacheAfterLexer = None
  /\ map (fun pr => (repo pr, number pr))
         (Database.getPullRequests ["octo/parser"; "octo/lexer"]
            0 (Samples.sampleClock 100) Samples.cacheAfterLexer)
     = [("octo/lexer", 31)]
  /\ Database.getTotalCachedPRs Samples.cacheAfterLexer = 1.
Proof. repeat split; vm_compute; reflexivity. Qed.

(** ** Sorting *)

Lemma sort_insert_length {A : Type} (cmp : A -> A -> Z) (x : A) (l : list A) :
  List.length (sort_insert cmp x l) = Datatypes.S (List.length l).
Proof.
  induction l as [|y l IH]; simpl; [ reflexivity | ].
  destruct (0 <? cmp x y); simpl; [ now rewrite IH | reflexivity ].
Qed.

Lemma sort_length {A : Type} (cmp : A -> A -> Z) (l : list A) :
  List.length (sort cmp l) = List.length l.
Proof.
  induction l as [|x l IH]; simpl; [ reflexivity | ].
  unfold sort in *. simpl. now rewrite sort_insert_length, IH.
Qed.

Lemma sort_insert_In {A : Type} (cmp : A -> A -> Z) (x y : A) (l : list A) :
  In y (sort_insert cmp x l) <-> y = x \/ In y l.
Proof.
  induction l as [|z l IH]; simpl; [ intuition congruence | ].
  destruct (0 <? cmp x z); simpl; [ rewrite IH | ]; intuition congruence.
Qed.

Lemma sort_In {A : Type} (cmp : A -> A -> Z) (y : A) (l : list A) :
  In y (sort cmp l) <-> In y l.
Proof.
  induction l as [|x l IH]; simpl; [ tauto | ].
  unfold sort in *. simpl. rewrite sort_insert_In, IH.
  intuition congruence.
Qed.

(** ** The dashboard's recomputation against a fresh analysis *)

Lemma annotate_annotated (l : list PullRequest) :
  Spec.annotated l -> Analyzer.annotate l = l.
Proof.
  unfold Analyzer.annotate. intros F.
  induction F as [|pr l H F IH]; simpl; [ reflexivity | ].
  rewrite IH. f_equal.
  destruct pr as [? ? ? ? ? ? ? ? ? ? ? ? ? ? ? ? ? ? c]. simpl in *.
  destruct c; [ reflexivity | contradiction ].
Qed.

Lemma annotate_is_annotated (l : list PullRequest) :
  Spec.annotated (Analyzer.annotate l).
Proof.
  unfold Spec.annotated, Analyzer.annotate. apply Forall_map.
  apply Forall_forall. intros pr _. simpl. discriminate.
Qed.

Lemma filter_annotated (f : PullRequest -> bool) (l : list PullRequest) :
  Spec.annotated l -> Spec.annotated (filter f l).
Proof.
  unfold Spec.annotated. rewrite !Forall_forall.
  intros H pr I. apply filter_In in I. apply H. tauto.
Qed.

Lemma fullyFilteredPRs_annotated (l : list PullRequest)
  (repoFilter contributorFilter : list string) (sizeFilter : list PRSize) :
  Spec.annotated l ->
  Spec.annotated
    (Dashboard.fullyFilteredPRs l repoFilter contributorFilter sizeFilter).
Proof.
  intros A. unfold Dashboard.fullyFilteredPRs. cbv zeta.
  apply filter_annotated.
  destruct (0 <? List.length contributorFilter)%nat;
    [ apply filter_annotated | ];
    (destruct (0 <? List.length repoFilter)%nat;
       [ apply filter_annotated | ]; exact A).
Qed.

(** The records of an analysis result are annotated. *)
Lemma analyzeResults_prs (l : list PullRequest) (rs : list string)
  (startDate endDate : Z) (r : AnalysisResult) :
  Analyzer.analyzeResults l rs startDate endDate = Some r ->
  prs r = Analyzer.annotate l.
Proof.
  unfold Analyzer.analyzeResults. cbv zeta.
  destruct (Analyzer.aggregateTimeline _ _ _); [ | discriminate ].
  intros [= <-]. reflexivity.
Qed.

(** For every filter triple, the recomputed totals, state counts, size and
    language distributions, reviewers, review total, average complexity
    and record list are those of a fresh analysis of the filtered
    records. *)
Lemma filteredData_agrees_outside_contributors_and_timeline
  (data fresh refiltered : AnalysisResult) (sizeFilter : list PRSize)
  (contributorFilter repoFilter : list string) (startDate endDate : Z) :
  Spec.annotated (prs data) ->
  Dashboard.filteredData (Some data) sizeFilter contributorFilter repoFilter
  = Some refiltered ->
  Analyzer.analyzeResults (prs refiltered) (repos data) startDate endDate
  = Some fresh ->
  totalPRs refiltered = totalPRs fresh
  /\ mergedPRs refiltered = mergedPRs fresh
  /\ openPRs refiltered = openPRs fresh
  /\ closedPRs refiltered = closedPRs fresh
  /\ uniqueContributors refiltered = uniqueContributors fresh
  /\ sizeDistribution refiltered = sizeDistribution fresh
  /\ languageDistribution refiltered = languageDistribution fresh
  /\ reviewers refiltered = reviewers fresh
  /\ totalReviews refiltered = totalReviews fresh
  /\ avgComplexity refiltered = avgComplexity fresh
  /\ prs refiltered = prs fresh
  /\ repos refiltered = repos fresh.
Proof.
  intros A. simpl. intros [= <-]. simpl.
  pose proof (fullyFilteredPRs_annotated (prs data) repoFilter
                contributorFilter sizeFilter A) as AF.
  set (l := Dashboard.fullyFilteredPRs (prs data) repoFilter
              contributorFilter sizeFilter) in *.
  unfold Analyzer.analyzeResults. cbv zeta.
  rewrite (annotate_annotated l AF).
  destruct (Analyzer.aggregateTimeline l startDate endDate);
    [ | discriminate ].
  intros [= <-]. simpl.
  repeat split.
  unfold Dashboard.newContributors, Analyzer.aggregateByContributor, lengthZ.
  now rewrite !sort_length, !length_map.
Qed.

(** The filters that let every record pass keep the record list. *)
Lemma fullyFilteredPRs_all_pass (l : list PullRequest)
  (repoFilter : list string) :
  (forall pr, In pr l -> In (repo pr) repoFilter) ->
  Dashboard.fullyFilteredPRs l repoFilter [] Dashboard.ALL_SIZES = l.
Proof.
  intros H. unfold Dashboard.fullyFilteredPRs. cbv zeta. simpl.
  assert (R : filter (Dashboard.inRepoFilter repoFilter) l = l).
  { apply forallb_filter_id. apply forallb_forall. intros pr I.
    unfold Dashboard.inRepoFilter. apply existsb_exists.
    exists (repo pr). split; [ now apply H | apply String.eqb_refl ]. }
  assert (S : forall l', filter (Dashboard.inSizeFilter Dashboard.ALL_SIZES) l'
                         = l').
  { intros l'. apply forallb_filter_id. apply forallb_forall. intros pr _.
    unfold Dashboard.inSizeFilter. now destruct (size pr). }
  destruct (0 <? List.length repoFilter)%nat; now rewrite ?R, S.
Qed.

(** C1, at the failing input: two records of one author, created on 2 and
    4 July, analysed over 1 to 10 July, then recomputed under filters that
    let every record pass.  The record list is unchanged and a fresh
    analysis of it gives the original result, but the recomputation counts
    both records in each of the ten daily buckets, leaves the
    contributor's average complexity unset and lists the contributor's
    languages in another order. *)
Theorem filteredData_all_pass_differs_from_analysis :
  exists original refiltered,
    Samples.julyAnalysis = Some original
    /\ Samples.julyRefiltered = Some refiltered
    /\ prs refiltered = prs original
    /\ Analyzer.analyzeResults (prs refiltered) ["octo/parser"]
         Samples.july1 Samples.july10_end = Some original
    /\ map t_count (timeline original) = [0; 1; 0; 1; 0; 0; 0; 0; 0; 0]
    /\ map t_count (timeline refiltered) = [2; 2; 2; 2; 2; 2; 2; 2; 2; 2]
    /\ map c_avgComplexity (contributors original) = [Some 36]
    /\ map c_avgComplexity (contributors refiltered) = [None]
    /\ map c_languageStats (contributors original)
       = [Some [("TypeScript", 22); ("Python", 78)]]
    /\ map c_languageStats (contributors refiltered)
       = [Some [("Python", 78); ("TypeScript", 22)]]
    /\ refiltered <> original.
Proof.
  destruct Samples.julyAnalysis as [original|] eqn:E1;
    [ | vm_compute in E1; discriminate ].
  destruct Samples.julyRefiltered as [refiltered|] eqn:E2;
    [ | vm_compute in E2; discriminate ].
  exists original, refiltered.
  vm_compute in E1. injection E1 as <-.
  vm_compute in E2. injection E2 as <-.
  repeat split; try (vm_compute; reflexivity).
  intros H. apply (f_equal (fun r => map t_count (timeline r))) in H.
  vm_compute in H. discriminate.
Qed.

(** ** Language lines per contributor *)

(** The loop [lines[k] = (lines[k] || 0) + n] over a list of estimates. *)
Lemma addLanguageLines_estimates (ll : Obj Z) (pr : PullRequest) :
  Analyzer.addLanguageLines ll pr
  = fold_left Spec.addEstimate (Spec.estimatesOf pr) ll.
Proof.
  unfold Analyzer.addLanguageLines, Spec.estimatesOf.
  destruct (languages pr) as [langs|]; [ | reflexivity ].
  revert ll. induction langs as [|e langs IH]; intros ll; simpl;
    [ reflexivity | apply IH ].
Qed.

Lemma accumulate_get (es : list (string * Z)) (ll : Obj Z) (lang : string) :
  or0 (obj_get (fold_left Spec.addEstimate es ll) lang)
  = or0 (obj_get ll lang) + Spec.sumFor lang es.
Proof.
  revert ll. induction es as [|[k n] es IH]; intros ll; simpl.
  - unfold Spec.sumFor. simpl. unfold sumZ. simpl. lia.
  - rewrite IH. unfold Spec.addEstimate at 1. simpl. unfold Spec.sumFor. simpl.
    destruct (String.eqb_spec k lang) as [->|N].
    + rewrite obj_get_set_eq. simpl. rewrite sumZ_cons. simpl. lia.
    + rewrite obj_get_set_neq by assumption. lia.
Qed.

Lemma accumulate_keys (es : list (string * Z)) (ll : Obj Z) (lang : string) :
  In lang (obj_keys (fold_left Spec.addEstimate es ll))
  <-> In lang (obj_keys ll) \/ In lang (map fst es).
Proof.
  revert ll. induction es as [|[k n] es IH]; intros ll; simpl.
  - tauto.
  - rewrite IH. unfold Spec.addEstimate at 1. simpl. rewrite obj_keys_set_In.
    intuition congruence.
Qed.

Lemma accumulate_sum (es : list (string * Z)) (ll : Obj Z) :
  sumZ (obj_values (fold_left Spec.addEstimate es ll))
  = sumZ (obj_values ll) + sumZ (map snd es).
Proof.
  revert ll. induction es as [|[k n] es IH]; intros ll; simpl.
  - unfold sumZ at 3. simpl. lia.
  - rewrite IH. unfold Spec.addEstimate at 1. simpl.
    rewrite sumZ_obj_set_add, sumZ_cons. lia.
Qed.

Lemma accumulate_NoDup (es : list (string * Z)) (ll : Obj Z) :
  NoDup (obj_keys ll) -> NoDup (obj_keys (fold_left Spec.addEstimate es ll)).
Proof.
  revert ll. induction es as [|[k n] es IH]; intros ll ND; simpl.
  - exact ND.
  - apply IH. unfold Spec.addEstimate. now apply obj_set_NoDup.
Qed.

(** Assigning the estimates of one object from scratch is accumulating
    them from scratch. *)
Lemma assign_is_accumulate (es : list (string * Z)) :
  NoDup (map fst es) ->
  fold_left (fun acc e => obj_set acc (fst e) (snd e)) es []
  = fold_left Spec.addEstimate es [].
Proof.
  intros ND.
  rewrite (fold_obj_set_map snd es []) by exact ND.
  assert (G : forall acc,
             NoDup (obj_keys acc ++ map fst es) ->
             fold_left Spec.addEstimate es acc
             = acc ++ map (fun e => (fst e, snd e)) es).
  { clear ND. induction es as [|[k n] es IH]; intros acc ND; simpl.
    - now rewrite app_nil_r.
    - assert (Hk : ~ In k (obj_keys acc)).
      { intros H. simpl in ND. apply NoDup_remove_2 in ND. apply ND.
        apply in_or_app. now left. }
      unfold Spec.addEstimate at 2. simpl.
      assert (E : obj_get acc k = None) by now apply obj_get_None.
      rewrite E. simpl. rewrite obj_set_absent by assumption.
      rewrite IH.
      + now rewrite <- app_assoc.
      + unfold obj_keys. rewrite map_app. simpl. rewrite <- app_assoc.
        simpl in *.
        apply NoDup_remove in ND as [ND1 ND2].
        clear -ND1 ND2. unfold obj_keys in *.
        induction (map fst acc) as [|a r IHr]; simpl in *.
        * constructor; assumption.
        * inversion ND1 as [|? ? Hn ND']; subst. constructor.
          -- intros H. apply in_app_or in H. destruct H as [H|[<-|H]].
             ++ apply Hn. apply in_or_app. now left.
             ++ apply ND2. now left.
             ++ apply Hn. apply in_or_app. now right.
          -- apply IHr; [ assumption | ]. intros H. apply ND2. now right. }
  now rewrite G.
Qed.

Lemma estimatesOf_keys (pr : PullRequest) :
  map fst (Spec.estimatesOf pr)
  = match languages pr with Some langs => obj_keys langs | None => [] end.
Proof.
  unfold Spec.estimatesOf. destruct (languages pr); [ | reflexivity ].
  unfold obj_keys. rewrite map_map. reflexivity.
Qed.

Lemma initLanguageLines_estimates (pr : PullRequest) :
  match languages pr with
  | Some langs => NoDup (obj_keys langs)
  | None => True
  end ->
  Analyzer.initLanguageLines pr
  = fold_left Spec.addEstimate (Spec.estimatesOf pr) [].
Proof.
  intros ND. rewrite <- assign_is_accumulate.
  - unfold Analyzer.initLanguageLines, Spec.estimatesOf.
    destruct (languages pr) as [langs|]; [ | reflexivity ].
    clear ND. generalize (@nil (string * Z)).
    induction langs as [|e langs IH]; intros acc; simpl;
      [ reflexivity | apply IH ].
  - rewrite estimatesOf_keys.
    destruct (languages pr); [ exact ND | constructor ].
Qed.

(** The language lines of a contributor accumulate the estimates of the
    owned records, in their order. *)
Lemma languageLines_of_owned (p : PullRequest) (rest : list PullRequest) :
  Spec.languageMapsAreObjects (p :: rest) ->
  Analyzer.d_languageLines
    (fold_left Analyzer.updateContributor rest (Analyzer.newContributor p))
  = fold_left Spec.addEstimate (Spec.allEstimates (p :: rest)) [].
Proof.
  intros WF. inversion WF as [|? ? Hp _]; subst.
  unfold Spec.allEstimates. simpl. rewrite fold_left_app.
  rewrite <- (initLanguageLines_estimates p Hp).
  change (Analyzer.initLanguageLines p)
    with (Analyzer.d_languageLines (Analyzer.newContributor p)).
  generalize (Analyzer.newContributor p). clear.
  induction rest as [|q rest IH]; intros d; simpl; [ reflexivity | ].
  rewrite IH. simpl. rewrite fold_left_app.
  now rewrite addLanguageLines_estimates.
Qed.

(** ** Grouping by author *)

Lemma owned_snoc (a : string) (prs : list PullRequest) (pr : PullRequest) :
  Spec.owned a (prs ++ [pr])
  = Spec.owned a prs ++ (if String.eqb (author pr) a then [pr] else []).
Proof. unfold Spec.owned. rewrite filter_app. reflexivity. Qed.

Lemma contributorMap_snoc (prs : list PullRequest) (pr : PullRequest) :
  Analyzer.contributorMap (prs ++ [pr])
  = let m := Analyzer.contributorMap prs in
    match obj_get m (author pr) with
    | Some existing =>
        obj_set m (author pr) (Analyzer.updateContributor existing pr)
    | None => obj_set m (author pr) (Analyzer.newContributor pr)
    end.
Proof. unfold Analyzer.contributorMap. now rewrite fold_left_app. Qed.

(** The entry of a handle is the fold of its owned records. *)
Lemma contributorMap_get (prs : list PullRequest) (a : string) :
  obj_get (Analyzer.contributorMap prs) a
  = match Spec.owned a prs with
    | [] => None
    | p :: rest =>
        Some (fold_left Analyzer.updateContributor rest
                        (Analyzer.newContributor p))
    end.
Proof.
  induction prs as [|pr prs IH] using rev_ind; [ reflexivity | ].
  rewrite contributorMap_snoc, owned_snoc. cbv zeta.
  destruct (String.eqb_spec (author pr) a) as [->|N].
  - rewrite IH.
    destruct (Spec.owned a prs) as [|p rest]; simpl.
    + now rewrite obj_get_set_eq.
    + rewrite obj_get_set_eq, fold_left_app. reflexivity.
  - rewrite app_nil_r.
    destruct (obj_get (Analyzer.contributorMap prs) (author pr));
      rewrite obj_get_set_neq by assumption; exact IH.
Qed.

Lemma contributorMap_NoDup (prs : list PullRequest) :
  NoDup (obj_keys (Analyzer.contributorMap prs)).
Proof.
  induction prs as [|pr prs IH] using rev_ind; [ constructor | ].
  rewrite contributorMap_snoc. cbv zeta.
  destruct (obj_get _ _); now apply obj_set_NoDup.
Qed.

Lemma updateContributor_username (rest : list PullRequest)
  (d : Analyzer.ContributorData) :
  Analyzer.d_username (fold_left Analyzer.updateContributor rest d)
  = Analyzer.d_username d.
Proof.
  revert d. induction rest as [|q rest IH]; intros d; simpl;
    [ reflexivity | now rewrite IH ].
Qed.

Lemma owned_author (a : string) (prs : list PullRequest) (p : PullRequest)
  (rest : list PullRequest) :
  Spec.owned a prs = p :: rest -> author p = a.
Proof.
  intros E. assert (I : In p (Spec.owned a prs)) by (rewrite E; now left).
  apply filter_In in I. destruct I as [_ I]. now apply String.eqb_eq.
Qed.

Lemma owned_languageMapsAreObjects (a : string) (prs : list PullRequest) :
  Spec.languageMapsAreObjects prs ->
  Spec.languageMapsAreObjects (Spec.owned a prs).
Proof.
  unfold Spec.languageMapsAreObjects. rewrite !Forall_forall.
  intros H pr I. apply filter_In in I. apply H. tauto.
Qed.

(** ** Percentages from language lines *)

Lemma toPercentages_get (ll : Obj Z) (lang : string) :
  NoDup (obj_keys ll) ->
  obj_get (Analyzer.toPercentages ll) lang
  = if 0 <? sumZ (obj_values ll)
    then option_map (fun n => Analyzer.percentOf n (sumZ (obj_values ll)))
                    (obj_get ll lang)
    else None.
Proof.
  intros ND. unfold Analyzer.toPercentages. cbv zeta.
  destruct (0 <? sumZ (obj_values ll)); [ | reflexivity ].
  rewrite (fold_obj_set_map
             (fun e => Analyzer.percentOf (snd e) (sumZ (obj_values ll)))
             ll []) by exact ND.
  simpl. generalize (sumZ (obj_values ll)). intros total.
  clear ND. induction ll as [|[k n] ll IH]; simpl; [ reflexivity | ].
  destruct (String.eqb k lang); [ reflexivity | exact IH ].
Qed.

Lemma finishContributor_lookup (d : Analyzer.ContributorData)
  (lang : string) :
  Spec.statsLookup (c_languageStats (Analyzer.finishContributor d)) lang
  = obj_get (Analyzer.toPercentages (Analyzer.d_languageLines d)) lang.
Proof.
  unfold Analyzer.finishContributor. cbv zeta. simpl.
  destruct (Analyzer.toPercentages (Analyzer.d_languageLines d));
    reflexivity.
Qed.

Lemma existsb_eqb_In (lang : string) (l : list string) :
  existsb (String.eqb lang) l = true <-> In lang l.
Proof.
  rewrite existsb_exists. split.
  - intros [x [I E]]. apply String.eqb_eq in E. now subst.
  - intros I. exists lang. split; [ exact I | apply String.eqb_refl ].
Qed.

(** C7: for every record list whose language maps are objects, the
    language statistics of every contributor entry are, language by
    language, the percentages re-derived from the line estimates
    [round(pct / 100 * (additions + deletions))] summed over the records
    the contributor owns; every author has an entry; and a contributor
    with 100% Python over 100 lines and 50% Python, 50% JSON over 200
    lines gets Python 67, not the mean 75 of the two percentages. *)
Theorem contributor_languages_are_line_weighted :
  (forall prs,
      Spec.languageMapsAreObjects prs ->
      (forall c lang,
          In c (Analyzer.aggregateByContributor prs) ->
          Spec.statsLookup (c_languageStats c) lang
          = Spec.rederived (Spec.owned (c_username c) prs) lang)
      /\ (forall pr, In pr prs ->
            exists c, In c (Analyzer.aggregateByContributor prs)
                      /\ c_username c = author pr))
  /\ map (fun c => (c_username c, c_languageStats c))
         (Analyzer.aggregateByContributor Samples.pythonRecords)
     = [("carol", Some [("Python", 67); ("JSON", 33)])]
  /\ Spec.sumFor "Python" (Spec.allEstimates Samples.pythonRecords)
     = 100 + 100
  /\ sumZ (map snd (Spec.allEstimates Samples.pythonRecords)) = 100 + 200
  /\ Analyzer.percentOf (100 + 100) (100 + 200) = 67
  /\ (100 + 50) / 2 = 75.
Proof.
  split; [ | repeat split; vm_compute; reflexivity ].
  intros prs WF. split.
  - intros c lang I.
    unfold Analyzer.aggregateByContributor in I.
    apply sort_In in I. apply in_map_iff in I. destruct I as [d [<- I]].
    unfold obj_values in I. apply in_map_iff in I.
    destruct I as [[k d'] [E I]]. simpl in E. subst d'.
    pose proof (obj_get_In _ _ _ (contributorMap_NoDup prs) I) as G.
    rewrite contributorMap_get in G.
    destruct (Spec.owned k prs) as [|p rest] eqn:O; [ discriminate | ].
    injection G as <-.
    assert (U : c_username
                  (Analyzer.finishContributor
                     (fold_left Analyzer.updateContributor rest
                                (Analyzer.newContributor p))) = k).
    { simpl. rewrite updateContributor_username. simpl.
      now apply owned_author with prs rest. }
    rewrite U, O, finishContributor_lookup.
    assert (WO : Spec.languageMapsAreObjects (p :: rest)).
    { rewrite <- O. now apply owned_languageMapsAreObjects. }
    rewrite (languageLines_of_owned p rest WO).
    set (es := Spec.allEstimates (p :: rest)).
    set (ll := fold_left Spec.addEstimate es []).
    assert (ND : NoDup (obj_keys ll)).
    { apply accumulate_NoDup. constructor. }
    rewrite (toPercentages_get ll lang ND).
    unfold Spec.rederived. cbv zeta. fold es.
    assert (S : sumZ (obj_values ll) = sumZ (map snd es)).
    { unfold ll. rewrite accumulate_sum. unfold sumZ at 1. simpl. lia. }
    rewrite S.
    destruct (0 <? sumZ (map snd es)); simpl; [ | reflexivity ].
    pose proof (accumulate_get es [] lang) as GET. fold ll in GET.
    simpl in GET.
    pose proof (accumulate_keys es [] lang) as KEYS. fold ll in KEYS.
    simpl in KEYS.
    destruct (obj_get ll lang) as [n|] eqn:GL.
    + simpl in GET. subst n.
      assert (M : existsb (String.eqb lang) (map fst es) = true).
      { apply existsb_eqb_In.
        destruct (in_dec string_dec lang (obj_keys ll)) as [K|K].
        - apply KEYS in K. destruct K as [[]|K]. exact K.
        - apply obj_get_None in K. congruence. }
      rewrite M. reflexivity.
    + assert (M : existsb (String.eqb lang) (map fst es) = false).
      { apply not_true_is_false. intros M. apply existsb_eqb_In in M.
        apply obj_get_None in GL. apply GL. apply KEYS. now right. }
      rewrite M. reflexivity.
  - intros pr I.
    pose proof (contributorMap_get prs (author pr)) as G.
    destruct (Spec.owned (author pr) prs) as [|p rest] eqn:O.
    + exfalso. assert (J : In pr (Spec.owned (author pr) prs)).
      { apply filter_In. split; [ exact I | apply String.eqb_refl ]. }
      rewrite O in J. exact J.
    + exists (Analyzer.finishContributor
                (fold_left Analyzer.updateContributor rest
                           (Analyzer.newContributor p))).
      split.
      * unfold Analyzer.aggregateByContributor. apply sort_In.
        apply in_map. apply obj_get_Some_In in G.
        unfold obj_values. apply in_map_iff.
        eexists. split; [ | exact G ]. reflexivity.
      * simpl. rewrite updateContributor_username. simpl.
        now apply owned_author with prs rest.
Qed.

Lemma contributor_languages_are_line_weighted_witness :
  exists c,
    In c (Analyzer.aggregateByContributor Samples.pythonRecords)
    /\ c_username c = "carol".
Proof.
  apply (proj2 (proj1 contributor_languages_are_line_weighted
                      Samples.pythonRecords
                      ltac:(repeat constructor; simpl; intuition discriminate))
               (Samples.recordOf 1 "carol" 100 [("Python", 100)])).
  left. reflexivity.
Defined.

(** ** The calendar *)

(** [civil_from_days] yields a month and a day in range and is inverted by
    [days_from_civil]. *)
Lemma civil_from_days_spec (z y m d : Z) :
  Dates.civil_from_days z = (y, m, d) ->
  1 <= m <= 12 /\ 1 <= d <= 31 /\ Dates.days_from_civil y m d = z.
Proof.
  unfold Dates.civil_from_days, Dates.days_from_civil. cbv zeta.
  set (z' := z + 719468).
  set (era := z' / 146097).
  set (doe := z' - era * 146097).
  assert (Hdoe : 0 <= doe < 146097).
  { unfold doe, era. Z.div_mod_to_equations. lia. }
  set (yoe := (doe - doe / 1460 + doe / 36524 - doe / 146096) / 365).
  set (doy := doe - (365 * yoe + yoe / 4 - yoe / 100)).
  assert (Hy : 0 <= yoe <= 399 /\ 0 <= doy <= 365).
  { unfold doy, yoe. clearbody doe. clear -Hdoe.
    Z.div_mod_to_equations. lia. }
  set (mp := (5 * doy + 2) / 153).
  assert (Hmp : 0 <= mp <= 11).
  { unfold mp. destruct Hy as [_ Hy]. clearbody doy.
    Z.div_mod_to_equations. lia. }
  set (dd := doy - (153 * mp + 2) / 5 + 1).
  assert (Hd : 1 <= dd <= 31).
  { unfold dd, mp. destruct Hy as [_ Hy]. clearbody doy.
    Z.div_mod_to_equations. lia. }
  intros E. injection E as Ey Em Ed. subst d.
  assert (Hm : 1 <= m <= 12 /\ (if 2 <? m then m - 3 else m + 9) = mp
               /\ (if m <=? 2 then y - 1 else y) = yoe + era * 400).
  { subst m y. destruct (Z.ltb_spec mp 10).
    - destruct (Z.ltb_spec 2 (mp + 3)); [ | lia ].
      destruct (Z.leb_spec (mp + 3) 2); [ lia | ]. lia.
    - destruct (Z.ltb_spec 2 (mp - 9)); [ lia | ].
      destruct (Z.leb_spec (mp - 9) 2); [ | lia ]. lia. }
  destruct Hm as [Hm [Emp Ey']].
  split; [ exact Hm | ]. split; [ exact Hd | ].
  rewrite Ey', Emp.
  replace ((yoe + era * 400) / 400) with era
    by (destruct Hy as [Hy _]; Z.div_mod_to_equations; lia).
  replace (yoe + era * 400 - era * 400) with yoe by lia.
  unfold dd, doy, doe, z'. lia.
Qed.

(** Day numbers from the epoch to the end of the year 9999 have years
    from 1970 to 9999. *)
Lemma civil_from_days_year (z y m d : Z) :
  0 <= z <= 2932896 ->
  Dates.civil_from_days z = (y, m, d) -> 1970 <= y <= 9999.
Proof.
  intros R E.
  destruct (civil_from_days_spec z y m d E) as [Hm [Hd Hz]].
  unfold Dates.days_from_civil in Hz. cbv zeta in Hz.
  destruct (Z.leb_spec m 2); destruct (Z.ltb_spec 2 m); try lia.
  - revert Hz. Z.div_mod_to_equations. lia.
  - revert Hz. Z.div_mod_to_equations. lia.
Qed.

(** ** Date labels *)

Lemma digit_inj (a b : Z) :
  Dates.digit a = Dates.digit b -> a mod 10 = b mod 10.
Proof.
  unfold Dates.digit. intros H.
  apply (f_equal nat_of_ascii) in H.
  assert (A : 0 <= a mod 10 < 10) by (apply Z.mod_pos_bound; lia).
  assert (B : 0 <= b mod 10 < 10) by (apply Z.mod_pos_bound; lia).
  rewrite !nat_ascii_embedding in H by lia. lia.
Qed.

Lemma pad2_inj (a b : Z) :
  0 <= a <= 99 -> 0 <= b <= 99 -> Dates.pad2 a = Dates.pad2 b -> a = b.
Proof.
  intros A B H. unfold Dates.pad2 in H. injection H as H1 H0.
  apply digit_inj in H0, H1.
  revert H0 H1. Z.div_mod_to_equations. lia.
Qed.

Lemma pad4_inj (a b : Z) :
  0 <= a <= 9999 -> 0 <= b <= 9999 -> Dates.pad4 a = Dates.pad4 b -> a = b.
Proof.
  intros A B H. unfold Dates.pad4, Dates.pad3, Dates.pad2 in H.
  injection H as H3 H2 H1 H0.
  apply digit_inj in H0, H1, H2, H3.
  revert H0 H1 H2 H3. Z.div_mod_to_equations. lia.
Qed.

Lemma pad2_shape (n : Z) :
  exists c1 c0, Dates.pad2 n = String c1 (String c0 EmptyString).
Proof. unfold Dates.pad2. eauto. Qed.

Lemma pad4_shape (n : Z) :
  exists c3 c2 c1 c0,
    Dates.pad4 n = String c3 (String c2 (String c1 (String c0 EmptyString))).
Proof. unfold Dates.pad4, Dates.pad3, Dates.pad2. eauto 6. Qed.

(** The daily label of a day number. *)
Lemma format_day (a y m d : Z) :
  Dates.civil_from_days a = (y, m, d) ->
  Dates.format (a * Dates.MS_PER_DAY) "yyyy-MM-dd"
  = (Dates.pad4 y ++ "-" ++ Dates.pad2 m ++ "-" ++ Dates.pad2 d)%string.
Proof.
  intros E. unfold Dates.format, Dates.day_of.
  rewrite Z.div_mul by discriminate. rewrite E. reflexivity.
Qed.

Lemma daily_label_inj (y m d y' m' d' : Z) :
  0 <= y <= 9999 -> 0 <= y' <= 9999 ->
  1 <= m <= 12 -> 1 <= m' <= 12 -> 1 <= d <= 31 -> 1 <= d' <= 31 ->
  (Dates.pad4 y ++ "-" ++ Dates.pad2 m ++ "-" ++ Dates.pad2 d
   = Dates.pad4 y' ++ "-" ++ Dates.pad2 m' ++ "-" ++ Dates.pad2 d')%string ->
  y = y' /\ m = m' /\ d = d'.
Proof.
  intros Y Y' M M' D D' H.
  assert (Ey : Dates.pad4 y = Dates.pad4 y'
               /\ Dates.pad2 m = Dates.pad2 m'
               /\ Dates.pad2 d = Dates.pad2 d').
  { destruct (pad4_shape y) as [a3 [a2 [a1 [a0 Ea]]]].
    destruct (pad4_shape y') as [b3 [b2 [b1 [b0 Eb]]]].
    destruct (pad2_shape m) as [e1 [e0 Em]].
    destruct (pad2_shape m') as [f1 [f0 Em']].
    destruct (pad2_shape d) as [g1 [g0 Ed]].
    destruct (pad2_shape d') as [h1 [h0 Ed']].
    rewrite Ea, Eb, Em, Em', Ed, Ed' in *. simpl in H.
    injection H as -> -> -> -> -> -> -> ->. auto. }
  destruct Ey as [Ey [Em Ed]].
  split; [ now apply pad4_inj | ].
  split; apply pad2_inj; trivial; lia.
Qed.

(** Different days between the epoch and the end of the year 9999 have
    different daily labels. *)
Lemma format_day_inj (a b : Z) :
  0 <= a <= 2932896 -> 0 <= b <= 2932896 ->
  Dates.format (a * Dates.MS_PER_DAY) "yyyy-MM-dd"
  = Dates.format (b * Dates.MS_PER_DAY) "yyyy-MM-dd" ->
  a = b.
Proof.
  intros A B H.
  destruct (Dates.civil_from_days a) as [[y m] d] eqn:Ea.
  destruct (Dates.civil_from_days b) as [[y' m'] d'] eqn:Eb.
  rewrite (format_day a y m d Ea), (format_day b y' m' d' Eb) in H.
  destruct (civil_from_days_spec a y m d Ea) as [Hm [Hd Ha]].
  destruct (civil_from_days_spec b y' m' d' Eb) as [Hm' [Hd' Hb]].
  pose proof (civil_from_days_year a y m d A Ea) as Hy.
  pose proof (civil_from_days_year b y' m' d' B Eb) as Hy'.
  destruct (daily_label_inj y m d y' m' d') as [Ey [Em Ed]];
    trivial; try lia.
  congruence.
Qed.

(** ** Timeline buckets *)

Lemma obj_set_In {V : Type} (o : Obj V) (k k' : string) (v b : V) :
  In (k', b) (obj_set o k v) -> (k' = k /\ b = v) \/ In (k', b) o.
Proof.
  induction o as [|[k0 v0] o IH]; simpl.
  - intros [[= <- <-]|[]]. now left.
  - destruct (String.eqb_spec k0 k) as [->|N]; simpl.
    + intros [[= <- <-]|H]; [ now left | right; now right ].
    + intros [H|H]; [ right; now left | ].
      destruct (IH H) as [L|R]; [ now left | right; now right ].
Qed.

(** Replacing the value of a present key keeps the keys in place. *)
Lemma obj_set_present_keys {V : Type} (o : Obj V) (k : string) (b b' : V) :
  obj_get o k = Some b -> map fst (obj_set o k b') = map fst o.
Proof.
  induction o as [|[k0 v0] o IH]; simpl; [ discriminate | ].
  destruct (String.eqb_spec k0 k) as [->|N]; simpl; [ reflexivity | ].
  intros H. now rewrite IH.
Qed.

Lemma obj_set_present_dates (o : Obj TimelineData) (k : string)
  (b b' : TimelineData) :
  obj_get o k = Some b -> t_date b' = t_date b ->
  map (fun e => t_date (snd e)) (obj_set o k b')
  = map (fun e => t_date (snd e)) o.
Proof.
  induction o as [|[k0 v0] o IH]; simpl; [ discriminate | ].
  destruct (String.eqb_spec k0 k) as [->|N]; simpl.
  - intros [= ->] ->. reflexivity.
  - intros H E. now rewrite IH.
Qed.

Section Timeline.

Variable daysDiff : Z.
Variable intervals : list Z.
Variable formatStr : string.

Lemma initTimeline_from (ints : list Z) (acc : Obj TimelineData) :
  let m := fold_left
             (fun m date =>
                let key := Dates.format date formatStr in
                obj_set m key (Analyzer.emptyBucket key))
             ints acc in
  (forall k, In k (obj_keys m)
             <-> In k (obj_keys acc)
                 \/ In k (map (fun d => Dates.format d formatStr) ints))
  /\ ((forall k b, In (k, b) acc -> b = Analyzer.emptyBucket k) ->
      forall k b, In (k, b) m -> b = Analyzer.emptyBucket k)
  /\ (NoDup (obj_keys acc ++ map (fun d => Dates.format d formatStr) ints) ->
      obj_keys m
      = obj_keys acc ++ map (fun d => Dates.format d formatStr) ints).
Proof.
  revert acc. induction ints as [|d ints IH]; intros acc; cbv zeta; simpl.
  - split; [ intros k; tauto | ]. split; [ auto | ].
    intros _. now rewrite app_nil_r.
  - specialize (IH (obj_set acc (Dates.format d formatStr)
                            (Analyzer.emptyBucket
                               (Dates.format d formatStr)))).
    cbv zeta in IH. destruct IH as [K [B N]].
    split; [ | split ].
    + intros k. rewrite K, obj_keys_set_In. intuition congruence.
    + intros H. apply B. intros k b I.
      apply obj_set_In in I. destruct I as [[-> ->]|I]; [ reflexivity | ].
      now apply H.
    + intros ND.
      assert (A : ~ In (Dates.format d formatStr) (obj_keys acc)).
      { intros H. apply NoDup_remove_2 in ND. apply ND.
        apply in_or_app. now left. }
      assert (E : obj_keys (obj_set acc (Dates.format d formatStr)
                              (Analyzer.emptyBucket
                                 (Dates.format d formatStr)))
                  = obj_keys acc ++ [Dates.format d formatStr]).
      { rewrite obj_set_absent by exact A.
        unfold obj_keys. now rewrite map_app. }
      rewrite N; rewrite E, <- app_assoc; [ reflexivity | exact ND ].
Qed.

Lemma initTimeline_keys (k : string) :
  In k (obj_keys (Analyzer.initTimeline intervals formatStr))
  <-> In k (map (fun d => Dates.format d formatStr) intervals).
Proof.
  destruct (initTimeline_from intervals []) as [K _].
  unfold Analyzer.initTimeline. rewrite K. simpl. tauto.
Qed.

Lemma initTimeline_buckets (k : string) (b : TimelineData) :
  In (k, b) (Analyzer.initTimeline intervals formatStr) ->
  b = Analyzer.emptyBucket k.
Proof.
  destruct (initTimeline_from intervals []) as [_ [B _]].
  apply B. intros ? ? [].
Qed.

Lemma initTimeline_NoDup :
  NoDup (map (fun d => Dates.format d formatStr) intervals) ->
  obj_keys (Analyzer.initTimeline intervals formatStr)
  = map (fun d => Dates.format d formatStr) intervals.
Proof.
  destruct (initTimeline_from intervals []) as [_ [_ N]].
  intros ND. now apply N.
Qed.

Lemma initTimeline_dates :
  map (fun e => t_date (snd e)) (Analyzer.initTimeline intervals formatStr)
  = obj_keys (Analyzer.initTimeline intervals formatStr).
Proof.
  unfold obj_keys. apply map_ext_in. intros [k b] I.
  now rewrite (initTimeline_buckets k b I).
Qed.

(** Distributing records changes neither the labels nor their order. *)
Lemma addToTimeline_preserves (m m' : Obj TimelineData) (pr : PullRequest) :
  Analyzer.addToTimeline daysDiff intervals formatStr m pr = Some m' ->
  map fst m' = map fst m
  /\ map (fun e => t_date (snd e)) m' = map (fun e => t_date (snd e)) m.
Proof.
  unfold Analyzer.addToTimeline.
  destruct (Dates.parseISO (createdAt pr)) as [t|]; [ | discriminate ].
  destruct (obj_get m _) as [existing|] eqn:G; intros [= <-].
  - split.
    + now apply obj_set_present_keys with existing.
    + now apply obj_set_present_dates with existing.
  - split; reflexivity.
Qed.

Lemma distribute_preserves (l : list PullRequest) :
  forall m m',
    Analyzer.distribute daysDiff intervals formatStr l m = Some m' ->
    map fst m' = map fst m
    /\ map (fun e => t_date (snd e)) m' = map (fun e => t_date (snd e)) m.
Proof.
  induction l as [|pr l IH]; intros m m'; simpl.
  - intros [= <-]. split; reflexivity.
  - destruct (Analyzer.addToTimeline _ _ _ m pr) as [m1|] eqn:A;
      [ | discriminate ].
    intros D. destruct (IH _ _ D) as [K1 D1].
    destruct (addToTimeline_preserves _ _ _ A) as [K0 D0].
    split; congruence.
Qed.

Lemma distribute_app (l1 l2 : list PullRequest) (m : Obj TimelineData) :
  Analyzer.distribute daysDiff intervals formatStr (l1 ++ l2) m
  = match Analyzer.distribute daysDiff intervals formatStr l1 m with
    | Some m' => Analyzer.distribute daysDiff intervals formatStr l2 m'
    | None => None
    end.
Proof.
  revert m. induction l1 as [|pr l1 IH]; intros m; simpl; [ reflexivity | ].
  destruct (Analyzer.addToTimeline _ _ _ m pr); [ apply IH | reflexivity ].
Qed.

(** A record whose label is not a key is dropped. *)
Lemma addToTimeline_dropped (m : Obj TimelineData) (pr : PullRequest)
  (t : Z) :
  Dates.parseISO (createdAt pr) = Some t ->
  ~ In (Analyzer.timelineKey daysDiff intervals formatStr t) (obj_keys m) ->
  Analyzer.addToTimeline daysDiff intervals formatStr m pr = Some m.
Proof.
  intros P N. unfold Analyzer.addToTimeline. rewrite P.
  apply obj_get_None in N. now rewrite N.
Qed.

(** The complexity annotation plays no part in the timeline. *)
Lemma distribute_annotate (l : list PullRequest) (m : Obj TimelineData) :
  Analyzer.distribute daysDiff intervals formatStr (Analyzer.annotate l) m
  = Analyzer.distribute daysDiff intervals formatStr l m.
Proof.
  revert m. induction l as [|pr l IH]; intros m; simpl; [ reflexivity | ].
  unfold Analyzer.addToTimeline. simpl.
  destruct (Dates.parseISO (createdAt pr)); [ | reflexivity ].
  destruct (obj_get m _); apply IH.
Qed.

End Timeline.

Lemma sort_labels (l : list TimelineData) :
  map t_date (sort (fun a b => localeCompare (t_date a) (t_date b)) l)
  = sort localeCompare (map t_date l).
Proof.
  induction l as [|x l IH]; [ reflexivity | ].
  unfold sort in *. simpl. rewrite <- IH.
  generalize (fold_right
                (sort_insert
                   (fun a b => localeCompare (t_date a) (t_date b))) [] l).
  intros s. induction s as [|y s IHs]; simpl; [ reflexivity | ].
  destruct (0 <? localeCompare (t_date x) (t_date y)); simpl;
    [ now rewrite IHs | reflexivity ].
Qed.

Lemma aggregateTimeline_annotate (l : list PullRequest)
  (startDate endDate : Z) :
  Analyzer.aggregateTimeline (Analyzer.annotate l) startDate endDate
  = Analyzer.aggregateTimeline l startDate endDate.
Proof.
  unfold Analyzer.aggregateTimeline. cbv zeta.
  destruct (Analyzer.timelineIntervals startDate endDate) as [ints fmt].
  now rewrite distribute_annotate.
Qed.

(** The labels of a timeline are the sorted labels of the pre-created
    buckets, one bucket per distinct label. *)
Lemma aggregateTimeline_labels (l : list PullRequest) (startDate endDate : Z)
  (tl : list TimelineData) :
  Analyzer.aggregateTimeline l startDate endDate = Some tl ->
  let '(ints, fmt) := Analyzer.timelineIntervals startDate endDate in
  map t_date tl = sort localeCompare (obj_keys (Analyzer.initTimeline ints fmt))
  /\ List.length tl = List.length (Analyzer.initTimeline ints fmt).
Proof.
  unfold Analyzer.aggregateTimeline. cbv zeta.
  destruct (Analyzer.timelineIntervals startDate endDate) as [ints fmt].
  destruct (Analyzer.distribute _ ints fmt l _) as [m|] eqn:D;
    [ | discriminate ].
  intros [= <-].
  destruct (distribute_preserves _ _ _ _ _ _ D) as [K Dt].
  split.
  - rewrite sort_labels. unfold obj_values. rewrite map_map, Dt.
    now rewrite initTimeline_dates.
  - rewrite sort_length. unfold obj_values. rewrite length_map.
    apply (f_equal (@List.length _)) in K. now rewrite !length_map in K.
Qed.

Lemma aggregateTimeline_empty (startDate endDate : Z) :
  exists tl,
    Analyzer.aggregateTimeline [] startDate endDate = Some tl
    /\ Forall Spec.isEmptyBucket tl.
Proof.
  unfold Analyzer.aggregateTimeline. cbv zeta.
  destruct (Analyzer.timelineIntervals startDate endDate) as [ints fmt].
  simpl. eexists. split; [ reflexivity | ].
  apply Forall_forall. intros b I. apply sort_In in I.
  unfold obj_values in I. apply in_map_iff in I.
  destruct I as [[k b'] [E I]]. simpl in E. subst b'.
  rewrite (initTimeline_buckets _ _ _ _ I). split; reflexivity.
Qed.

(** ** Daily buckets *)

Lemma zrange_In (a : Z) (n : nat) (x : Z) :
  In x (Dates.zrange a n) <-> a <= x < a + Z.of_nat n.
Proof.
  unfold Dates.zrange. rewrite in_map_iff. split.
  - intros [k [<- I]]. apply in_seq in I. lia.
  - intros R. exists (Z.to_nat (x - a)). split; [ lia | ].
    apply in_seq. lia.
Qed.

Lemma NoDup_map_injective_on {A B : Type} (f : A -> B) (l : list A) :
  (forall x y, In x l -> In y l -> f x = f y -> x = y) ->
  NoDup l -> NoDup (map f l).
Proof.
  intros Inj ND. induction ND as [|x l Hx ND IH]; simpl; constructor.
  - intros H. apply in_map_iff in H. destruct H as [y [E I]].
    apply Hx. rewrite (Inj x y); auto; [ now left | now right ].
  - apply IH. intros a b Ia Ib. apply Inj; now right.
Qed.

Lemma zrange_NoDup (a : Z) (n : nat) : NoDup (Dates.zrange a n).
Proof.
  unfold Dates.zrange. apply NoDup_map_injective_on; [ | apply seq_NoDup ].
  intros x y _ _ H. lia.
Qed.

Lemma day_of_labelled (t : Z) :
  Spec.labelled t -> 0 <= Dates.day_of t <= 2932896.
Proof.
  unfold Spec.labelled, Spec.END_OF_LABELS, Dates.day_of, Dates.MS_PER_DAY.
  intros R. Z.div_mod_to_equations. lia.
Qed.

(** The daily labels of a window between the epoch and the end of the
    year 9999 are pairwise different, one per day the window touches. *)
Lemma eachDayOfInterval_labels (startDate endDate : Z) :
  Spec.labelled startDate -> Spec.labelled endDate ->
  startDate <= endDate ->
  NoDup (map (fun d => Dates.format d "yyyy-MM-dd")
             (Dates.eachDayOfInterval startDate endDate))
  /\ List.length (Dates.eachDayOfInterval startDate endDate)
     = Z.to_nat (Dates.day_of endDate - Dates.day_of startDate + 1).
Proof.
  intros Ls Le O. unfold Dates.eachDayOfInterval.
  destruct (Z.ltb_spec endDate startDate); [ lia | ]. cbv beta iota.
  pose proof (day_of_labelled _ Ls) as Ds.
  pose proof (day_of_labelled _ Le) as De.
  assert (Dm : Dates.day_of startDate <= Dates.day_of endDate).
  { unfold Dates.day_of, Dates.MS_PER_DAY. apply Z.div_le_mono; lia. }
  split; [ | unfold Dates.zrange; now rewrite !length_map, length_seq ].
  rewrite map_map. apply NoDup_map_injective_on; [ | apply zrange_NoDup ].
  intros x y Ix Iy E. apply zrange_In in Ix, Iy.
  apply format_day_inj; trivial; lia.
Qed.

Lemma differenceInDays_nonneg (startDate endDate : Z) :
  startDate <= endDate ->
  Dates.differenceInDays endDate startDate
  = (endDate - startDate) / Dates.MS_PER_DAY.
Proof.
  intros O. unfold Dates.differenceInDays, Dates.MS_PER_DAY.
  apply Z.quot_div_nonneg; lia.
Qed.

(** With daily buckets, the timeline has one bucket per day the window
    touches. *)
Lemma daily_timeline_length (l : list PullRequest) (startDate endDate : Z)
  (tl : list TimelineData) :
  Spec.labelled startDate -> Spec.labelled endDate ->
  startDate <= endDate ->
  Dates.differenceInDays endDate startDate <= 31 ->
  Analyzer.aggregateTimeline l startDate endDate = Some tl ->
  List.length tl
  = Z.to_nat (Dates.day_of endDate - Dates.day_of startDate + 1).
Proof.
  intros Ls Le O D A.
  pose proof (aggregateTimeline_labels l startDate endDate tl A) as H.
  unfold Analyzer.timelineIntervals in H. cbv zeta in H.
  destruct (Z.leb_spec (Dates.differenceInDays endDate startDate) 31);
    [ | lia ].
  destruct H as [_ H]. rewrite H.
  destruct (eachDayOfInterval_labels startDate endDate Ls Le O) as [ND Len].
  rewrite <- Len.
  pose proof (initTimeline_NoDup _ _ ND) as K.
  apply (f_equal (@List.length _)) in K. unfold obj_keys in K.
  rewrite !length_map in K. exact K.
Qed.

(** ** The timeline of an analysis *)

Lemma count_of_bump (c : SizeCounts) (s : PRSize) :
  count_of (bump c s) s = count_of c s + 1.
Proof. destruct s; reflexivity. Qed.

Lemma aggregateSizeDistribution_snoc (l : list PullRequest)
  (pr : PullRequest) :
  Analyzer.aggregateSizeDistribution (l ++ [pr])
  = bump (Analyzer.aggregateSizeDistribution l) (size pr).
Proof.
  unfold Analyzer.aggregateSizeDistribution. now rewrite fold_left_app.
Qed.

(** The result of an analysis, given its timeline. *)
Lemma analyzeResults_of_timeline (l : list PullRequest) (rs : list string)
  (startDate endDate : Z) (tl : list TimelineData) :
  Analyzer.aggregateTimeline l startDate endDate = Some tl ->
  exists r,
    Analyzer.analyzeResults l rs startDate endDate = Some r
    /\ timeline r = tl
    /\ totalPRs r = lengthZ l
    /\ sizeDistribution r
       = Analyzer.aggregateSizeDistribution (Analyzer.annotate l).
Proof.
  intros A. unfold Analyzer.analyzeResults. cbv zeta.
  rewrite aggregateTimeline_annotate, A.
  eexists. split; [ reflexivity | ]. simpl.
  repeat split. unfold lengthZ, Analyzer.annotate. now rewrite length_map.
Qed.

Lemma aggregateTimeline_dropped (l : list PullRequest) (pr : PullRequest)
  (startDate endDate t : Z) (tl : list TimelineData) :
  Analyzer.aggregateTimeline l startDate endDate = Some tl ->
  Dates.parseISO (createdAt pr) = Some t ->
  ~ In (let '(intervals, formatStr) :=
          Analyzer.timelineIntervals startDate endDate in
        Analyzer.timelineKey (Dates.differenceInDays endDate startDate)
                             intervals formatStr t)
       (Spec.bucketLabels startDate endDate) ->
  Analyzer.aggregateTimeline (l ++ [pr]) startDate endDate = Some tl.
Proof.
  unfold Analyzer.aggregateTimeline, Spec.bucketLabels.
  cbv zeta.
  destruct (Analyzer.timelineIntervals startDate endDate) as [ints fmt].
  destruct (Analyzer.distribute _ ints fmt l _) as [m|] eqn:D;
    [ | discriminate ].
  intros [= <-] P N.
  rewrite distribute_app, D. simpl.
  destruct (distribute_preserves _ _ _ _ _ _ D) as [K _].
  rewrite (addToTimeline_dropped _ _ _ m pr t P); [ reflexivity | ].
  unfold obj_keys. rewrite K. fold (obj_keys (Analyzer.initTimeline ints fmt)).
  now rewrite initTimeline_keys.
Qed.

(** ** The buckets of a window and the records outside them *)

(** The buckets are daily when [differenceInDays] is at most 31, weekly
    when it is at most 180, monthly otherwise; for a window that does not
    end before it starts, on dated records, the timeline exists and has
    the labels of the timeline of no record at all, whose buckets are all
    empty, namely the labels of the intervals of the window; and a window
    from a first day to the ninth day after it, ten days, has exactly ten
    buckets whatever the records. *)
Lemma timeline_modes_and_precreated_buckets :
  (forall startDate endDate,
      let daysDiff := Dates.differenceInDays endDate startDate in
      (daysDiff <= 31 ->
       Analyzer.timelineIntervals startDate endDate
       = (Dates.eachDayOfInterval startDate endDate, "yyyy-MM-dd"))
      /\ (31 < daysDiff <= 180 ->
          Analyzer.timelineIntervals startDate endDate
          = (Dates.eachWeekOfInterval startDate endDate, "yyyy-MM-dd"))
      /\ (180 < daysDiff ->
          Analyzer.timelineIntervals startDate endDate
          = (Dates.eachMonthOfInterval startDate endDate, "yyyy-MM")))
  /\ (forall l startDate endDate,
        startDate <= endDate ->
        Spec.wellDated l ->
        exists tl tl0,
          Analyzer.aggregateTimeline l startDate endDate = Some tl
          /\ Analyzer.aggregateTimeline [] startDate endDate = Some tl0
          /\ Forall Spec.isEmptyBucket tl0
          /\ map t_date tl = map t_date tl0
          /\ (forall label,
                In label (map t_date tl)
                <-> In label (Spec.bucketLabels startDate endDate)))
  /\ (forall l startDate endDate,
        Spec.wellDated l ->
        Spec.labelled startDate -> Spec.labelled endDate ->
        Dates.day_of endDate = Dates.day_of startDate + 9 ->
        exists tl,
          Analyzer.aggregateTimeline l startDate endDate = Some tl
          /\ List.length tl = 10%nat).
Proof.
  split; [ | split ].
  - intros startDate endDate. cbv zeta.
    unfold Analyzer.timelineIntervals. cbv zeta.
    destruct (Z.leb_spec (Dates.differenceInDays endDate startDate) 31);
      destruct (Z.leb_spec (Dates.differenceInDays endDate startDate) 180);
      repeat split; intros; (reflexivity || lia).
  - intros l startDate endDate _ W.
    destruct (aggregateTimeline_some l startDate endDate W) as [tl A].
    destruct (aggregateTimeline_empty startDate endDate) as [tl0 [A0 E0]].
    exists tl, tl0.
    pose proof (aggregateTimeline_labels _ _ _ _ A) as H.
    pose proof (aggregateTimeline_labels _ _ _ _ A0) as H0.
    unfold Spec.bucketLabels.
    destruct (Analyzer.timelineIntervals startDate endDate) as [ints fmt].
    destruct H as [H _]. destruct H0 as [H0 _].
    repeat split; trivial; try congruence.
    + rewrite H. intros I. apply sort_In in I. now apply initTimeline_keys.
    + rewrite H. intros I. apply sort_In. now apply initTimeline_keys.
  - intros l startDate endDate W Ls Le D.
    destruct (aggregateTimeline_some l startDate endDate W) as [tl A].
    exists tl. split; [ exact A | ].
    assert (O : startDate <= endDate).
    { revert D. unfold Dates.day_of, Dates.MS_PER_DAY.
      Z.div_mod_to_equations. lia. }
    rewrite (daily_timeline_length l startDate endDate tl Ls Le O); trivial.
    + rewrite D. replace (Dates.day_of startDate + 9
                          - Dates.day_of startDate + 1) with 10 by lia.
      reflexivity.
    + rewrite (differenceInDays_nonneg _ _ O).
      revert D. unfold Dates.day_of, Dates.MS_PER_DAY.
      Z.div_mod_to_equations. lia.
Qed.

(** The ten days of July from the first to the tenth give ten buckets. *)
Lemma july_window_has_ten_buckets :
  exists tl,
    Analyzer.aggregateTimeline [Samples.reviewedRecord]
      Samples.july1 Samples.july10_end = Some tl
    /\ List.length tl = 10%nat.
Proof.
  apply (proj2 (proj2 timeline_modes_and_precreated_buckets)).
  - repeat constructor. vm_compute. discriminate.
  - vm_compute. split; [ discriminate | reflexivity ].
  - vm_compute. split; [ discriminate | reflexivity ].
  - vm_compute. reflexivity.
Qed.

Lemma format_of_day (t : Z) (formatStr : string) :
  Dates.format t formatStr
  = Dates.format (Dates.day_of t * Dates.MS_PER_DAY) formatStr.
Proof.
  unfold Dates.format. f_equal.
  unfold Dates.day_of at 2, Dates.MS_PER_DAY.
  now rewrite Z.div_mul by lia.
Qed.

(** With daily buckets, a record created outside the interval of every
    bucket of the window leaves the timeline as it is. *)
Lemma daily_timeline_drops_record_outside_buckets (l : list PullRequest)
  (pr : PullRequest) (startDate endDate t : Z) (tl : list TimelineData) :
  Spec.labelled startDate -> Spec.labelled endDate -> Spec.labelled t ->
  startDate <= endDate ->
  Dates.differenceInDays endDate startDate <= 31 ->
  Analyzer.aggregateTimeline l startDate endDate = Some tl ->
  Dates.parseISO (createdAt pr) = Some t ->
  Spec.coveredByBuckets startDate endDate t = false ->
  Analyzer.aggregateTimeline (l ++ [pr]) startDate endDate = Some tl.
Proof.
  intros Ls Le Lt O D A P N.
  apply (aggregateTimeline_dropped l pr startDate endDate t tl A P).
  unfold Spec.coveredByBuckets, Spec.withinBucket, Spec.bucketEnd,
    Spec.bucketLabels in *.
  unfold Analyzer.timelineIntervals in *. cbv zeta in *.
  destruct (Z.leb_spec (Dates.differenceInDays endDate startDate) 31);
    [ | lia ].
  cbn [fst] in N. unfold Analyzer.timelineKey.
  destruct (Z.leb_spec (Dates.differenceInDays endDate startDate) 31);
    [ | lia ].
  intros I. apply in_map_iff in I. destruct I as (d & E & I).
  assert (X : existsb
                (fun d => (d <=? t) && (t <? d + Dates.MS_PER_DAY))
                (Dates.eachDayOfInterval startDate endDate) = true);
    [ | congruence ].
  apply existsb_exists. exists d. split; [ exact I | ].
  unfold Dates.eachDayOfInterval in I.
  destruct (Z.ltb_spec endDate startDate); [ lia | ].
  apply in_map_iff in I. destruct I as (a & <- & I).
  apply zrange_In in I.
  pose proof (day_of_labelled _ Ls) as Ds.
  pose proof (day_of_labelled _ Le) as De.
  pose proof (day_of_labelled _ Lt) as Dt.
  assert (Dm : Dates.day_of startDate <= Dates.day_of endDate).
  { unfold Dates.day_of, Dates.MS_PER_DAY. apply Z.div_le_mono; lia. }
  rewrite (format_of_day t) in E.
  apply format_day_inj in E; [ | lia | exact Dt ].
  subst a. unfold Dates.day_of, Dates.MS_PER_DAY.
  apply andb_true_intro. split; [ apply Z.leb_le | apply Z.ltb_lt ];
    Z.div_mod_to_equations; lia.
Qed.

(** The weekly lookup leaves the last interval open-ended: every instant
    from the start of the last week on, however late, is filed under that
    week. *)
Lemma findWeekStart_last_week_is_open_ended (earlier : list Z)
  (lastWeek prDate : Z) :
  Forall (fun d => d <= lastWeek) earlier ->
  lastWeek <= prDate ->
  Analyzer.findWeekStart (earlier ++ [lastWeek]) prDate = Some lastWeek.
Proof.
  intros F L. induction F as [|d earlier H F IH]; simpl.
  - destruct (Z.leb_spec lastWeek prDate); [ reflexivity | lia ].
  - assert (N : match earlier ++ [lastWeek] with
                | [] => true
                | nextWeek :: _ => prDate <? nextWeek
                end = false).
    { destruct F as [|d' earlier' H' F']; simpl;
        [ destruct (Z.ltb_spec prDate lastWeek)
        | destruct (Z.ltb_spec prDate d') ]; try reflexivity; lia. }
    rewrite N, andb_false_r. exact IH.
Qed.

(** C8: with weekly buckets a record created after the end of the last
    bucket is not dropped.  The window from 1 July to 15 August 2025 spans
    45 days and gets seven weekly buckets, the last one from 10 to 17
    August; a record created on 25 December lies in the interval of none
    of them, and is counted in the last bucket all the same, while the
    daily timeline of 1 to 10 July leaves it out. *)
Theorem weekly_timeline_counts_record_after_window :
  Dates.differenceInDays Samples.august15 Samples.july1 = 45
  /\ Dates.parseISO "2025-08-15T00:00:00Z" = Some Samples.august15
  /\ Dates.parseISO (createdAt Samples.decemberRecord)
     = Some Samples.december25_noon
  /\ map (fun d => (Dates.toISOString d,
                    Dates.toISOString
                      (Spec.bucketEnd Samples.july1 Samples.august15 d)))
         (fst (Analyzer.timelineIntervals Samples.july1 Samples.august15))
     = [ ("2025-06-29T00:00:00.000Z", "2025-07-06T00:00:00.000Z");
         ("2025-07-06T00:00:00.000Z", "2025-07-13T00:00:00.000Z");
         ("2025-07-13T00:00:00.000Z", "2025-07-20T00:00:00.000Z");
         ("2025-07-20T00:00:00.000Z", "2025-07-27T00:00:00.000Z");
         ("2025-07-27T00:00:00.000Z", "2025-08-03T00:00:00.000Z");
         ("2025-08-03T00:00:00.000Z", "2025-08-10T00:00:00.000Z");
         ("2025-08-10T00:00:00.000Z", "2025-08-17T00:00:00.000Z") ]
  /\ Spec.coveredByBuckets Samples.july1 Samples.august15
                           Samples.december25_noon = false
  /\ option_map (map (fun t => (t_date t, t_count t)))
       (Analyzer.aggregateTimeline [Samples.decemberRecord]
          Samples.july1 Samples.august15)
     = Some [ ("2025-06-29", 0); ("2025-07-06", 0); ("2025-07-13", 0);
              ("2025-07-20", 0); ("2025-07-27", 0); ("2025-08-03", 0);
              ("2025-08-10", 1) ]
  /\ option_map (map (fun t => (t_date t, t_count t)))
       (Analyzer.aggregateTimeline [] Samples.july1 Samples.august15)
     = Some [ ("2025-06-29", 0); ("2025-07-06", 0); ("2025-07-13", 0);
              ("2025-07-20", 0); ("2025-07-27", 0); ("2025-08-03", 0);
              ("2025-08-10", 0) ]
  /\ Spec.coveredByBuckets Samples.july1 Samples.july10_end
                           Samples.december25_noon = false
  /\ option_map (map t_count)
       (Analyzer.aggregateTimeline [Samples.decemberRecord]
          Samples.july1 Samples.july10_end)
     = Some [0; 0; 0; 0; 0; 0; 0; 0; 0; 0].
Proof. repeat split; vm_compute; reflexivity. Qed.

(** A record created in August is absent from the July timeline and
    counted in the totals. *)
Lemma august_record_is_counted_but_not_bucketed :
  exists r r',
    Analyzer.analyzeResults [Samples.reviewedRecord] ["octo/parser"]
      Samples.july1 Samples.july10_end = Some r
    /\ Analyzer.analyzeResults [Samples.reviewedRecord; Samples.augustRecord]
         ["octo/parser"] Samples.july1 Samples.july10_end = Some r'
    /\ timeline r' = timeline r
    /\ totalPRs r = 1 /\ totalPRs r' = 2
    /\ nXS (sizeDistribution r) = 0 /\ nXS (sizeDistribution r') = 1.
Proof.
  destruct (Analyzer.analyzeResults [Samples.reviewedRecord] _ _ _)
    as [r|] eqn:E; [ | vm_compute in E; discriminate ].
  destruct (Analyzer.analyzeResults
              [Samples.reviewedRecord; Samples.augustRecord] _ _ _)
    as [r'|] eqn:E'; [ | vm_compute in E'; discriminate ].
  exists r, r'. vm_compute in E, E'.
  injection E as <-. injection E' as <-.
  repeat split; reflexivity.
Qed.

(** A window whose ends are exactly ten times 24 hours apart touches
    eleven days: [differenceInDays] is 10 and the timeline has eleven
    daily buckets. *)
Lemma window_of_240_hours_has_eleven_buckets :
  Dates.differenceInDays (Samples.july1 + 10 * Dates.MS_PER_DAY)
                         Samples.july1 = 10
  /\ option_map (@List.length TimelineData)
       (Analyzer.aggregateTimeline [Samples.reviewedRecord] Samples.july1
          (Samples.july1 + 10 * Dates.MS_PER_DAY))
     = Some 11%nat.
Proof. split; vm_compute; reflexivity. Qed.

(** ** Sorting by a numeric key *)

Lemma sort_insert_Permutation {A : Type} (cmp : A -> A -> Z) (x : A)
  (l : list A) :
  Permutation (sort_insert cmp x l) (x :: l).
Proof.
  induction l as [|y r IH]; simpl; [ reflexivity | ].
  destruct (0 <? cmp x y); [ | reflexivity ].
  rewrite IH. apply perm_swap.
Qed.

Lemma sort_Permutation {A : Type} (cmp : A -> A -> Z) (l : list A) :
  Permutation (sort cmp l) l.
Proof.
  induction l as [|x l IH]; [ constructor | ].
  unfold sort in *. simpl. rewrite sort_insert_Permutation.
  now constructor.
Qed.

Lemma sort_insert_descending {A : Type} (key : A -> Z) (x : A) (l : list A) :
  StronglySorted (fun a b => key b <= key a) l ->
  StronglySorted (fun a b => key b <= key a)
                 (sort_insert (fun a b => key b - key a) x l).
Proof.
  induction 1 as [|y r S IH F]; simpl.
  - repeat constructor.
  - destruct (Z.ltb_spec 0 (key y - key x)).
    + constructor; [ exact IH | ].
      rewrite Forall_forall in *. intros z Hz.
      apply sort_insert_In in Hz. destruct Hz as [->|Hz]; [ lia | auto ].
    + constructor; [ now constructor | ].
      constructor; [ lia | ].
      rewrite Forall_forall in *. intros z Hz. specialize (F z Hz). lia.
Qed.

Lemma sort_descending {A : Type} (key : A -> Z) (l : list A) :
  StronglySorted (fun a b => key b <= key a)
                 (sort (fun a b => key b - key a) l).
Proof.
  induction l as [|x l IH]; [ constructor | ].
  unfold sort in *. simpl. now apply sort_insert_descending.
Qed.

Lemma sort_insert_stable {A : Type} (key : A -> Z) (k : Z) (x : A)
  (l : list A) :
  filter (fun a => key a =? k) (sort_insert (fun a b => key b - key a) x l)
  = filter (fun a => key a =? k) (x :: l).
Proof.
  induction l as [|y r IH]; [ reflexivity | ].
  simpl. destruct (Z.ltb_spec 0 (key y - key x)); [ | reflexivity ].
  simpl. rewrite IH. simpl.
  destruct (Z.eqb_spec (key x) k), (Z.eqb_spec (key y) k);
    try reflexivity; lia.
Qed.

Lemma sort_stable {A : Type} (key : A -> Z) (k : Z) (l : list A) :
  filter (fun a => key a =? k) (sort (fun a b => key b - key a) l)
  = filter (fun a => key a =? k) l.
Proof.
  induction l as [|x l IH]; [ reflexivity | ].
  unfold sort in *. simpl fold_right. rewrite sort_insert_stable.
  simpl. now rewrite IH.
Qed.

Lemma sumZ_Permutation (xs ys : list Z) :
  Permutation xs ys -> sumZ xs = sumZ ys.
Proof.
  induction 1; rewrite ?sumZ_cons; lia.
Qed.

Lemma lengthZ_cons {A : Type} (x : A) (l : list A) :
  lengthZ (x :: l) = 1 + lengthZ l.
Proof. unfold lengthZ. simpl List.length. lia. Qed.

Lemma lengthZ_app {A : Type} (l1 l2 : list A) :
  lengthZ (l1 ++ l2) = lengthZ l1 + lengthZ l2.
Proof. unfold lengthZ. rewrite length_app. lia. Qed.

Lemma lengthZ_nonneg {A : Type} (l : list A) : 0 <= lengthZ l.
Proof. unfold lengthZ. lia. Qed.

(** ** Size distribution *)

Lemma count_of_bump_any (c : SizeCounts) (s s' : PRSize) :
  count_of (bump c s') s
  = count_of c s + (if PRSize_eqb s' s then 1 else 0).
Proof. destruct s, s'; simpl; lia. Qed.

Lemma totalOf_bump (c : SizeCounts) (s : PRSize) :
  Spec.totalOf (bump c s) = Spec.totalOf c + 1.
Proof. destruct s; unfold Spec.totalOf; simpl; lia. Qed.

Lemma countSize_cons (s : PRSize) (pr : PullRequest) (l : list PullRequest) :
  Spec.countSize s (pr :: l)
  = (if PRSize_eqb (size pr) s then 1 else 0) + Spec.countSize s l.
Proof.
  unfold Spec.countSize. simpl.
  destruct (PRSize_eqb (size pr) s); [ apply lengthZ_cons | lia ].
Qed.

Lemma fold_bump_counts (l : list PullRequest) :
  forall c,
    (forall s,
        count_of (fold_left (fun d pr => bump d (size pr)) l c) s
        = count_of c s + Spec.countSize s l)
    /\ Spec.totalOf (fold_left (fun d pr => bump d (size pr)) l c)
       = Spec.totalOf c + lengthZ l.
Proof.
  induction l as [|pr l IH]; intros c; simpl.
  - split; [ intros s | ]; unfold Spec.countSize, lengthZ; simpl; lia.
  - destruct (IH (bump c (size pr))) as [IH1 IH2]. split.
    + intros s. rewrite IH1, count_of_bump_any, countSize_cons. lia.
    + rewrite IH2, totalOf_bump, lengthZ_cons. lia.
Qed.

(** Every counter of the size distribution is the number of records of
    that size, and the six counters add up to the number of records. *)
Lemma aggregateSizeDistribution_counts (prs : list PullRequest) :
  (forall s,
      count_of (Analyzer.aggregateSizeDistribution prs) s
      = Spec.countSize s prs)
  /\ Spec.totalOf (Analyzer.aggregateSizeDistribution prs) = lengthZ prs.
Proof.
  unfold Analyzer.aggregateSizeDistribution.
  destruct (fold_bump_counts prs zeroCounts) as [H1 H2]. split.
  - intros s. rewrite H1. destruct s; reflexivity.
  - rewrite H2. reflexivity.
Qed.

(** ** Contributors *)

Lemma countState_cons (s : PRState) (pr : PullRequest)
  (l : list PullRequest) :
  Analyzer.countState s (pr :: l)
  = (if PRState_eqb (state pr) s then 1 else 0) + Analyzer.countState s l.
Proof.
  unfold Analyzer.countState. simpl.
  destruct (PRState_eqb (state pr) s); [ apply lengthZ_cons | lia ].
Qed.

Lemma contributor_fields (rest : list PullRequest) :
  forall d,
    let d' := fold_left Analyzer.updateContributor rest d in
    Analyzer.d_prs d' = Analyzer.d_prs d ++ rest
    /\ Analyzer.d_avatar d' = Analyzer.d_avatar d
    /\ Analyzer.d_totalPRs d' = Analyzer.d_totalPRs d + lengthZ rest
    /\ Analyzer.d_mergedPRs d'
       = Analyzer.d_mergedPRs d + Analyzer.countState merged rest
    /\ Analyzer.d_additions d'
       = Analyzer.d_additions d + sumZ (map additions rest)
    /\ Analyzer.d_deletions d'
       = Analyzer.d_deletions d + sumZ (map deletions rest)
    /\ (forall s,
          count_of (Analyzer.d_sizeDistribution d') s
          = count_of (Analyzer.d_sizeDistribution d) s
            + Spec.countSize s rest).
Proof.
  induction rest as [|pr rest IH]; intros d; cbv zeta.
  - simpl. rewrite app_nil_r. unfold Analyzer.countState, Spec.countSize,
      lengthZ, sumZ. simpl. repeat split; lia.
  - simpl fold_left.
    destruct (IH (Analyzer.updateContributor d pr))
      as (H1 & H2 & H3 & H4 & H5 & H6 & H7).
    rewrite H1, H2, H3, H4, H5, H6. simpl.
    rewrite <- app_assoc, lengthZ_cons, countState_cons, !sumZ_cons.
    repeat split; try lia.
    + destruct (PRState_eqb (state pr) merged); lia.
    + intros s. rewrite H7. simpl.
      rewrite count_of_bump_any, countSize_cons. lia.
Qed.

Lemma contributorMap_entry (prs : list PullRequest) (k : string)
  (d : Analyzer.ContributorData) :
  In (k, d) (Analyzer.contributorMap prs) ->
  exists p rest,
    Spec.owned k prs = p :: rest
    /\ d = fold_left Analyzer.updateContributor rest
                     (Analyzer.newContributor p)
    /\ Analyzer.d_username d = k.
Proof.
  intros I.
  pose proof (obj_get_In _ _ _ (contributorMap_NoDup prs) I) as G.
  rewrite contributorMap_get in G.
  destruct (Spec.owned k prs) as [|p rest] eqn:O; [ discriminate | ].
  injection G as <-. exists p, rest. repeat split.
  rewrite updateContributor_username. simpl.
  now apply owned_author with prs rest.
Qed.

Lemma aggregateByContributor_In (prs : list PullRequest)
  (c : ContributorStats) :
  In c (Analyzer.aggregateByContributor prs) ->
  exists p rest,
    Spec.owned (c_username c) prs = p :: rest
    /\ c = Analyzer.finishContributor
             (fold_left Analyzer.updateContributor rest
                        (Analyzer.newContributor p)).
Proof.
  intros I. unfold Analyzer.aggregateByContributor in I.
  apply sort_In in I. apply in_map_iff in I. destruct I as [d [<- I]].
  unfold obj_values in I. apply in_map_iff in I.
  destruct I as [[k d'] [E I]]. simpl in E. subst d'.
  destruct (contributorMap_entry prs k d I) as (p & rest & O & E & U).
  exists p, rest. simpl. rewrite U. split; [ exact O | now rewrite E ].
Qed.

(** X3: an entry of the contributor list holds exactly the records of its
    author, in their order, and its counters are the counts and sums over
    those records. *)
Theorem aggregateByContributor_entries (prs : list PullRequest)
  (c : ContributorStats) :
  In c (Analyzer.aggregateByContributor prs) ->
  c_prs c = Spec.owned (c_username c) prs
  /\ c_prs c <> []
  /\ c_totalPRs c = lengthZ (c_prs c)
  /\ c_mergedPRs c = Analyzer.countState merged (c_prs c)
  /\ c_additions c = sumZ (map additions (c_prs c))
  /\ c_deletions c = sumZ (map deletions (c_prs c))
  /\ (forall s, count_of (c_sizeDistribution c) s
                = Spec.countSize s (c_prs c))
  /\ option_map authorAvatar (hd_error (c_prs c)) = Some (c_avatar c)
  /\ c_avgComplexity c = Some (Analyzer.meanComplexity (c_prs c)).
Proof.
  intros I. destruct (aggregateByContributor_In prs c I) as (p & rest & O & E).
  rewrite O. subst c.
  destruct (contributor_fields rest (Analyzer.newContributor p))
    as (H1 & H2 & H3 & H4 & H5 & H6 & H7).
  cbv zeta in *. unfold Analyzer.finishContributor.
  cbn [c_prs c_totalPRs c_mergedPRs c_additions c_deletions
       c_sizeDistribution c_avatar c_avgComplexity].
  rewrite H1, H2, H3, H4, H5, H6.
  cbn [Analyzer.newContributor Analyzer.d_prs Analyzer.d_avatar
       Analyzer.d_totalPRs Analyzer.d_mergedPRs Analyzer.d_additions
       Analyzer.d_deletions app].
  rewrite lengthZ_cons, countState_cons. cbn [map]. rewrite !sumZ_cons.
  repeat split; try lia; try discriminate.
  intros s. rewrite H7, countSize_cons. simpl.
  destruct (size p), s; reflexivity.
Qed.

Lemma contributor_usernames (prs : list PullRequest) :
  Permutation (map c_username (Analyzer.aggregateByContributor prs))
              (obj_keys (Analyzer.contributorMap prs)).
Proof.
  unfold Analyzer.aggregateByContributor.
  rewrite (Permutation_map c_username (sort_Permutation _ _)).
  unfold obj_values, obj_keys. rewrite !map_map.
  erewrite map_ext_in; [ reflexivity | ].
  intros [k d] I. simpl.
  now destruct (contributorMap_entry prs k d I) as (_ & _ & _ & _ & U).
Qed.

Lemma contributorMap_keys (prs : list PullRequest) (a : string) :
  In a (obj_keys (Analyzer.contributorMap prs)) <-> In a (map author prs).
Proof.
  split; intros I.
  - destruct (obj_get (Analyzer.contributorMap prs) a) eqn:G.
    + rewrite contributorMap_get in G.
      destruct (Spec.owned a prs) as [|p rest] eqn:O; [ discriminate | ].
      assert (J : In p (Spec.owned a prs)) by (rewrite O; now left).
      apply filter_In in J. destruct J as [J E].
      apply String.eqb_eq in E. subst a. now apply in_map.
    + apply obj_get_None in G. contradiction.
  - apply in_map_iff in I. destruct I as (pr & <- & I).
    destruct (in_dec string_dec (author pr)
                (obj_keys (Analyzer.contributorMap prs))) as [K|K];
      [ exact K | ].
    apply obj_get_None in K. rewrite contributorMap_get in K.
    assert (J : In pr (Spec.owned (author pr) prs)).
    { apply filter_In. split; [ exact I | apply String.eqb_refl ]. }
    destruct (Spec.owned (author pr) prs); [ destruct J | discriminate ].
Qed.

(** X4: the contributor list is in descending order of pull-request
    counts, holds every author once, and contributors with the same count
    keep the order in which the contributor map holds them. *)
Theorem aggregateByContributor_order (prs : list PullRequest) :
  StronglySorted (fun a b => c_totalPRs b <= c_totalPRs a)
                 (Analyzer.aggregateByContributor prs)
  /\ NoDup (map c_username (Analyzer.aggregateByContributor prs))
  /\ (forall a, In a (map c_username (Analyzer.aggregateByContributor prs))
                <-> In a (map author prs))
  /\ (forall n,
        filter (fun c => c_totalPRs c =? n)
               (Analyzer.aggregateByContributor prs)
        = filter (fun c => c_totalPRs c =? n)
                 (map Analyzer.finishContributor
                      (obj_values (Analyzer.contributorMap prs)))).
Proof.
  split; [ | split; [ | split; [ split | intros n ] ] ].
  - apply (sort_descending c_totalPRs).
  - apply (Permutation_NoDup (Permutation_sym (contributor_usernames prs))).
    apply contributorMap_NoDup.
  - intros I. apply contributorMap_keys.
    now apply (Permutation_in _ (contributor_usernames prs)).
  - intros I. apply contributorMap_keys in I.
    now apply (Permutation_in _ (Permutation_sym (contributor_usernames prs))).
  - apply (sort_stable c_totalPRs n).
Qed.

(** ** Reviewers *)

Lemma reviewerMap_from (prs : list PullRequest) :
  forall m,
    fold_left
      (fun m pr =>
         match reviews pr with
         | Some rs => fold_left (Analyzer.addReview pr) rs m
         | None => m
         end) prs m
    = fold_left (fun m e => Analyzer.addReview (fst e) m (snd e))
                (Spec.reviewEvents prs) m.
Proof.
  induction prs as [|pr prs IH]; intros m; [ reflexivity | ].
  simpl. rewrite fold_left_app, IH. f_equal.
  destruct (reviews pr) as [rs|]; [ | reflexivity ].
  clear IH. revert m. induction rs as [|r rs IH]; intros m;
    [ reflexivity | simpl; apply IH ].
Qed.

Lemma reviewerMap_events (prs : list PullRequest) :
  Analyzer.reviewerMap prs
  = fold_left (fun m e => Analyzer.addReview (fst e) m (snd e))
              (Spec.reviewEvents prs) [].
Proof. apply reviewerMap_from. Qed.

Lemma reviewers_get (es : list (PullRequest * PRReview)) (login : string) :
  obj_get (fold_left (fun m e => Analyzer.addReview (fst e) m (snd e)) es [])
          login
  = match filter (fun e => String.eqb (reviewer (snd e)) login) es with
    | [] => None
    | e :: rest =>
        Some (fold_left
                (fun st e => Analyzer.updateReviewer st (fst e) (snd e))
                rest (Analyzer.newReviewer (fst e) (snd e)))
    end.
Proof.
  induction es as [|e es IH] using rev_ind; [ reflexivity | ].
  rewrite fold_left_app, filter_app. simpl.
  unfold Analyzer.addReview at 1.
  destruct (String.eqb_spec (reviewer (snd e)) login) as [->|N].
  - rewrite IH.
    destruct (filter _ es) as [|e0 rest]; simpl.
    + now rewrite obj_get_set_eq.
    + rewrite obj_get_set_eq, fold_left_app. reflexivity.
  - rewrite app_nil_r.
    destruct (obj_get _ (reviewer (snd e)));
      rewrite obj_get_set_neq by assumption; exact IH.
Qed.

Lemma reviewers_NoDup (es : list (PullRequest * PRReview)) :
  NoDup (obj_keys
           (fold_left (fun m e => Analyzer.addReview (fst e) m (snd e))
                      es [])).
Proof.
  induction es as [|e es IH] using rev_ind; [ constructor | ].
  rewrite fold_left_app. simpl. unfold Analyzer.addReview at 1.
  destruct (obj_get _ _); now apply obj_set_NoDup.
Qed.

Lemma countReviews_cons (s : ReviewState) (e : PullRequest * PRReview)
  (es : list (PullRequest * PRReview)) :
  Spec.countReviews s (e :: es)
  = (if Analyzer.review_is (snd e) s then 1 else 0) + Spec.countReviews s es.
Proof.
  unfold Spec.countReviews. simpl.
  destruct (Analyzer.review_is (snd e) s); [ apply lengthZ_cons | lia ].
Qed.

Lemma existsb_Zeqb_In (n : Z) (l : list Z) :
  existsb (Z.eqb n) l = true <-> In n l.
Proof.
  rewrite existsb_exists. split.
  - intros (x & I & E). apply Z.eqb_eq in E. now subst.
  - intros I. exists n. split; [ exact I | apply Z.eqb_refl ].
Qed.

Lemma reviewer_fields (rest : list (PullRequest * PRReview)) :
  forall st,
    let st' := fold_left
                 (fun st e => Analyzer.updateReviewer st (fst e) (snd e))
                 rest st in
    r_username st' = r_username st
    /\ r_totalReviews st' = r_totalReviews st + lengthZ rest
    /\ r_approvals st' = r_approvals st + Spec.countReviews APPROVED rest
    /\ r_changesRequested st'
       = r_changesRequested st + Spec.countReviews CHANGES_REQUESTED rest
    /\ r_comments st' = r_comments st + Spec.countReviews COMMENTED rest
    /\ (NoDup (r_reviewedPRs st) -> NoDup (r_reviewedPRs st'))
    /\ (forall n, In n (r_reviewedPRs st')
                  <-> In n (r_reviewedPRs st)
                      \/ In n (map (fun e => number (fst e)) rest)).
Proof.
  induction rest as [|e rest IH]; intros st; cbv zeta.
  - simpl. unfold Spec.countReviews, lengthZ. simpl.
    repeat split; try lia; tauto.
  - simpl fold_left.
    destruct (IH (Analyzer.updateReviewer st (fst e) (snd e)))
      as (H1 & H2 & H3 & H4 & H5 & H6 & H7).
    rewrite H1, H2, H3, H4, H5, lengthZ_cons, !countReviews_cons.
    cbn [Analyzer.updateReviewer r_username r_totalReviews r_approvals
         r_changesRequested r_comments].
    split; [ reflexivity | ]. split; [ lia | ].
    split; [ destruct (Analyzer.review_is (snd e) APPROVED); lia | ].
    split; [ unfold Analyzer.review_is;
             destruct (review_state (snd e)); lia | ].
    split; [ unfold Analyzer.review_is;
             destruct (review_state (snd e)); lia | ].
    split.
    + intros ND. apply H6. simpl.
      destruct (existsb (Z.eqb (number (fst e))) (r_reviewedPRs st)) eqn:X;
        [ exact ND | ].
      apply NoDup_app; [ exact ND | repeat constructor; intros [] | ].
      intros x I [<-|[]].
      apply existsb_Zeqb_In in I. congruence.
    + intros n. rewrite H7. simpl.
      destruct (existsb (Z.eqb (number (fst e))) (r_reviewedPRs st)) eqn:X.
      * apply existsb_Zeqb_In in X. intuition (subst; auto).
      * rewrite in_app_iff. simpl. intuition.
Qed.

Lemma reviewerMap_entry (prs : list PullRequest) (k : string)
  (r : ReviewerStats) :
  In (k, r) (Analyzer.reviewerMap prs) ->
  exists e rest,
    Spec.eventsOf k prs = e :: rest
    /\ r = fold_left
             (fun st e => Analyzer.updateReviewer st (fst e) (snd e))
             rest (Analyzer.newReviewer (fst e) (snd e))
    /\ r_username r = k.
Proof.
  rewrite reviewerMap_events. intros I.
  pose proof (obj_get_In _ _ _ (reviewers_NoDup _) I) as G.
  rewrite reviewers_get in G. fold (Spec.eventsOf k prs) in G.
  destruct (Spec.eventsOf k prs) as [|e rest] eqn:O; [ discriminate | ].
  injection G as <-. exists e, rest. repeat split.
  destruct (reviewer_fields rest (Analyzer.newReviewer (fst e) (snd e)))
    as (H1 & _). cbv zeta in H1. rewrite H1. simpl.
  assert (J : In e (Spec.eventsOf k prs)) by (rewrite O; now left).
  apply filter_In in J. now apply String.eqb_eq.
Qed.

(** X5: an entry of the reviewer list counts exactly the review events of
    its reviewer: all of them in [totalReviews], those of each of the three
    counted states in their counter, and the numbers of the reviewed pull
    requests once each. *)
Theorem aggregateByReviewer_entries (prs : list PullRequest)
  (r : ReviewerStats) :
  In r (Analyzer.aggregateByReviewer prs) ->
  let es := Spec.eventsOf (r_username r) prs in
  es <> []
  /\ r_totalReviews r = lengthZ es
  /\ r_approvals r = Spec.countReviews APPROVED es
  /\ r_changesRequested r = Spec.countReviews CHANGES_REQUESTED es
  /\ r_comments r = Spec.countReviews COMMENTED es
  /\ NoDup (r_reviewedPRs r)
  /\ (forall n, In n (r_reviewedPRs r)
                <-> In n (map (fun e => number (fst e)) es)).
Proof.
  intros I. unfold Analyzer.aggregateByReviewer in I.
  apply sort_In in I. unfold obj_values in I. apply in_map_iff in I.
  destruct I as [[k r'] [E I]]. simpl in E. subst r'.
  destruct (reviewerMap_entry prs k r I) as (e & rest & O & E & U).
  rewrite U. cbv zeta. rewrite O.
  destruct (reviewer_fields rest (Analyzer.newReviewer (fst e) (snd e)))
    as (H1 & H2 & H3 & H4 & H5 & H6 & H7).
  cbv zeta in *. rewrite <- E in *. clear E.
  rewrite H2, H3, H4, H5, lengthZ_cons, !countReviews_cons.
  simpl. repeat split; try lia; try discriminate.
  - apply H6. simpl. repeat constructor. intros [].
  - intros J. apply H7 in J. simpl in J. tauto.
  - intros J. apply H7. simpl. tauto.
Qed.

Lemma sum_obj_set {V : Type} (f : V -> Z) (o : Obj V) (k : string) (v : V) :
  sumZ (map f (obj_values (obj_set o k v)))
  = sumZ (map f (obj_values o)) + f v
    - match obj_get o k with Some v0 => f v0 | None => 0 end.
Proof.
  unfold obj_values.
  induction o as [|[k' v'] o IH]; simpl.
  - rewrite sumZ_cons. unfold sumZ. simpl. lia.
  - destruct (String.eqb k' k); simpl; rewrite !sumZ_cons; [ lia | ].
    rewrite IH. lia.
Qed.

Lemma reviewers_total (es : list (PullRequest * PRReview)) :
  sumZ (map r_totalReviews
          (obj_values
             (fold_left (fun m e => Analyzer.addReview (fst e) m (snd e))
                        es [])))
  = lengthZ es.
Proof.
  induction es as [|e es IH] using rev_ind; [ reflexivity | ].
  rewrite fold_left_app, lengthZ_app. simpl.
  unfold Analyzer.addReview at 1.
  destruct (obj_get _ (reviewer (snd e))) as [st|] eqn:G;
    rewrite sum_obj_set, G, IH; simpl; unfold lengthZ; simpl; lia.
Qed.

Lemma reviewers_keys (es : list (PullRequest * PRReview)) (login : string) :
  In login
     (obj_keys
        (fold_left (fun m e => Analyzer.addReview (fst e) m (snd e)) es []))
  <-> In login (map (fun e => reviewer (snd e)) es).
Proof.
  pose proof (reviewers_get es login) as G.
  split; intros I.
  - destruct (filter (fun e => String.eqb (reviewer (snd e)) login) es)
      as [|e rest] eqn:O.
    + apply obj_get_None in G. contradiction.
    + assert (J : In e (filter
                          (fun e => String.eqb (reviewer (snd e)) login) es))
        by (rewrite O; now left).
      apply filter_In in J. destruct J as [J E].
      apply String.eqb_eq in E. subst login.
      apply in_map_iff. now exists e.
  - apply in_map_iff in I. destruct I as (e & <- & I).
    assert (J : In e (filter
                        (fun e' => String.eqb (reviewer (snd e'))
                                              (reviewer (snd e))) es)).
    { apply filter_In. split; [ exact I | apply String.eqb_refl ]. }
    destruct (filter _ es); [ destruct J | ].
    destruct (in_dec string_dec (reviewer (snd e))
                (obj_keys
                   (fold_left
                      (fun m e => Analyzer.addReview (fst e) m (snd e))
                      es []))) as [K|K]; [ exact K | ].
    apply obj_get_None in K. congruence.
Qed.

Lemma reviewer_usernames (prs : list PullRequest) :
  Permutation (map r_username (Analyzer.aggregateByReviewer prs))
              (obj_keys (Analyzer.reviewerMap prs)).
Proof.
  unfold Analyzer.aggregateByReviewer.
  rewrite (Permutation_map r_username (sort_Permutation _ _)).
  unfold obj_values, obj_keys. rewrite !map_map.
  erewrite map_ext_in; [ reflexivity | ].
  intros [k r] I. simpl.
  now destruct (reviewerMap_entry prs k r I) as (_ & _ & _ & _ & U).
Qed.

(** X6: the reviewer list is in descending order of review counts, holds
    every reviewer that has an event once, and its counts add up to the
    number of review events. *)
Theorem aggregateByReviewer_order (prs : list PullRequest) :
  StronglySorted (fun a b => r_totalReviews b <= r_totalReviews a)
                 (Analyzer.aggregateByReviewer prs)
  /\ NoDup (map r_username (Analyzer.aggregateByReviewer prs))
  /\ (forall login,
        In login (map r_username (Analyzer.aggregateByReviewer prs))
        <-> In login (map (fun e => reviewer (snd e))
                          (Spec.reviewEvents prs)))
  /\ Spec.reviewerTotal (Analyzer.aggregateByReviewer prs)
     = lengthZ (Spec.reviewEvents prs).
Proof.
  split; [ | split; [ | split ] ].
  - apply (sort_descending r_totalReviews).
  - apply (Permutation_NoDup (Permutation_sym (reviewer_usernames prs))).
    rewrite reviewerMap_events. apply reviewers_NoDup.
  - intros login.
    assert (K : In login (obj_keys (Analyzer.reviewerMap prs))
                <-> In login (map (fun e => reviewer (snd e))
                                  (Spec.reviewEvents prs))).
    { rewrite reviewerMap_events. apply reviewers_keys. }
    rewrite <- K. split; intros I.
    + now apply (Permutation_in _ (reviewer_usernames prs)).
    + now apply (Permutation_in _ (Permutation_sym (reviewer_usernames prs))).
  - unfold Spec.reviewerTotal, Analyzer.aggregateByReviewer.
    rewrite (sumZ_Permutation _ _
               (Permutation_map r_totalReviews (sort_Permutation _ _))).
    rewrite reviewerMap_events. apply reviewers_total.
Qed.

(** ** Language distribution *)

Lemma fromEntries_NoDup {V : Type} (es : list (string * V)) :
  NoDup (map fst es) -> fromEntries es = es.
Proof.
  intros ND. unfold fromEntries.
  rewrite (fold_obj_set_map (fun e => snd e) es []) by exact ND.
  simpl. erewrite map_ext; [ apply map_id | ]. now intros [k v].
Qed.

Lemma toPercentages_map (ll : Obj Z) :
  NoDup (obj_keys ll) ->
  Analyzer.toPercentages ll
  = if 0 <? sumZ (obj_values ll)
    then map (fun e => (fst e,
                        Analyzer.percentOf (snd e) (sumZ (obj_values ll))))
             ll
    else [].
Proof.
  intros ND. unfold Analyzer.toPercentages.
  destruct (0 <? sumZ (obj_values ll)); [ | reflexivity ].
  now rewrite (fold_obj_set_map
                 (fun e => Analyzer.percentOf (snd e) (sumZ (obj_values ll)))
                 ll []) by exact ND.
Qed.

Lemma toPercentages_NoDup (ll : Obj Z) :
  NoDup (obj_keys ll) -> NoDup (obj_keys (Analyzer.toPercentages ll)).
Proof.
  intros ND. rewrite toPercentages_map by exact ND.
  destruct (0 <? _); [ | constructor ].
  unfold obj_keys. rewrite map_map. exact ND.
Qed.

Lemma obj_get_Permutation {V : Type} (o o' : Obj V) (k : string) :
  NoDup (obj_keys o) -> Permutation o o' -> obj_get o' k = obj_get o k.
Proof.
  intros ND P.
  assert (ND' : NoDup (obj_keys o')).
  { apply (Permutation_NoDup (Permutation_map fst P)). exact ND. }
  destruct (obj_get o k) as [v|] eqn:G.
  - apply obj_get_In; [ exact ND' | ].
    apply (Permutation_in _ P). now apply obj_get_Some_In.
  - apply obj_get_None. apply obj_get_None in G. intros I. apply G.
    apply (Permutation_in _ (Permutation_sym (Permutation_map fst P))).
    exact I.
Qed.

Lemma languageLines_fold (prs : list PullRequest) :
  forall ll,
    fold_left Analyzer.addLanguageLines prs ll
    = fold_left Spec.addEstimate (Spec.allEstimates prs) ll.
Proof.
  induction prs as [|pr prs IH]; intros ll; [ reflexivity | ].
  simpl. unfold Spec.allEstimates. simpl. rewrite fold_left_app.
  rewrite IH, addLanguageLines_estimates. reflexivity.
Qed.

(** X7: the language distribution gives each language the share of its
    summed line estimates in the total of all estimates, lists the
    languages in descending order of that share, and is empty when the
    estimates do not add up to a positive total. *)
Theorem aggregateLanguageDistribution_shares (prs : list PullRequest) :
  (forall lang,
      obj_get (Analyzer.aggregateLanguageDistribution prs) lang
      = Spec.rederived prs lang)
  /\ StronglySorted (fun a b => snd b <= snd a)
                    (Analyzer.aggregateLanguageDistribution prs)
  /\ NoDup (obj_keys (Analyzer.aggregateLanguageDistribution prs))
  /\ (sumZ (map snd (Spec.allEstimates prs)) <= 0 ->
      Analyzer.aggregateLanguageDistribution prs = []).
Proof.
  unfold Analyzer.aggregateLanguageDistribution. cbv zeta.
  rewrite languageLines_fold.
  set (es := Spec.allEstimates prs).
  set (ll := fold_left Spec.addEstimate es []).
  assert (ND : NoDup (obj_keys ll)).
  { apply accumulate_NoDup. constructor. }
  assert (S : sumZ (obj_values ll) = sumZ (map snd es)).
  { unfold ll. rewrite accumulate_sum. unfold sumZ at 1. simpl. lia. }
  pose proof (toPercentages_NoDup ll ND) as NDp.
  set (cmp := fun a b : string * Z => snd b - snd a).
  assert (NDs : NoDup (map fst (sort cmp (Analyzer.toPercentages ll)))).
  { apply (Permutation_NoDup
             (Permutation_map fst
                (Permutation_sym (sort_Permutation cmp _)))).
    exact NDp. }
  rewrite (fromEntries_NoDup _ NDs).
  split; [ | split; [ | split ] ].
  - intros lang.
    rewrite (obj_get_Permutation (Analyzer.toPercentages ll) _ lang NDp)
      by (apply Permutation_sym, sort_Permutation).
    rewrite (toPercentages_get ll lang ND), S.
    unfold Spec.rederived. cbv zeta. fold es.
    destruct (0 <? sumZ (map snd es)); simpl; [ | reflexivity ].
    pose proof (accumulate_get es [] lang) as GET. fold ll in GET.
    simpl in GET.
    pose proof (accumulate_keys es [] lang) as KEYS. fold ll in KEYS.
    simpl in KEYS.
    destruct (obj_get ll lang) as [n|] eqn:GL.
    + simpl in GET. subst n.
      assert (M : existsb (String.eqb lang) (map fst es) = true).
      { apply existsb_eqb_In.
        destruct (in_dec string_dec lang (obj_keys ll)) as [K|K].
        - apply KEYS in K. destruct K as [[]|K]. exact K.
        - apply obj_get_None in K. congruence. }
      rewrite M. reflexivity.
    + assert (M : existsb (String.eqb lang) (map fst es) = false).
      { apply not_true_is_false. intros M. apply existsb_eqb_In in M.
        apply obj_get_None in GL. apply GL. apply KEYS. now right. }
      rewrite M. reflexivity.
  - apply (sort_descending (fun e : string * Z => snd e)).
  - exact NDs.
  - intros LE. unfold Analyzer.toPercentages. rewrite S.
    destruct (Z.ltb_spec 0 (sumZ (map snd es))); [ lia | reflexivity ].
Qed.

(** ** Timeline counters *)

Lemma obj_get_values {V : Type} (o : Obj V) (k : string) (v : V) :
  obj_get o k = Some v -> In v (obj_values o).
Proof.
  intros G. apply obj_get_Some_In in G. unfold obj_values.
  apply in_map_iff. now exists (k, v).
Qed.

Lemma obj_set_values {V : Type} (P : V -> Prop) (o : Obj V) (k : string)
  (v : V) :
  Forall P (obj_values o) -> P v -> Forall P (obj_values (obj_set o k v)).
Proof.
  intros F Pv. rewrite Forall_forall in *. intros x I.
  unfold obj_values in I. apply in_map_iff in I.
  destruct I as [[k' x'] [E I]]. simpl in E. subst x'.
  apply obj_set_In in I. destruct I as [[_ ->]|I]; [ exact Pv | ].
  apply F. unfold obj_values. apply in_map_iff. now exists (k', x).
Qed.

Lemma addToTimeline_counts (daysDiff : Z) (intervals : list Z)
  (formatStr : string) (m m' : Obj TimelineData) (pr : PullRequest) :
  Analyzer.addToTimeline daysDiff intervals formatStr m pr = Some m' ->
  Forall (fun t => t_count t = Spec.totalOf (t_sizes t)) (obj_values m) ->
  Forall (fun t => t_count t = Spec.totalOf (t_sizes t)) (obj_values m')
  /\ sumZ (map t_count (obj_values m))
     <= sumZ (map t_count (obj_values m'))
     <= sumZ (map t_count (obj_values m)) + 1.
Proof.
  unfold Analyzer.addToTimeline. intros E F.
  destruct (Dates.parseISO (createdAt pr)) as [t|]; [ | discriminate ].
  cbv zeta in E.
  destruct (obj_get m _) as [b|] eqn:G; injection E as <-.
  - split.
    + apply obj_set_values; [ exact F | ]. simpl.
      rewrite totalOf_bump. f_equal.
      rewrite Forall_forall in F. apply F. eapply obj_get_values, G.
    + rewrite sum_obj_set, G. simpl. lia.
  - split; [ exact F | lia ].
Qed.

Lemma distribute_counts (daysDiff : Z) (intervals : list Z)
  (formatStr : string) (l : list PullRequest) :
  forall m m',
    Analyzer.distribute daysDiff intervals formatStr l m = Some m' ->
    Forall (fun t => t_count t = Spec.totalOf (t_sizes t)) (obj_values m) ->
    Forall (fun t => t_count t = Spec.totalOf (t_sizes t)) (obj_values m')
    /\ sumZ (map t_count (obj_values m))
       <= sumZ (map t_count (obj_values m'))
       <= sumZ (map t_count (obj_values m)) + lengthZ l.
Proof.
  induction l as [|pr l IH]; intros m m' E F; simpl in E.
  - injection E as <-. split; [ exact F | ]. unfold lengthZ. simpl. lia.
  - destruct (Analyzer.addToTimeline daysDiff intervals formatStr m pr)
      as [m1|] eqn:A; [ | discriminate ].
    destruct (addToTimeline_counts _ _ _ _ _ _ A F) as [F1 S1].
    destruct (IH _ _ E F1) as [F2 S2].
    split; [ exact F2 | ]. rewrite lengthZ_cons. lia.
Qed.

Lemma initTimeline_counts (intervals : list Z) (formatStr : string) :
  Forall (fun t => t_count t = Spec.totalOf (t_sizes t))
         (obj_values (Analyzer.initTimeline intervals formatStr))
  /\ sumZ (map t_count
             (obj_values (Analyzer.initTimeline intervals formatStr))) = 0.
Proof.
  assert (B : forall t,
             In t (obj_values (Analyzer.initTimeline intervals formatStr)) ->
             t_count t = 0 /\ t_sizes t = zeroCounts).
  { intros t I. unfold obj_values in I. apply in_map_iff in I.
    destruct I as [[k b] [E I]]. simpl in E. subst b.
    apply initTimeline_buckets in I. subst t. split; reflexivity. }
  split.
  - apply Forall_forall. intros t I. destruct (B t I) as [-> ->].
    reflexivity.
  - induction (obj_values (Analyzer.initTimeline intervals formatStr))
      as [|t ts IH]; [ reflexivity | ].
    simpl. rewrite sumZ_cons, IH.
    + destruct (B t (or_introl eq_refl)) as [-> _]. reflexivity.
    + intros t' I. apply B. now right.
Qed.

(** X8: in every bucket of the timeline the count is the sum of the six
    size counters, and the counts of all buckets together never exceed the
    number of records. *)
Theorem aggregateTimeline_counts (prs : list PullRequest)
  (startDate endDate : Z) (tl : list TimelineData) :
  Analyzer.aggregateTimeline prs startDate endDate = Some tl ->
  Forall (fun t => t_count t = Spec.totalOf (t_sizes t)) tl
  /\ 0 <= sumZ (map t_count tl) <= lengthZ prs.
Proof.
  unfold Analyzer.aggregateTimeline. cbv zeta.
  destruct (Analyzer.timelineIntervals startDate endDate)
    as [intervals formatStr].
  destruct (Analyzer.distribute _ intervals formatStr prs _)
    as [m|] eqn:D; [ | discriminate ].
  intros E. injection E as <-.
  destruct (initTimeline_counts intervals formatStr) as [F0 S0].
  destruct (distribute_counts _ _ _ _ _ _ D F0) as [F S].
  split.
  - apply Forall_forall. intros t I. apply sort_In in I.
    rewrite Forall_forall in F. now apply F.
  - rewrite (sumZ_Permutation _ _
               (Permutation_map t_count (sort_Permutation _ _))).
    lia.
Qed.

(** ** The analysis as a whole *)

Lemma countState_partition (l : list PullRequest) :
  Analyzer.countState merged l + Analyzer.countState open l
  + Analyzer.countState closed l = lengthZ l.
Proof.
  induction l as [|pr l IH]; [ reflexivity | ].
  rewrite !countState_cons, lengthZ_cons.
  destruct (state pr); cbn [PRState_eqb]; lia.
Qed.

Lemma annotate_length (l : list PullRequest) :
  lengthZ (Analyzer.annotate l) = lengthZ l.
Proof. unfold lengthZ, Analyzer.annotate. now rewrite length_map. Qed.

Lemma annotate_authors (l : list PullRequest) :
  map author (Analyzer.annotate l) = map author l.
Proof. unfold Analyzer.annotate. rewrite map_map. reflexivity. Qed.

Lemma countSize_annotate (s : PRSize) (l : list PullRequest) :
  Spec.countSize s (Analyzer.annotate l) = Spec.countSize s l.
Proof.
  induction l as [|pr l IH]; [ reflexivity | ].
  simpl. rewrite !countSize_cons, IH. reflexivity.
Qed.

Lemma countState_annotate (s : PRState) (l : list PullRequest) :
  Analyzer.countState s (Analyzer.annotate l) = Analyzer.countState s l.
Proof.
  induction l as [|pr l IH]; [ reflexivity | ].
  simpl. rewrite !countState_cons, IH. reflexivity.
Qed.

Lemma distinct_authors (l : list PullRequest) :
  lengthZ (Analyzer.aggregateByContributor l)
  = lengthZ (nodup string_dec (map author l)).
Proof.
  unfold lengthZ. f_equal.
  rewrite <- (length_map c_username).
  apply Permutation_length. apply NoDup_Permutation.
  - apply (Permutation_NoDup (Permutation_sym (contributor_usernames l))).
    apply contributorMap_NoDup.
  - apply NoDup_nodup.
  - intros a. rewrite nodup_In, <- contributorMap_keys. split; intros I.
    + now apply (Permutation_in _ (contributor_usernames l)).
    + now apply (Permutation_in _ (Permutation_sym (contributor_usernames l))).
Qed.

(** X1: in the result of an analysis the total is the number of records
    analysed, the merged, open and closed counts add up to it, so do the
    six size counters, and [uniqueContributors] is the number of distinct
    authors. *)
Theorem analyzeResults_counts (l : list PullRequest) (rs : list string)
  (startDate endDate : Z) (r : AnalysisResult) :
  Analyzer.analyzeResults l rs startDate endDate = Some r ->
  totalPRs r = lengthZ l
  /\ mergedPRs r = Analyzer.countState merged l
  /\ openPRs r = Analyzer.countState open l
  /\ closedPRs r = Analyzer.countState closed l
  /\ mergedPRs r + openPRs r + closedPRs r = totalPRs r
  /\ (forall s, count_of (sizeDistribution r) s = Spec.countSize s l)
  /\ Spec.totalOf (sizeDistribution r) = totalPRs r
  /\ uniqueContributors r = lengthZ (nodup string_dec (map author l)).
Proof.
  unfold Analyzer.analyzeResults. cbv zeta.
  destruct (Analyzer.aggregateTimeline (Analyzer.annotate l) _ _)
    as [tl|] eqn:T; [ | discriminate ].
  intros E. injection E as <-. simpl.
  unfold Analyzer.aggregateSizeDistribution.
  destruct (fold_bump_counts (Analyzer.annotate l) zeroCounts) as [C1 C2].
  rewrite !countState_annotate, annotate_length in *.
  rewrite distinct_authors, annotate_authors.
  pose proof (countState_partition l) as P.
  repeat split; try reflexivity; try lia.
  - intros s. rewrite C1, countSize_annotate. destruct s; reflexivity.
  - rewrite C2. reflexivity.
Qed.

Lemma annotate_idempotent (l : list PullRequest) :
  Analyzer.annotate (Analyzer.annotate l) = Analyzer.annotate l.
Proof. apply annotate_annotated, annotate_is_annotated. Qed.

(** X2: analysing the records of a result again, for the same repositories
    and window, gives the same result: the complexity scores already set
    are kept. *)
Theorem analyzeResults_again (l : list PullRequest) (rs : list string)
  (startDate endDate : Z) (r : AnalysisResult) :
  Analyzer.analyzeResults l rs startDate endDate = Some r ->
  Analyzer.analyzeResults (prs r) (repos r) startDate endDate = Some r.
Proof.
  intros E. rewrite (analyzeResults_prs _ _ _ _ _ E).
  assert (R : repos r = rs).
  { unfold Analyzer.analyzeResults in E. cbv zeta in E.
    destruct (Analyzer.aggregateTimeline _ _ _); [ | discriminate ].
    injection E as <-. reflexivity. }
  rewrite R, <- E. unfold Analyzer.analyzeResults. cbv zeta.
  rewrite !annotate_idempotent. reflexivity.
Qed.

(** ** Sample runs of the aggregations *)

Lemma aggregateByContributor_entries_witness :
  In Samples.carolEntry (Analyzer.aggregateByContributor Samples.pythonRecords)
  /\ c_prs Samples.carolEntry
     = Spec.owned (c_username Samples.carolEntry) Samples.pythonRecords.
Proof.
  assert (I : In Samples.carolEntry
                 (Analyzer.aggregateByContributor Samples.pythonRecords))
    by (vm_compute; left; reflexivity).
  split; [ exact I | ].
  apply (aggregateByContributor_entries Samples.pythonRecords
           Samples.carolEntry I).
Defined.

Lemma aggregateByReviewer_entries_witness :
  In Samples.bobEntry (Analyzer.aggregateByReviewer [Samples.reviewedRecord])
  /\ r_totalReviews Samples.bobEntry
     = lengthZ (Spec.eventsOf (r_username Samples.bobEntry)
                              [Samples.reviewedRecord]).
Proof.
  assert (I : In Samples.bobEntry
                 (Analyzer.aggregateByReviewer [Samples.reviewedRecord]))
    by (vm_compute; left; reflexivity).
  split; [ exact I | ].
  apply (aggregateByReviewer_entries [Samples.reviewedRecord]
           Samples.bobEntry I).
Defined.

Lemma aggregateTimeline_counts_witness :
  exists tl,
    Analyzer.aggregateTimeline [Samples.reviewedRecord] Samples.july1
                               Samples.july10_end = Some tl
    /\ 0 <= sumZ (map t_count tl) <= lengthZ [Samples.reviewedRecord].
Proof.
  destruct (Analyzer.aggregateTimeline [Samples.reviewedRecord] Samples.july1
                                       Samples.july10_end)
    as [tl|] eqn:E; [ | vm_compute in E; discriminate ].
  exists tl. split; [ reflexivity | ].
  apply (aggregateTimeline_counts _ _ _ _ E).
Defined.

Lemma analyzeResults_counts_witness :
  exists r,
    Samples.julyAnalysis = Some r
    /\ mergedPRs r + openPRs r + closedPRs r = totalPRs r.
Proof.
  destruct Samples.julyAnalysis as [r|] eqn:E;
    [ | vm_compute in E; discriminate ].
  exists r. split; [ reflexivity | ].
  apply (analyzeResults_counts _ _ _ _ _ E).
Defined.

Lemma analyzeResults_again_witness :
  exists r,
    Samples.julyAnalysis = Some r
    /\ Analyzer.analyzeResults (prs r) (repos r) Samples.july1
                               Samples.july10_end = Some r.
Proof.
  destruct Samples.julyAnalysis as [r|] eqn:E;
    [ | vm_compute in E; discriminate ].
  exists r. split; [ reflexivity | ].
  apply (analyzeResults_again _ _ _ _ _ E).
Defined.

(** ** The dashboard's filters *)

Lemma filter_all {A : Type} (f : A -> bool) (l : list A) :
  (forall x, In x l -> f x = true) -> filter f l = l.
Proof.
  induction l as [|x l IH]; intros H; [ reflexivity | ].
  simpl. rewrite (H x (or_introl eq_refl)). f_equal.
  apply IH. intros y I. apply H. now right.
Qed.

Lemma inSizeFilter_In (sizeFilter : list PRSize) (pr : PullRequest) :
  Dashboard.inSizeFilter sizeFilter pr = true <-> In (size pr) sizeFilter.
Proof.
  unfold Dashboard.inSizeFilter. rewrite existsb_exists. split.
  - intros (s & I & E). destruct (size pr), s; try discriminate; exact I.
  - intros I. exists (size pr). split; [ exact I | ].
    destruct (size pr); reflexivity.
Qed.

Lemma inRepoFilter_In (repoFilter : list string) (pr : PullRequest) :
  Dashboard.inRepoFilter repoFilter pr = true <-> In (repo pr) repoFilter.
Proof. apply existsb_eqb_In. Qed.

Lemma inContributorFilter_In (contributorFilter : list string)
  (pr : PullRequest) :
  Dashboard.inContributorFilter contributorFilter pr = true
  <-> exists handle, In handle contributorFilter
                     /\ toLowerCase (author pr) = toLowerCase handle.
Proof.
  unfold Dashboard.inContributorFilter. rewrite existsb_exists.
  split; intros (h & I & E); exists h; (split; [ exact I | ]);
    now apply String.eqb_eq.
Qed.

Lemma fullyFilteredPRs_In (dataPrs : list PullRequest)
  (repoFilter contributorFilter : list string) (sizeFilter : list PRSize)
  (pr : PullRequest) :
  In pr (Dashboard.fullyFilteredPRs dataPrs repoFilter contributorFilter
                                    sizeFilter)
  <-> In pr dataPrs
      /\ (repoFilter = [] \/ In (repo pr) repoFilter)
      /\ (contributorFilter = []
          \/ exists handle, In handle contributorFilter
                            /\ toLowerCase (author pr) = toLowerCase handle)
      /\ In (size pr) sizeFilter.
Proof.
  unfold Dashboard.fullyFilteredPRs. cbv zeta.
  rewrite filter_In, inSizeFilter_In.
  destruct contributorFilter as [|h cf], repoFilter as [|r rf];
    cbn [List.length Nat.ltb Nat.leb];
    rewrite ?filter_In, ?inRepoFilter_In, ?inContributorFilter_In;
    intuition (try discriminate; auto).
Qed.

(** X9: a record is shown under the dashboard's filters exactly when it is
    a record of the analysis, its repository is selected or no repository
    is, its author matches a selected handle without regard to case or no
    handle is selected, and its size is selected; an empty size selection
    shows nothing. *)
Theorem fullyFilteredPRs_selects (dataPrs : list PullRequest)
  (repoFilter contributorFilter : list string) (sizeFilter : list PRSize) :
  (forall pr,
      In pr (Dashboard.fullyFilteredPRs dataPrs repoFilter contributorFilter
                                        sizeFilter)
      <-> In pr dataPrs
          /\ (repoFilter = [] \/ In (repo pr) repoFilter)
          /\ (contributorFilter = []
              \/ exists handle,
                   In handle contributorFilter
                   /\ toLowerCase (author pr) = toLowerCase handle)
          /\ In (size pr) sizeFilter)
  /\ Dashboard.fullyFilteredPRs dataPrs repoFilter contributorFilter [] = []
  /\ Dashboard.fullyFilteredPRs dataPrs [] [] Dashboard.ALL_SIZES = dataPrs.
Proof.
  split; [ intros pr; apply fullyFilteredPRs_In | split ].
  - destruct (Dashboard.fullyFilteredPRs dataPrs repoFilter
                contributorFilter []) as [|pr l] eqn:E; [ reflexivity | ].
    assert (I : In pr (Dashboard.fullyFilteredPRs dataPrs repoFilter
                         contributorFilter [])) by (rewrite E; now left).
    apply fullyFilteredPRs_In in I. now destruct I as (_ & _ & _ & []).
  - unfold Dashboard.fullyFilteredPRs. simpl. apply filter_all.
    intros pr _. unfold Dashboard.inSizeFilter, Dashboard.ALL_SIZES.
    destruct (size pr); reflexivity.
Qed.

Lemma fullyFilteredPRs_idempotent (dataPrs : list PullRequest)
  (repoFilter contributorFilter : list string) (sizeFilter : list PRSize) :
  Dashboard.fullyFilteredPRs
    (Dashboard.fullyFilteredPRs dataPrs repoFilter contributorFilter
                                sizeFilter)
    repoFilter contributorFilter sizeFilter
  = Dashboard.fullyFilteredPRs dataPrs repoFilter contributorFilter
                               sizeFilter.
Proof.
  set (l := Dashboard.fullyFilteredPRs dataPrs repoFilter contributorFilter
                                       sizeFilter).
  assert (H : forall pr, In pr l ->
              (repoFilter = [] \/ In (repo pr) repoFilter)
              /\ (contributorFilter = []
                  \/ exists handle,
                       In handle contributorFilter
                       /\ toLowerCase (author pr) = toLowerCase handle)
              /\ In (size pr) sizeFilter).
  { intros pr I. now apply fullyFilteredPRs_In in I. }
  unfold Dashboard.fullyFilteredPRs at 1. cbv zeta.
  assert (R : (if (0 <? List.length repoFilter)%nat
               then filter (Dashboard.inRepoFilter repoFilter) l else l) = l).
  { destruct repoFilter as [|r rf]; [ reflexivity | ].
    cbn [List.length Nat.ltb Nat.leb]. apply filter_all. intros pr I.
    apply inRepoFilter_In.
    destruct (H pr I) as ([N|J] & _); [ discriminate | exact J ]. }
  rewrite R.
  assert (C : (if (0 <? List.length contributorFilter)%nat
               then filter (Dashboard.inContributorFilter contributorFilter) l
               else l) = l).
  { destruct contributorFilter as [|h cf]; [ reflexivity | ].
    cbn [List.length Nat.ltb Nat.leb]. apply filter_all. intros pr I.
    apply inContributorFilter_In.
    destruct (H pr I) as (_ & [N|J] & _); [ discriminate | exact J ]. }
  rewrite C. apply filter_all. intros pr I. apply inSizeFilter_In.
  now destruct (H pr I) as (_ & _ & J).
Qed.

Lemma newTimeline_again (tl : list TimelineData) (l : list PullRequest) :
  Dashboard.newTimeline (Dashboard.newTimeline tl l) l
  = Dashboard.newTimeline tl l.
Proof.
  unfold Dashboard.newTimeline. rewrite map_map. reflexivity.
Qed.

(** X10: applying the same filters to an already filtered result changes
    nothing. *)
Theorem filteredData_idempotent (data : option AnalysisResult)
  (sizeFilter : list PRSize) (contributorFilter repoFilter : list string) :
  Dashboard.filteredData
    (Dashboard.filteredData data sizeFilter contributorFilter repoFilter)
    sizeFilter contributorFilter repoFilter
  = Dashboard.filteredData data sizeFilter contributorFilter repoFilter.
Proof.
  destruct data as [data|]; [ | reflexivity ].
  unfold Dashboard.filteredData.
  cbn [prs timeline repos dateRange].
  rewrite fullyFilteredPRs_idempotent, newTimeline_again. reflexivity.
Qed.

Lemma newTimeline_counts (tl : list TimelineData) (l : list PullRequest) :
  map t_date (Dashboard.newTimeline tl l) = map t_date tl
  /\ Forall (fun t => t_count t = Spec.totalOf (t_sizes t)
                      /\ 0 <= t_count t <= lengthZ l)
            (Dashboard.newTimeline tl l).
Proof.
  unfold Dashboard.newTimeline. split.
  - rewrite map_map. reflexivity.
  - apply Forall_forall. intros t I. apply in_map_iff in I.
    destruct I as (t0 & <- & _). cbv zeta. cbn [t_count t_sizes].
    destruct (fold_bump_counts (filter (Dashboard.inBucket (t_date t0)) l)
                               zeroCounts) as [_ T].
    rewrite T. split; [ reflexivity | ].
    split; [ apply lengthZ_nonneg | ].
    unfold lengthZ. apply inj_le. apply filter_length_le.
Qed.

(** X11: in a filtered result the total is the number of records that pass
    the filters, the merged, open and closed counts add up to it, so do
    the six size counters; the records are records of the analysis; the
    timeline keeps the labels of the analysis and in each bucket the count
    is the sum of the six size counters. *)
Theorem filteredData_counts (data : AnalysisResult)
  (sizeFilter : list PRSize) (contributorFilter repoFilter : list string) :
  exists r,
    Dashboard.filteredData (Some data) sizeFilter contributorFilter repoFilter
    = Some r
    /\ incl (prs r) (prs data)
    /\ totalPRs r = lengthZ (prs r)
    /\ mergedPRs r + openPRs r + closedPRs r = totalPRs r
    /\ (forall s, count_of (sizeDistribution r) s = Spec.countSize s (prs r))
    /\ Spec.totalOf (sizeDistribution r) = totalPRs r
    /\ uniqueContributors r = lengthZ (nodup string_dec (map author (prs r)))
    /\ totalReviews r = Spec.reviewCountSum (prs r)
    /\ map t_date (timeline r) = map t_date (timeline data)
    /\ Forall (fun t => t_count t = Spec.totalOf (t_sizes t)
                        /\ 0 <= t_count t <= totalPRs r)
              (timeline r)
    /\ repos r = repos data
    /\ dateRange r = dateRange data.
Proof.
  eexists. split; [ reflexivity | ].
  cbn [prs totalPRs mergedPRs openPRs closedPRs sizeDistribution
       uniqueContributors totalReviews timeline repos dateRange].
  set (l := Dashboard.fullyFilteredPRs (prs data) repoFilter
                                       contributorFilter sizeFilter).
  destruct (fold_bump_counts l zeroCounts) as [C1 C2].
  destruct (newTimeline_counts (timeline data) l) as [T1 T2].
  split; [ intros pr I; now apply fullyFilteredPRs_In in I | ].
  split; [ reflexivity | ].
  split; [ apply countState_partition | ].
  split; [ intros s; unfold Dashboard.newSizeDistribution; rewrite C1;
           destruct s; reflexivity | ].
  split; [ unfold Dashboard.newSizeDistribution; rewrite C2; reflexivity | ].
  repeat split; try assumption.
  - unfold Dashboard.newContributors, lengthZ. f_equal.
    rewrite sort_length, length_map.
    pose proof (distinct_authors l) as D.
    unfold Analyzer.aggregateByContributor, lengthZ in D.
    rewrite sort_length, length_map in D. apply Nat2Z.inj in D. exact D.
  - unfold Dashboard.newTotalReviews. rewrite fold_reviewCount. lia.
Qed.

(** ** The cache: sync status *)

Lemma find_filter_same {A : Type} (f g : A -> bool) (l : list A) :
  (forall x, f x = true -> g x = true) ->
  find f (filter g l) = find f l.
Proof.
  intros H. induction l as [|x l IH]; [ reflexivity | ].
  simpl. destruct (g x) eqn:G; simpl.
  - now rewrite IH.
  - destruct (f x) eqn:F; [ | exact IH ].
    apply H in F. congruence.
Qed.

Lemma find_filter_none {A : Type} (f g : A -> bool) (l : list A) :
  (forall x, f x = true -> g x = false) ->
  find f (filter g l) = None.
Proof.
  intros H. induction l as [|x l IH]; [ reflexivity | ].
  simpl. destruct (g x) eqn:G; simpl; [ | exact IH ].
  destruct (f x) eqn:F; [ | exact IH ].
  apply H in F. congruence.
Qed.

Lemma find_app_or {A : Type} (f : A -> bool) (l1 l2 : list A) :
  find f (l1 ++ l2)
  = match find f l1 with Some x => Some x | None => find f l2 end.
Proof.
  induction l1 as [|x l1 IH]; [ reflexivity | ].
  simpl. now destruct (f x).
Qed.

Lemma getLastSyncedAt_update (now : Z) (repo repo' : string) (n : Z)
  (d : Database.Db) :
  Database.getLastSyncedAt repo' (Database.updateSyncStatus now repo n d)
  = if String.eqb repo' repo then Some now
    else Database.getLastSyncedAt repo' d.
Proof.
  unfold Database.getLastSyncedAt, Database.updateSyncStatus. simpl.
  rewrite find_app_or. simpl.
  destruct (String.eqb_spec repo' repo) as [->|N].
  - rewrite find_filter_none.
    + now rewrite String.eqb_refl.
    + intros x E. now rewrite E.
  - rewrite find_filter_same.
    + destruct (String.eqb_spec repo repo'); [ congruence | ].
      now destruct (find _ (Database.sync_status d)).
    + intros x E. apply String.eqb_eq in E. rewrite E.
      destruct (String.eqb_spec repo' repo); [ contradiction | reflexivity ].
Qed.

Lemma updateSyncStatus_one_per_repo (now : Z) (repo : string) (n : Z)
  (d : Database.Db) :
  Spec.oneStatusPerRepo d ->
  Spec.oneStatusPerRepo (Database.updateSyncStatus now repo n d).
Proof.
  unfold Spec.oneStatusPerRepo, Database.updateSyncStatus. simpl.
  intros ND. rewrite map_app. simpl.
  apply NoDup_app.
  - induction (Database.sync_status d) as [|r l IH]; [ constructor | ].
    simpl in *. inversion ND as [|? ? NI ND']; subst.
    destruct (negb _); [ | now apply IH ].
    simpl. constructor; [ | now apply IH ].
    intros I. apply NI. apply in_map_iff in I.
    destruct I as (x & E & I). apply filter_In in I.
    apply in_map_iff. exists x. tauto.
  - repeat constructor. intros [].
  - intros x I [<-|[]]. apply in_map_iff in I.
    destruct I as (r & E & I). apply filter_In in I. destruct I as [_ I].
    rewrite E, String.eqb_refl in I. discriminate.
Qed.

(** X12: after the sync status of a repository is written, its last sync
    is the instant written, the last sync of every other repository is
    what it was, the cached records are untouched, and the table still
    holds at most one row per repository. *)
Theorem updateSyncStatus_then_getLastSyncedAt (now : Z) (repo : string)
  (n : Z) (d : Database.Db) :
  (forall repo',
      Database.getLastSyncedAt repo' (Database.updateSyncStatus now repo n d)
      = if String.eqb repo' repo then Some now
        else Database.getLastSyncedAt repo' d)
  /\ Database.pull_requests (Database.updateSyncStatus now repo n d)
     = Database.pull_requests d
  /\ (Spec.oneStatusPerRepo d ->
      Spec.oneStatusPerRepo (Database.updateSyncStatus now repo n d))
  /\ List.length
       (filter (fun r => String.eqb (Database.s_repo r) repo)
               (Database.sync_status (Database.updateSyncStatus now repo n d)))
     = 1%nat.
Proof.
  split; [ intros repo'; apply getLastSyncedAt_update | ].
  split; [ reflexivity | ].
  split; [ apply updateSyncStatus_one_per_repo | ].
  unfold Database.updateSyncStatus. simpl.
  rewrite filter_app. simpl. rewrite String.eqb_refl, length_app. simpl.
  assert (E : filter (fun r => String.eqb (Database.s_repo r) repo)
                (filter (fun r => negb (String.eqb (Database.s_repo r) repo))
                        (Database.sync_status d)) = []).
  { induction (Database.sync_status d) as [|r l IH]; [ reflexivity | ].
    simpl. destruct (String.eqb (Database.s_repo r) repo) eqn:X; simpl;
      [ exact IH | now rewrite X ]. }
  rewrite E. reflexivity.
Qed.

(** ** The cache: selection *)

Lemma existsb_repo_In (r : string) (repos : list string) :
  existsb (String.eqb r) repos = true <-> In r repos.
Proof. apply existsb_eqb_In. Qed.

Lemma getPullRequests_In (repos : list string) (since until : Z)
  (d : Database.Db) (pr : PullRequest) :
  In pr (Database.getPullRequests repos since until d)
  <-> exists row,
        In row (Database.pull_requests d)
        /\ pr = Database.rowToPullRequest row
        /\ In (Database.row_repo row) repos
        /\ since <= Database.row_updated_at row <= until.
Proof.
  unfold Database.getPullRequests. rewrite in_map_iff. split.
  - intros (row & <- & I). apply sort_In in I. apply filter_In in I.
    destruct I as [I C]. apply andb_prop in C. destruct C as [C U].
    apply andb_prop in C. destruct C as [R HS].
    exists row. repeat split; try assumption.
    + now apply existsb_repo_In.
    + now apply Z.leb_le.
    + now apply Z.leb_le.
  - intros (row & I & E & R & HS & HU). subst pr.
    exists row. split; [ reflexivity | ].
    apply sort_In. apply filter_In. split; [ exact I | ].
    apply existsb_repo_In in R. apply Z.leb_le in HS, HU.
    now rewrite R, HS, HU.
Qed.

(** X13: the records read from the cache are exactly the stored rows of the
    requested repositories whose last write falls in the window, ends
    included; nothing is read for an empty list of repositories or an
    empty window, and never more records than the cache holds. *)
Theorem getPullRequests_selects (repos : list string) (since until : Z)
  (d : Database.Db) :
  (forall pr,
      In pr (Database.getPullRequests repos since until d)
      <-> exists row,
            In row (Database.pull_requests d)
            /\ pr = Database.rowToPullRequest row
            /\ In (Database.row_repo row) repos
            /\ since <= Database.row_updated_at row <= until)
  /\ Database.getPullRequests [] since until d = []
  /\ (until < since -> Database.getPullRequests repos since until d = [])
  /\ lengthZ (Database.getPullRequests repos since until d)
     <= Database.getTotalCachedPRs d.
Proof.
  split; [ intros pr; apply getPullRequests_In | ].
  split; [ | split ].
  - destruct (Database.getPullRequests [] since until d) as [|pr l] eqn:E;
      [ reflexivity | ].
    assert (I : In pr (Database.getPullRequests [] since until d))
      by (rewrite E; now left).
    apply getPullRequests_In in I. now destruct I as (row & _ & _ & [] & _).
  - intros LT.
    destruct (Database.getPullRequests repos since until d) as [|pr l] eqn:E;
      [ reflexivity | ].
    assert (I : In pr (Database.getPullRequests repos since until d))
      by (rewrite E; now left).
    apply getPullRequests_In in I. destruct I as (row & _ & _ & _ & HS). lia.
  - unfold Database.getPullRequests, Database.getTotalCachedPRs, lengthZ.
    rewrite length_map, sort_length. apply inj_le. apply filter_length_le.
Qed.

(** ** The cache: round trips *)

Lemma toRow_round_trip (now : Z) (pr : PullRequest) :
  reviewCount pr <> None -> complexity pr = None ->
  Database.rowToPullRequest (Database.toRow now pr) = pr.
Proof.
  destruct pr as [? ? ? ? ? ? ? ? ? ? ? ? ? ? ? ? rc ? cx]. simpl.
  intros R C. subst cx.
  destruct rc as [n|]; [ reflexivity | contradiction ].
Qed.

(** X14: a record built by the sync and saved is read back, under its
    repository and number, exactly as it was built. *)
Theorem synced_record_round_trip (table : Obj string) (repoPath : string)
  (node : Sync.GraphQLPRNode) (now : Z) (d : Database.Db) :
  Database.readBack repoPath (Sync.n_number node)
    (Database.savePullRequest now
       (Sync.buildPullRequest table repoPath node) d)
  = Some (Sync.buildPullRequest table repoPath node).
Proof.
  pose proof (upsert_overwrites now (Sync.buildPullRequest table repoPath node)
                                d) as U.
  cbn [Sync.buildPullRequest repo number] in U. rewrite U.
  rewrite (toRow_round_trip now (Sync.buildPullRequest table repoPath node));
    [ reflexivity
    | cbn [Sync.buildPullRequest reviewCount]; discriminate
    | reflexivity ].
Qed.

(** ** The cache: clearing a repository *)

Lemma repoPrCount_clear (repo repo' : string) (d : Database.Db) :
  Database.repoPrCount repo' (Database.clearRepoData repo d)
  = if String.eqb repo' repo then 0 else Database.repoPrCount repo' d.
Proof.
  unfold Database.repoPrCount, Database.clearRepoData. simpl.
  assert (E : filter (fun row => String.eqb (Database.row_repo row) repo')
                (filter
                   (fun row => negb (String.eqb (Database.row_repo row) repo))
                   (Database.pull_requests d))
              = if String.eqb repo' repo then []
                else filter
                       (fun row => String.eqb (Database.row_repo row) repo')
                       (Database.pull_requests d)).
  { induction (Database.pull_requests d) as [|r l IH].
    - simpl. now destruct (String.eqb repo' repo).
    - simpl.
      destruct (String.eqb_spec (Database.row_repo r) repo) as [E|N],
               (String.eqb_spec (Database.row_repo r) repo') as [E'|N'];
        simpl; rewrite ?IH;
        destruct (String.eqb_spec repo' repo) as [E2|N2];
        try reflexivity; try congruence.
      + destruct (String.eqb_spec (Database.row_repo r) repo');
          [ reflexivity | contradiction ].
      + destruct (String.eqb_spec (Database.row_repo r) repo');
          [ contradiction | reflexivity ].
      + destruct (String.eqb_spec (Database.row_repo r) repo');
          [ contradiction | reflexivity ]. }
  rewrite E. now destruct (String.eqb repo' repo).
Qed.

(** X15: clearing a repository leaves no record and no sync status of it,
    leaves the records and the sync status of every other repository as
    they were, and clearing twice is clearing once. *)
Theorem clearRepoData_clears (repo : string) (d : Database.Db) :
  (forall repo',
      Database.repoPrCount repo' (Database.clearRepoData repo d)
      = if String.eqb repo' repo then 0 else Database.repoPrCount repo' d)
  /\ (forall repo',
        Database.getLastSyncedAt repo' (Database.clearRepoData repo d)
        = if String.eqb repo' repo then None
          else Database.getLastSyncedAt repo' d)
  /\ (forall since until,
        Database.getPullRequests [repo] since until
                                 (Database.clearRepoData repo d) = [])
  /\ (forall row, In row (Database.pull_requests d) ->
                  Database.row_repo row <> repo ->
                  In row (Database.pull_requests
                            (Database.clearRepoData repo d)))
  /\ Database.clearRepoData repo (Database.clearRepoData repo d)
     = Database.clearRepoData repo d.
Proof.
  split; [ intros repo'; apply repoPrCount_clear | ].
  split; [ | split; [ | split ] ].
  - intros repo'. unfold Database.getLastSyncedAt, Database.clearRepoData.
    simpl. destruct (String.eqb_spec repo' repo) as [->|N].
    + rewrite find_filter_none; [ reflexivity | ].
      intros x E. now rewrite E.
    + rewrite find_filter_same; [ reflexivity | ].
      intros x E. apply String.eqb_eq in E. rewrite E.
      destruct (String.eqb_spec repo' repo); [ contradiction | reflexivity ].
  - intros since until.
    destruct (Database.getPullRequests [repo] since until _) as [|pr l] eqn:E;
      [ reflexivity | ].
    assert (I : In pr (Database.getPullRequests [repo] since until
                         (Database.clearRepoData repo d)))
      by (rewrite E; now left).
    apply getPullRequests_In in I.
    destruct I as (row & I & _ & [R|[]] & _).
    unfold Database.clearRepoData in I. simpl in I.
    apply filter_In in I. destruct I as [_ I].
    rewrite <- R, String.eqb_refl in I. discriminate.
  - intros row I N. unfold Database.clearRepoData. simpl.
    apply filter_In. split; [ exact I | ].
    destruct (String.eqb_spec (Database.row_repo row) repo);
      [ contradiction | reflexivity ].
  - unfold Database.clearRepoData. simpl. f_equal.
    + apply filter_all. intros x I. apply filter_In in I. tauto.
    + apply filter_all. intros x I. apply filter_In in I. tauto.
Qed.

(** ** The cache: the constraints of the table *)

Lemma insertOrReplace_ids (new : Database.Row) (t : list Database.Row) :
  NoDup (map Database.row_id t) ->
  NoDup (map Database.row_id (Database.insertOrReplace new t)).
Proof.
  intros ND. unfold Database.insertOrReplace. rewrite map_app. simpl.
  apply NoDup_app.
  - induction t as [|r t IH]; [ constructor | ].
    simpl in *. inversion ND as [|? ? NI ND']; subst.
    destruct (negb _); [ | now apply IH ].
    simpl. constructor; [ | now apply IH ].
    intros I. apply NI. apply in_map_iff in I.
    destruct I as (x & E & I). apply filter_In in I.
    apply in_map_iff. exists x. tauto.
  - repeat constructor. intros [].
  - intros x I [<-|[]]. apply in_map_iff in I.
    destruct I as (r & E & I). apply filter_In in I. destruct I as [_ I].
    unfold Database.conflicts in I. rewrite E, Z.eqb_refl in I.
    discriminate.
Qed.

Lemma insertMany_ids (clock : nat -> Z) (prs : list PullRequest) :
  forall i t,
    NoDup (map Database.row_id t) ->
    NoDup (map Database.row_id (Database.insertMany clock i prs t)).
Proof.
  induction prs as [|pr prs IH]; intros i t ND; simpl; [ exact ND | ].
  apply IH. now apply insertOrReplace_ids.
Qed.

(** X16: saving a batch keeps both constraints of the table: no two rows
    with the same id, no two rows with the same repository and number. *)
Theorem savePullRequests_keeps_constraints (clock : nat -> Z)
  (prs : list PullRequest) (d : Database.Db) :
  Spec.uniqueIds d -> Spec.uniqueKeys d ->
  Spec.uniqueIds (Database.savePullRequests clock prs d)
  /\ Spec.uniqueKeys (Database.savePullRequests clock prs d).
Proof.
  intros I K. split.
  - unfold Spec.uniqueIds, Database.savePullRequests. simpl.
    now apply insertMany_ids.
  - now apply upserts_keep_keys_unique.
Qed.

Lemma savePullRequests_keeps_constraints_witness :
  Spec.uniqueIds Database.emptyDb
  /\ Spec.uniqueKeys Database.emptyDb
  /\ Spec.uniqueIds
       (Database.savePullRequests Samples.sampleClock
          [Samples.parserRecord; Samples.lexerRecord] Database.emptyDb)
  /\ Spec.uniqueKeys
       (Database.savePullRequests Samples.sampleClock
          [Samples.parserRecord; Samples.lexerRecord] Database.emptyDb).
Proof.
  assert (I : Spec.uniqueIds Database.emptyDb) by constructor.
  assert (K : Spec.uniqueKeys Database.emptyDb) by constructor.
  split; [ exact I | ]. split; [ exact K | ].
  apply (savePullRequests_keeps_constraints Samples.sampleClock
           [Samples.parserRecord; Samples.lexerRecord] Database.emptyDb I K).
Defined.

Lemma insertOrReplace_length (new : Database.Row) (t : list Database.Row) :
  (1 <= List.length (Database.insertOrReplace new t)
   <= List.length t + 1)%nat.
Proof.
  unfold Database.insertOrReplace. rewrite length_app. simpl.
  pose proof (filter_length_le
                (fun old => negb (Database.conflicts new old)) t).
  lia.
Qed.

Lemma insertMany_length (clock : nat -> Z) (prs : list PullRequest) :
  forall i t,
    (List.length (Database.insertMany clock i prs t)
     <= List.length t + List.length prs)%nat
    /\ (prs <> [] ->
        (1 <= List.length (Database.insertMany clock i prs t))%nat).
Proof.
  induction prs as [|pr prs IH]; intros i t; simpl.
  - split; [ lia | congruence ].
  - destruct (IH (Datatypes.S i)
                 (Database.insertOrReplace (Database.toRow (clock i) pr) t))
      as [L1 L2].
    pose proof (insertOrReplace_length (Database.toRow (clock i) pr) t).
    split; [ lia | ]. intros _.
    destruct prs as [|q prs]; [ simpl; lia | ].
    apply L2. discriminate.
Qed.

Lemma insertMany_snoc (clock : nat -> Z) (prs : list PullRequest)
  (pr : PullRequest) :
  forall i t,
    Database.insertMany clock i (prs ++ [pr]) t
    = Database.insertOrReplace
        (Database.toRow (clock (i + List.length prs)%nat) pr)
        (Database.insertMany clock i prs t).
Proof.
  induction prs as [|q prs IH]; intros i t; simpl.
  - now rewrite Nat.add_0_r.
  - rewrite IH. now rewrite <- plus_n_Sm.
Qed.

(** X17: a batch of n records makes the cache grow by at most n rows and
    leaves it non-empty unless the batch is empty; it does not touch the
    sync status; and the last record of the batch is always read back as
    saved. *)
Theorem savePullRequests_batch (clock : nat -> Z) (prs : list PullRequest)
  (d : Database.Db) :
  Database.getTotalCachedPRs (Database.savePullRequests clock prs d)
  <= Database.getTotalCachedPRs d + lengthZ prs
  /\ (prs <> [] ->
      1 <= Database.getTotalCachedPRs (Database.savePullRequests clock prs d))
  /\ Database.sync_status (Database.savePullRequests clock prs d)
     = Database.sync_status d
  /\ (forall pr,
        Database.readBack (repo pr) (number pr)
          (Database.savePullRequests clock (prs ++ [pr]) d)
        = Some (Database.rowToPullRequest
                  (Database.toRow (clock (List.length prs)) pr))).
Proof.
  unfold Database.getTotalCachedPRs, Database.savePullRequests, lengthZ.
  simpl.
  destruct (insertMany_length clock prs 0%nat (Database.pull_requests d))
    as [L1 L2].
  split; [ lia | ]. split; [ intros N; specialize (L2 N); lia | ].
  split; [ reflexivity | ].
  intros pr. rewrite insertMany_snoc. simpl.
  exact (upsert_overwrites (clock (List.length prs)) pr
           {| Database.pull_requests :=
                Database.insertMany clock 0 prs (Database.pull_requests d);
              Database.sync_status := Database.sync_status d |}).
Qed.

(** ** The status route *)

Lemma sort_insert_keeps {A : Type} (cmp : A -> A -> Z) (p : A -> bool)
  (x : A) (l : list A) :
  (forall a b, p a = true -> p b = true -> cmp a b <= 0) ->
  filter p (sort_insert cmp x l) = filter p (x :: l).
Proof.
  intros H. induction l as [|y r IH]; [ reflexivity | ].
  simpl. destruct (Z.ltb_spec 0 (cmp x y)) as [G|G]; [ | reflexivity ].
  simpl. rewrite IH. simpl.
  destruct (p x) eqn:Px, (p y) eqn:Py; try reflexivity.
  specialize (H x y Px Py). lia.
Qed.

Lemma sort_keeps {A : Type} (cmp : A -> A -> Z) (p : A -> bool)
  (l : list A) :
  (forall a b, p a = true -> p b = true -> cmp a b <= 0) ->
  filter p (sort cmp l) = filter p l.
Proof.
  intros H. induction l as [|x l IH]; [ reflexivity | ].
  unfold sort in *. simpl fold_right. rewrite sort_insert_keeps by exact H.
  simpl. now rewrite IH.
Qed.

Lemma find_hd_filter {A : Type} (p : A -> bool) (l : list A) :
  find p l = hd_error (filter p l).
Proof.
  induction l as [|x l IH]; [ reflexivity | ].
  simpl. now destruct (p x).
Qed.

Lemma textOrder_refl (a : string) : Database.textOrder a a = 0.
Proof.
  unfold Database.textOrder.
  pose proof (String.compare_antisym a a) as H.
  destruct (String.compare a a); simpl in H; congruence.
Qed.

Lemma find_getSyncStatus (repo : string) (d : Database.Db) :
  find (fun s => String.eqb (Database.s_repo s) repo)
       (Database.getSyncStatus d)
  = find (fun s => String.eqb (Database.s_repo s) repo)
         (Database.sync_status d).
Proof.
  rewrite !find_hd_filter. unfold Database.getSyncStatus.
  rewrite sort_keeps; [ reflexivity | ].
  intros a b Pa Pb. apply String.eqb_eq in Pa, Pb.
  rewrite Pa, Pb, textOrder_refl. lia.
Qed.

(** X18: the status route lists the configured repositories in their order;
    for each it reports the last sync that the cache records, and asks for
    a sync exactly when there is none; right after the sync status of a
    repository is written the route reports that instant and that count. *)
Theorem repoStatus_reports (configRepos : list string) (d : Database.Db) :
  map Sync.rs_repo (Sync.repoStatus configRepos d) = configRepos
  /\ Forall (fun s =>
               Sync.rs_lastSyncedAt s
               = Database.getLastSyncedAt (Sync.rs_repo s) d
               /\ Sync.rs_needsSync s
                  = match Database.getLastSyncedAt (Sync.rs_repo s) d with
                    | Some _ => false
                    | None => true
                    end
               /\ (Sync.rs_needsSync s = true -> Sync.rs_prCount s = 0))
            (Sync.repoStatus configRepos d)
  /\ (forall now repo n,
        Sync.repoStatus [repo] (Database.updateSyncStatus now repo n d)
        = [ {| Sync.rs_repo := repo; Sync.rs_lastSyncedAt := Some now;
               Sync.rs_prCount := n; Sync.rs_needsSync := false |} ]).
Proof.
  unfold Sync.repoStatus. cbv zeta. split; [ | split ].
  - rewrite map_map. simpl. apply map_id.
  - apply Forall_forall. intros s I. apply in_map_iff in I.
    destruct I as (repo & <- & _). simpl.
    rewrite find_getSyncStatus. unfold Database.getLastSyncedAt.
    destruct (find _ (Database.sync_status d)); simpl;
      repeat split; congruence.
  - intros now repo n. simpl. rewrite find_getSyncStatus.
    unfold Database.updateSyncStatus. simpl.
    rewrite find_app_or, find_filter_none.
    + simpl. rewrite String.eqb_refl. reflexivity.
    + intros x E. now rewrite E.
Qed.

(** ** Languages of file paths *)

Lemma lower_char_dot (c : ascii) :
  Ascii.eqb (lower_char c) "." = Ascii.eqb c ".".
Proof. destruct c as [[] [] [] [] [] [] [] []]; reflexivity. Qed.

Lemma lower_char_idempotent (c : ascii) :
  lower_char (lower_char c) = lower_char c.
Proof. destruct c as [[] [] [] [] [] [] [] []]; reflexivity. Qed.

Lemma toLowerCase_idempotent (s : string) :
  toLowerCase (toLowerCase s) = toLowerCase s.
Proof.
  induction s as [|c s IH]; [ reflexivity | ].
  simpl. now rewrite lower_char_idempotent, IH.
Qed.

Lemma split_on_dot_lower (s : string) :
  split_on "." (toLowerCase s) = map toLowerCase (split_on "." s).
Proof.
  induction s as [|c s IH]; [ reflexivity | ].
  simpl. rewrite lower_char_dot, IH.
  destruct (Ascii.eqb c "."); [ reflexivity | ].
  now destruct (split_on "." s).
Qed.

Lemma last_map (f : string -> string) (l : list string) (d : string) :
  f d = d -> last (map f l) d = f (last l d).
Proof.
  intros E. induction l as [|x l IH]; [ simpl; congruence | ].
  simpl. destruct l as [|y l]; [ reflexivity | exact IH ].
Qed.

(** X19: the language of a path does not depend on the case of its
    letters; it is a language of the extension table or "Other"; and every
    language the batch route can produce has a complexity weight of its
    own, except reStructuredText and OCaml, which get the default. *)
Theorem getLanguageFromPath_ignores_case (table : Obj string)
  (path : string) :
  Sync.getLanguageFromPath table (toLowerCase path)
  = Sync.getLanguageFromPath table path
  /\ In (Sync.getLanguageFromPath table path) ("Other" :: obj_values table)
  /\ (obj_get Analyzer.LANGUAGE_COMPLEXITY_WEIGHTS
              (Sync.getLanguageFromPath Sync.EXTENSION_TO_LANGUAGE path)
      <> None
      \/ Sync.getLanguageFromPath Sync.EXTENSION_TO_LANGUAGE path
         = "reStructuredText"
      \/ Sync.getLanguageFromPath Sync.EXTENSION_TO_LANGUAGE path = "OCaml")
  /\ obj_get Analyzer.LANGUAGE_COMPLEXITY_WEIGHTS
             (Sync.getLanguageFromPath Sync.EXTENSION_TO_LANGUAGE_stream path)
     <> None
  /\ obj_get Analyzer.LANGUAGE_COMPLEXITY_WEIGHTS "reStructuredText" = None
  /\ obj_get Analyzer.LANGUAGE_COMPLEXITY_WEIGHTS "OCaml" = None.
Proof.
  assert (V : forall t, In (Sync.getLanguageFromPath t path)
                           ("Other" :: obj_values t)).
  { intros t. unfold Sync.getLanguageFromPath. cbv zeta.
    destruct (obj_get t _) as [language|] eqn:G; [ right | now left ].
    eapply obj_get_values, G. }
  split; [ | split; [ apply V | split ] ].
  - unfold Sync.getLanguageFromPath. cbv zeta.
    rewrite split_on_dot_lower.
    now rewrite (last_map toLowerCase (split_on "." path) "" eq_refl),
      toLowerCase_idempotent.
  - specialize (V Sync.EXTENSION_TO_LANGUAGE).
    revert V. generalize (Sync.getLanguageFromPath
                            Sync.EXTENSION_TO_LANGUAGE path).
    intros lang V. simpl in V.
    repeat (destruct V as [<-|V];
            [ first [ left; discriminate | right; left; reflexivity
                    | right; right; reflexivity ] | ]).
    destruct V.
  - split; [ | split; reflexivity ].
    specialize (V Sync.EXTENSION_TO_LANGUAGE_stream).
    revert V. generalize (Sync.getLanguageFromPath
                            Sync.EXTENSION_TO_LANGUAGE_stream path).
    intros lang V. simpl in V.
    repeat (destruct V as [<-|V]; [ discriminate | ]).
    destruct V.
Qed.

(** ** Record identifiers *)





(** ** Reviews of a synced record *)

Lemma reviewsOf_logins (nodes : list Sync.GraphQLReviewNode) :
  let convert := fun review =>
    match Sync.rv_author review with
    | Some login =>
        if String.eqb login "" then []
        else [{| reviewer := login;
                 review_state := Sync.rv_state review;
                 submittedAt := Sync.rv_submittedAt review |}]
    | None => []
    end in
  Forall (fun r => reviewer r <> "") (flat_map convert nodes)
  /\ (List.length (flat_map convert nodes) <= List.length nodes)%nat
  /\ (flat_map convert nodes = []
      <-> Forall (fun review => Sync.rv_author review = None
                                \/ Sync.rv_author review = Some "") nodes).
Proof.
  cbv zeta. induction nodes as [|rv nodes (IH1 & IH2 & IH3)]; simpl.
  - repeat split; auto.
  - destruct (Sync.rv_author rv) as [login|] eqn:A.
    + destruct (String.eqb_spec login "") as [->|N]; simpl.
      * split; [ exact IH1 | ]. split; [ exact (le_S _ _ IH2) | ].
        rewrite IH3. split; intros F.
        -- constructor; [ now right | exact F ].
        -- now inversion F.
      * split; [ constructor; [ exact N | exact IH1 ] | ].
        split; [ exact (le_n_S _ _ IH2) | ]. split; [ discriminate | ].
        intros F. inversion F as [|? ? [X|X] ?]; subst; congruence.
    + split; [ exact IH1 | ]. split; [ exact (le_S _ _ IH2) | ].
      rewrite IH3. split; intros F.
      * constructor; [ now left | exact F ].
      * now inversion F.
Qed.

(** X21: a synced record holds the review events whose author has a
    non-empty login, in their order, and no [reviews] field at all when
    there is none; its review count is the total reported by the hosting
    API, whatever the number of events kept. *)
Theorem buildPullRequest_reviews (table : Obj string) (repoPath : string)
  (node : Sync.GraphQLPRNode) :
  let pr := Sync.buildPullRequest table repoPath node in
  let nodes := match Sync.n_reviews node with
               | Some (_, nodes) => nodes
               | None => []
               end in
  reviews pr <> Some []
  /\ (forall rs, reviews pr = Some rs -> rs = Sync.reviewsOf node)
  /\ (reviews pr = None
      <-> Forall (fun review => Sync.rv_author review = None
                                \/ Sync.rv_author review = Some "") nodes)
  /\ Forall (fun r => reviewer r <> "") (Sync.reviewsOf node)
  /\ (List.length (Sync.reviewsOf node) <= List.length nodes)%nat
  /\ reviewCount pr = Some (match Sync.n_reviews node with
                            | Some (totalCount, _) => totalCount
                            | None => 0
                            end).
Proof.
  cbv zeta. cbn [Sync.buildPullRequest reviews reviewCount].
  unfold Sync.reviewsOf. cbv zeta.
  set (nodes := match Sync.n_reviews node with
                | Some (_, nodes) => nodes
                | None => []
                end).
  destruct (reviewsOf_logins nodes) as (H1 & H2 & H3). cbv zeta in *.
  destruct (flat_map _ nodes) as [|r rs] eqn:E; simpl.
  - split; [ discriminate | ]. split; [ discriminate | ].
    split; [ split; [ intros _; now apply H3 | reflexivity ] | ].
    split; [ constructor | ]. split; [ lia | reflexivity ].
  - split; [ discriminate | ].
    split; [ intros rs' X; now injection X | ].
    split; [ split; [ discriminate | intros F; apply H3 in F;
                                     discriminate ] | ].
    split; [ exact H1 | ]. split; [ exact H2 | reflexivity ].
Qed.

(** ** Pagination *)

Lemma fetchLoop_counts (table : Obj string) (repoPath : string) (cutoff : Z)
  (src : Sync.Source) :
  forall acc,
    let r := Sync.fetchLoop table repoPath cutoff src acc in
    (1 <= Sync.requests r)%nat
    /\ List.length (Sync.progress r) = (Sync.requests r - 1)%nat
    /\ lengthZ acc <= lengthZ (Sync.accumulated r)
    /\ Forall (fun n => lengthZ acc <= n <= lengthZ (Sync.accumulated r))
              (Sync.progress r)
    /\ StronglySorted Z.le (Sync.progress r).
Proof.
  induction src as [e|nodes|nodes s IH] using Source_induction;
    intros acc; cbv zeta.
  - simpl. repeat split; try lia; constructor.
  - simpl. rewrite processNodes_spec. simpl.
    rewrite lengthZ_app. pose proof (lengthZ_nonneg
      (map (Sync.buildPullRequest table repoPath)
           (Spec.keptPrefix cutoff nodes))).
    repeat split; try lia; constructor.
  - simpl. rewrite processNodes_spec.
    destruct (existsb (Sync.olderThan cutoff) nodes); simpl.
    + rewrite lengthZ_app. pose proof (lengthZ_nonneg
        (map (Sync.buildPullRequest table repoPath)
             (Spec.keptPrefix cutoff nodes))).
      repeat split; try lia; constructor.
    + destruct (IH (acc ++ map (Sync.buildPullRequest table repoPath)
                                (Spec.keptPrefix cutoff nodes)))
        as (H1 & H2 & H3 & H4 & H5).
      cbv zeta in *. rewrite lengthZ_app in *.
      pose proof (lengthZ_nonneg
        (map (Sync.buildPullRequest table repoPath)
             (Spec.keptPrefix cutoff nodes))).
      split; [ lia | ]. split; [ lia | ]. split; [ lia | ].
      split.
      * constructor; [ lia | ].
        eapply Forall_impl; [ | exact H4 ]. simpl. intros n. lia.
      * constructor; [ exact H5 | ].
        eapply Forall_impl; [ | exact H4 ]. simpl. intros n. lia.
Qed.

(** X22: the pagination makes at least one request and sends one progress
    event between two consecutive requests; the counts the events report
    never decrease and never exceed the number of records finally
    accumulated. *)
Theorem fetchLoop_progress (table : Obj string) (repoPath : string)
  (cutoff : Z) (src : Sync.Source) :
  let r := Sync.fetchLoop table repoPath cutoff src [] in
  (1 <= Sync.requests r)%nat
  /\ List.length (Sync.progress r) = (Sync.requests r - 1)%nat
  /\ Forall (fun n => 0 <= n <= lengthZ (Sync.accumulated r))
            (Sync.progress r)
  /\ StronglySorted Z.le (Sync.progress r).
Proof.
  destruct (fetchLoop_counts table repoPath cutoff src [])
    as (H1 & H2 & _ & H4 & H5).
  cbv zeta in *. repeat split; assumption.
Qed.

Lemma languagesOf_NoDup (table : Obj string)
  (files : list Sync.GraphQLFileNode) :
  NoDup (obj_keys (Sync.languagesOf table files)).
Proof.
  rewrite languagesOf_map. unfold obj_keys. rewrite map_map. simpl.
  apply languageLinesOf_NoDup.
Qed.

(** X23: every record a sync accumulates belongs to the repository being
    synced, carries the size class computed from its own additions,
    deletions and changed files, a language map without repeated keys, a
    review count, and no complexity score. *)
Theorem fetchLoop_records (table : Obj string) (repoPath : string)
  (cutoff : Z) (src : Sync.Source) :
  Forall (fun pr =>
            repo pr = repoPath
            /\ size pr = Analyzer.calculatePRSize (additions pr)
                                                  (deletions pr)
                                                  (changedFiles pr)
            /\ reviewCount pr <> None
            /\ languages pr <> None
            /\ complexity pr = None)
         (Sync.accumulated (Sync.fetchLoop table repoPath cutoff src []))
  /\ Spec.languageMapsAreObjects
       (Sync.accumulated (Sync.fetchLoop table repoPath cutoff src [])).
Proof.
  destruct (fetchLoop_accumulates_notOlder table repoPath cutoff src [])
    as (kept & E & _).
  rewrite E. simpl. unfold Spec.languageMapsAreObjects. split.
  - apply Forall_forall. intros pr I. apply in_map_iff in I.
    destruct I as (node & <- & _). simpl.
    repeat split; discriminate.
  - apply Forall_forall. intros pr I. apply in_map_iff in I.
    destruct I as (node & <- & _). simpl. apply languagesOf_NoDup.
Qed.

(** ** The two sync routes side by side *)

Lemma fetchLoop_table_independent (t1 t2 : Obj string) (repoPath : string)
  (cutoff : Z) (src : Sync.Source) :
  forall acc1 acc2,
    List.length acc1 = List.length acc2 ->
    let r1 := Sync.fetchLoop t1 repoPath cutoff src acc1 in
    let r2 := Sync.fetchLoop t2 repoPath cutoff src acc2 in
    Sync.thrown r1 = Sync.thrown r2
    /\ Sync.requests r1 = Sync.requests r2
    /\ Sync.progress r1 = Sync.progress r2
    /\ List.length (Sync.accumulated r1) = List.length (Sync.accumulated r2).
Proof.
  induction src as [e|nodes|nodes s IH] using Source_induction;
    intros acc1 acc2 L; cbv zeta.
  - simpl. auto.
  - simpl. rewrite !processNodes_spec. simpl.
    rewrite !length_app, !length_map, L. auto.
  - simpl. rewrite !processNodes_spec.
    destruct (existsb (Sync.olderThan cutoff) nodes); simpl.
    + rewrite !length_app, !length_map, L. auto.
    + assert (L' : List.length
                     (acc1 ++ map (Sync.buildPullRequest t1 repoPath)
                                  (Spec.keptPrefix cutoff nodes))
                   = List.length
                       (acc2 ++ map (Sync.buildPullRequest t2 repoPath)
                                    (Spec.keptPrefix cutoff nodes))).
      { rewrite !length_app, !length_map, L. reflexivity. }
      destruct (IH _ _ L') as (H1 & H2 & H3 & H4). cbv zeta in *.
      rewrite H1, H2, H3, H4. unfold lengthZ. rewrite L'.
      repeat split; reflexivity.
Qed.

Lemma getLastSyncedAt_status (repo : string) (d1 d2 : Database.Db) :
  Database.sync_status d1 = Database.sync_status d2 ->
  Database.getLastSyncedAt repo d1 = Database.getLastSyncedAt repo d2.
Proof. unfold Database.getLastSyncedAt. now intros ->. Qed.

Lemma syncOneRepo_table_independent (clock : nat -> Z) (fullSync : bool)
  (t1 t2 : Obj string) (repoPath : string) (src : Sync.Source)
  (w1 w2 : Sync.World) :
  Database.sync_status (Sync.db w1) = Database.sync_status (Sync.db w2) ->
  Sync.ticks w1 = Sync.ticks w2 ->
  let o1 := Sync.syncOneRepo clock t1 fullSync repoPath src w1 in
  let o2 := Sync.syncOneRepo clock t2 fullSync repoPath src w2 in
  Sync.o_result o1 = Sync.o_result o2
  /\ Sync.o_thrown o1 = Sync.o_thrown o2
  /\ Sync.o_progress o1 = Sync.o_progress o2
  /\ Database.sync_status (Sync.db (Sync.o_world o1))
     = Database.sync_status (Sync.db (Sync.o_world o2))
  /\ Sync.ticks (Sync.o_world o1) = Sync.ticks (Sync.o_world o2).
Proof.
  intros S T. cbv zeta. unfold Sync.syncOneRepo. cbv zeta.
  rewrite (getLastSyncedAt_status repoPath _ _ S).
  destruct (fetchLoop_table_independent t1 t2 repoPath
              (Sync.cutoffDate fullSync
                 (Database.getLastSyncedAt repoPath (Sync.db w2)))
              src [] [] eq_refl) as (H1 & H2 & H3 & H4).
  cbv zeta in *. rewrite H1.
  destruct (Sync.thrown (Sync.fetchLoop t2 _ _ _ _)) as [e|];
    cbn [Sync.o_result Sync.o_thrown Sync.o_progress Sync.o_world
         Sync.db Sync.ticks].
  - rewrite H3. repeat split; assumption.
  - unfold lengthZ. rewrite H3, H4, T.
    split; [ reflexivity | ]. split; [ reflexivity | ].
    split; [ reflexivity | ]. split; [ | reflexivity ].
    unfold Database.updateSyncStatus.
    cbn [Database.sync_status Database.pull_requests].
    destruct (0 <? List.length (Sync.accumulated _))%nat;
      cbn [Database.savePullRequests Database.sync_status];
      now rewrite S.
Qed.

Lemma stream_and_batch (clock : nat -> Z) (fullSync : bool) (total : Z)
  (repos : list (string * Sync.Source)) :
  forall i st results w,
    Sync.st_results st = results ->
    Database.sync_status (Sync.db (Sync.st_world st))
    = Database.sync_status (Sync.db w) ->
    Sync.ticks (Sync.st_world st) = Sync.ticks w ->
    Sync.st_totalSynced st = sumZ (map Sync.synced results) ->
    let st' := Sync.streamLoop clock fullSync total i repos st in
    let b := Sync.batchLoop clock fullSync repos results w in
    Sync.st_results st' = fst b
    /\ Sync.st_totalSynced st' = sumZ (map Sync.synced (fst b))
    /\ Database.sync_status (Sync.db (Sync.st_world st'))
       = Database.sync_status (Sync.db (snd b))
    /\ Sync.ticks (Sync.st_world st') = Sync.ticks (snd b).
Proof.
  induction repos as [|[repoPath src] rest IH];
    intros i st results w R S T N; cbv zeta.
  - simpl. auto.
  - simpl. destruct (Sync.wellFormedRepoPath repoPath); simpl;
      [ | now apply IH ].
    destruct (syncOneRepo_table_independent clock fullSync
                Sync.EXTENSION_TO_LANGUAGE_stream Sync.EXTENSION_TO_LANGUAGE
                repoPath src (Sync.st_world st) w S T)
      as (H1 & H2 & H3 & H4 & H5).
    cbv zeta in *. rewrite H2.
    destruct (Sync.o_thrown
                (Sync.syncOneRepo clock Sync.EXTENSION_TO_LANGUAGE fullSync
                                  repoPath src w)) as [e|] eqn:TH.
    + assert (Z0 : Sync.synced
                     (Sync.o_result
                        (Sync.syncOneRepo clock Sync.EXTENSION_TO_LANGUAGE
                                          fullSync repoPath src w)) = 0).
      { destruct (syncOneRepo_thrown clock fullSync _ _ _ _ _ TH) as [E _].
        now rewrite E. }
      destruct (Sync.isRateLimit (Sync.messageOf e)).
      * simpl. rewrite R, H1, map_app, sumZ_app, N. simpl.
        rewrite Z0. unfold sumZ at 3. simpl.
        repeat split; try assumption; lia.
      * apply IH; simpl; try assumption.
        -- now rewrite R, H1.
        -- rewrite map_app, sumZ_app, N. simpl. rewrite Z0.
           unfold sumZ at 3. simpl. lia.
    + apply IH; simpl; try assumption.
      * now rewrite R, H1.
      * rewrite map_app, sumZ_app, N, H1. simpl.
        unfold sumZ at 3. simpl. lia.
Qed.

(** X24: for the same request against the same hosting API the streaming
    route records the same results as the batch route, its running total
    is the sum of their [synced] counts, and both routes leave the same
    sync status behind. *)
Theorem stream_results_are_batch_results (clock : nat -> Z)
  (fullSync : bool) (repos : list (string * Sync.Source))
  (skippedRepos : list string) (w : Sync.World) :
  let st := Sync.syncStream clock fullSync repos skippedRepos w in
  let b := Sync.batchLoop clock fullSync repos [] w in
  Sync.st_results st = fst b
  /\ Sync.st_totalSynced st = sumZ (map Sync.synced (fst b))
  /\ Database.sync_status (Sync.db (Sync.st_world st))
     = Database.sync_status (Sync.db (snd b))
  /\ last (Sync.st_events st) (Sync.ev_rate_limited "")
     = Sync.ev_complete (fst b) (sumZ (map Sync.synced (fst b)))
                        (lengthZ repos).
Proof.
  cbv zeta. unfold Sync.syncStream. cbv zeta. simpl.
  destruct (stream_and_batch clock fullSync (lengthZ repos) repos 0
              {| Sync.st_results := []; Sync.st_totalSynced := 0;
                 Sync.st_events :=
                   [Sync.ev_start (lengthZ repos) (map fst repos) skippedRepos
                                  (lengthZ skippedRepos)];
                 Sync.st_world := w |}
              [] w eq_refl eq_refl eq_refl eq_refl)
    as (H1 & H2 & H3 & _).
  cbv zeta in *.
  rewrite last_app_nonempty by discriminate. simpl.
  rewrite H1, H2. repeat split. exact H3.
Qed.

(** ** What a successful sync leaves behind *)

Lemma savePullRequests_status (clock : nat -> Z) (prs : list PullRequest)
  (d : Database.Db) (repo : string) :
  Database.getLastSyncedAt repo (Database.savePullRequests clock prs d)
  = Database.getLastSyncedAt repo d.
Proof. reflexivity. Qed.

Lemma resumeFilter_one (now : Z) (d : Database.Db) (repoPath : string)
  (src : Sync.Source) :
  Sync.resumeFilter now d [(repoPath, src)]
  = if Spec.recentlySynced now d repoPath then ([], [repoPath])
    else ([(repoPath, src)], []).
Proof.
  unfold Sync.resumeFilter, Spec.recentlySynced. simpl.
  destruct (Database.getLastSyncedAt repoPath d); [ | reflexivity ].
  now destruct (_ <? _).
Qed.

(** X25: a sync of a repository that ends without an error records as the
    repository's last sync the reading of the clock taken after the
    records were saved, and leaves the last sync of the other repositories
    alone; the next incremental sync of the repository goes back to 24
    hours before that instant, and a resume within the hour skips the
    repository. *)
Theorem successful_sync_is_remembered (clock : nat -> Z)
  (table : Obj string) (fullSync : bool) (repoPath : string)
  (src : Sync.Source) (w : Sync.World) :
  Sync.o_thrown (Sync.syncOneRepo clock table fullSync repoPath src w)
  = None ->
  let o := Sync.syncOneRepo clock table fullSync repoPath src w in
  let t := clock (Sync.ticks (Sync.o_world o) - 1)%nat in
  Sync.error (Sync.o_result o) = None
  /\ 0 <= Sync.synced (Sync.o_result o)
  /\ (Sync.ticks w < Sync.ticks (Sync.o_world o))%nat
  /\ Database.getLastSyncedAt repoPath (Sync.db (Sync.o_world o)) = Some t
  /\ (forall repo', repo' <> repoPath ->
        Database.getLastSyncedAt repo' (Sync.db (Sync.o_world o))
        = Database.getLastSyncedAt repo' (Sync.db w))
  /\ Sync.cutoffDate false
       (Database.getLastSyncedAt repoPath (Sync.db (Sync.o_world o)))
     = t - 24 * 60 * 60 * 1000
  /\ (forall now src',
        now - t < 60 * 60 * 1000 ->
        Sync.resumeFilter now (Sync.db (Sync.o_world o)) [(repoPath, src')]
        = ([], [repoPath])).
Proof.
  intros TH. cbv zeta. rewrite syncOneRepo_thrown_iff in TH.
  unfold Sync.syncOneRepo. cbv zeta. rewrite TH.
  cbn [Sync.o_result Sync.o_world Sync.error Sync.synced Sync.db Sync.ticks].
  set (prs := Sync.accumulated _).
  set (ticks1 := if (0 <? List.length prs)%nat
                 then (Sync.ticks w + List.length prs)%nat
                 else Sync.ticks w).
  set (db1 := if (0 <? List.length prs)%nat
              then Database.savePullRequests _ prs (Sync.db w)
              else Sync.db w).
  assert (T1 : (Sync.ticks w <= ticks1)%nat).
  { unfold ticks1. destruct (0 <? List.length prs)%nat; lia. }
  assert (D1 : forall repo, Database.getLastSyncedAt repo db1
                            = Database.getLastSyncedAt repo (Sync.db w)).
  { intros repo. unfold db1. now destruct (0 <? List.length prs)%nat. }
  replace (Datatypes.S ticks1 - 1)%nat with ticks1 by lia.
  assert (G : Database.getLastSyncedAt repoPath
                (Database.updateSyncStatus (clock ticks1) repoPath
                                           (lengthZ prs) db1)
              = Some (clock ticks1)).
  { rewrite getLastSyncedAt_update. now rewrite String.eqb_refl. }
  split; [ reflexivity | ]. split; [ apply lengthZ_nonneg | ].
  split; [ lia | ]. split; [ exact G | ].
  split; [ | split ].
  - intros repo' N. rewrite getLastSyncedAt_update.
    destruct (String.eqb_spec repo' repoPath); [ contradiction | apply D1 ].
  - rewrite G. reflexivity.
  - intros now src' LT. rewrite resumeFilter_one.
    unfold Spec.recentlySynced. rewrite G.
    destruct (Z.ltb_spec (now - clock ticks1) (60 * 60 * 1000));
      [ reflexivity | lia ].
Qed.

Lemma successful_sync_is_remembered_witness :
  Sync.o_thrown
    (Sync.syncOneRepo Samples.sampleClock Sync.EXTENSION_TO_LANGUAGE false
       "octo/parser" (Sync.Page [Samples.reviewedNode] None)
       Samples.emptyWorld) = None
  /\ Database.getLastSyncedAt "octo/parser"
       (Sync.db
          (Sync.o_world
             (Sync.syncOneRepo Samples.sampleClock Sync.EXTENSION_TO_LANGUAGE
                false "octo/parser" (Sync.Page [Samples.reviewedNode] None)
                Samples.emptyWorld)))
     = Some (Samples.sampleClock 1).
Proof.
  assert (TH : Sync.o_thrown
                 (Sync.syncOneRepo Samples.sampleClock
                    Sync.EXTENSION_TO_LANGUAGE false "octo/parser"
                    (Sync.Page [Samples.reviewedNode] None)
                    Samples.emptyWorld) = None)
    by (vm_compute; reflexivity).
  split; [ exact TH | ].
  exact (proj1 (proj2 (proj2 (proj2
           (successful_sync_is_remembered Samples.sampleClock
              Sync.EXTENSION_TO_LANGUAGE false "octo/parser"
              (Sync.Page [Samples.reviewedNode] None)
              Samples.emptyWorld TH))))).
Defined.

(** ** Resume *)

Lemma resumeFilter_from (now : Z) (d : Database.Db)
  (repos : list (string * Sync.Source)) :
  forall acc,
    fold_left
      (fun acc r =>
         match Database.getLastSyncedAt (fst r) d with
         | Some lastSynced =>
             if now - lastSynced <? 60 * 60 * 1000
             then (fst acc, snd acc ++ [fst r])
             else (fst acc ++ [r], snd acc)
         | None => (fst acc ++ [r], snd acc)
         end)
      repos acc
    = (fst acc
       ++ filter (fun r => negb (Spec.recentlySynced now d (fst r))) repos,
       snd acc
       ++ map fst (filter (fun r => Spec.recentlySynced now d (fst r))
                          repos)).
Proof.
  induction repos as [|r repos IH]; intros acc.
  - simpl. rewrite !app_nil_r. now destruct acc.
  - cbn [fold_left filter]. rewrite IH.
    assert (St : match Database.getLastSyncedAt (fst r) d with
                 | Some lastSynced =>
                     if now - lastSynced <? 60 * 60 * 1000
                     then (fst acc, snd acc ++ [fst r])
                     else (fst acc ++ [r], snd acc)
                 | None => (fst acc ++ [r], snd acc)
                 end
                 = if Spec.recentlySynced now d (fst r)
                   then (fst acc, snd acc ++ [fst r])
                   else (fst acc ++ [r], snd acc)).
    { unfold Spec.recentlySynced.
      destruct (Database.getLastSyncedAt (fst r) d) as [t|];
        [ destruct (_ <? _) | ]; reflexivity. }
    rewrite St.
    destruct (Spec.recentlySynced now d (fst r));
      cbn [fst snd negb map]; rewrite <- ?app_assoc; reflexivity.
Qed.

(** X26: resume mode splits the requested repositories, in their order,
    into those whose last sync is less than an hour old, which it skips,
    and all the others, which it syncs; a repository that was never synced
    is never skipped, and none is lost. *)
Theorem resumeFilter_partition (now : Z) (d : Database.Db)
  (repos : list (string * Sync.Source)) :
  Sync.resumeFilter now d repos
  = (filter (fun r => negb (Spec.recentlySynced now d (fst r))) repos,
     map fst (filter (fun r => Spec.recentlySynced now d (fst r)) repos))
  /\ (forall r, In r repos ->
        Database.getLastSyncedAt (fst r) d = None ->
        In r (fst (Sync.resumeFilter now d repos)))
  /\ (List.length (fst (Sync.resumeFilter now d repos))
      + List.length (snd (Sync.resumeFilter now d repos))
      = List.length repos)%nat.
Proof.
  assert (E : Sync.resumeFilter now d repos
              = (filter (fun r => negb (Spec.recentlySynced now d (fst r)))
                        repos,
                 map fst (filter (fun r => Spec.recentlySynced now d (fst r))
                                 repos))).
  { unfold Sync.resumeFilter. now rewrite resumeFilter_from. }
  split; [ exact E | ]. rewrite E. simpl. split.
  - intros r I N. apply filter_In. split; [ exact I | ].
    unfold Spec.recentlySynced. now rewrite N.
  - rewrite length_map. clear E.
    induction repos as [|r repos IH]; [ reflexivity | ].
    simpl. destruct (Spec.recentlySynced now d (fst r)); simpl; lia.
Qed.

(** ** The repository list *)

Lemma includesRepo_In (repos : list string) (repo : string) :
  Config.includesRepo repos repo = true <-> In repo repos.
Proof. apply existsb_eqb_In. Qed.

Lemma isName_nonempty (s : string) :
  Config.isName s = true -> String.eqb s "" = false.
Proof.
  unfold Config.isName. intros H. apply andb_prop in H.
  destruct H as [H _]. now apply negb_true_iff in H.
Qed.

Lemma validFormat_wellFormed (repo : string) :
  Config.validFormat repo = true -> Sync.wellFormedRepoPath repo = true.
Proof.
  unfold Config.validFormat, Sync.wellFormedRepoPath.
  destruct (split_on "/" repo) as [|owner [|name [|x l]]];
    try discriminate.
  intros H. apply andb_prop in H. destruct H as [O N].
  now rewrite (isName_nonempty _ O), (isName_nonempty _ N).
Qed.

Lemma removeFirst_snoc (repo : string) (repos : list string) :
  ~ In repo repos -> Config.removeFirst repo (repos ++ [repo]) = repos.
Proof.
  induction repos as [|r repos IH]; intros N; simpl.
  - now rewrite String.eqb_refl.
  - destruct (String.eqb_spec r repo) as [->|D].
    + exfalso. apply N. now left.
    + f_equal. apply IH. intros I. apply N. now right.
Qed.

(** X27: a repository is added exactly when its name has the form
    owner/name and the list does not hold it yet; it then goes to the end
    of the list, the list stays free of repetitions, the sync loops accept
    the name, and removing it again restores the list. *)
Theorem addRepo_accepts (repo : string) (repos l : list string) :
  Config.addRepo repo repos = inr l ->
  l = repos ++ [repo]
  /\ Config.validFormat repo = true
  /\ ~ In repo repos
  /\ (NoDup repos -> NoDup l)
  /\ Sync.wellFormedRepoPath repo = true
  /\ Config.removeRepo repo l = inr repos.
Proof.
  unfold Config.addRepo.
  destruct (Config.validFormat repo) eqn:V; simpl; [ | discriminate ].
  destruct (Config.includesRepo repos repo) eqn:I; [ discriminate | ].
  intros E. injection E as <-.
  assert (N : ~ In repo repos).
  { intros J. apply includesRepo_In in J. congruence. }
  split; [ reflexivity | ]. split; [ reflexivity | ].
  split; [ exact N | ]. split; [ | split ].
  - intros ND. apply NoDup_app; [ exact ND | repeat constructor; intros [] | ].
    intros x J [<-|[]]. contradiction.
  - now apply validFormat_wellFormed.
  - unfold Config.removeRepo.
    assert (J : Config.includesRepo (repos ++ [repo]) repo = true).
    { apply includesRepo_In, in_or_app. right. now left. }
    rewrite J. simpl. now rewrite removeFirst_snoc.
Qed.

Lemma addRepo_accepts_witness :
  Config.addRepo "octo/lexer" ["octo/parser"]
  = inr ["octo/parser"; "octo/lexer"]
  /\ Config.removeRepo "octo/lexer" ["octo/parser"; "octo/lexer"]
     = inr ["octo/parser"].
Proof.
  assert (E : Config.addRepo "octo/lexer" ["octo/parser"]
              = inr ["octo/parser"; "octo/lexer"]) by reflexivity.
  split; [ exact E | ].
  exact (proj2 (proj2 (proj2 (proj2 (proj2
           (addRepo_accepts "octo/lexer" ["octo/parser"]
              ["octo/parser"; "octo/lexer"] E)))))).
Defined.

(** Adding a repository fails with the format message when the name is
    not of the form owner/name, whatever the list holds, and with the
    duplicate message when the name is well formed and already listed;
    removing fails exactly when the name is not listed, and otherwise
    removes one entry. *)
Lemma config_errors (repo : string) (repos : list string) :
  (Config.validFormat repo = false ->
   Config.addRepo repo repos
   = inl "Invalid repo format. Expected: owner/repo")
  /\ (Config.validFormat repo = true -> In repo repos ->
      Config.addRepo repo repos = inl "Repository already exists in config")
  /\ (~ In repo repos ->
      Config.removeRepo repo repos = inl "Repository not found in config")
  /\ (In repo repos ->
      exists l, Config.removeRepo repo repos = inr l
                /\ Datatypes.S (List.length l) = List.length repos
                /\ incl l repos).
Proof.
  unfold Config.addRepo, Config.removeRepo.
  split; [ now intros -> | ].
  split; [ intros -> I; apply includesRepo_In in I; now rewrite I | ].
  split.
  - intros N. destruct (Config.includesRepo repos repo) eqn:I;
      [ | reflexivity ].
    apply includesRepo_In in I. contradiction.
  - intros I. pose proof I as J. apply includesRepo_In in J. rewrite J.
    simpl. eexists. split; [ reflexivity | ].
    clear J. induction repos as [|r repos IH]; [ destruct I | ].
    simpl. destruct (String.eqb_spec r repo) as [->|D].
    + split; [ reflexivity | ]. intros x K. now right.
    + destruct I as [->|I]; [ contradiction | ].
      destruct (IH I) as [L S]. split; [ simpl; now rewrite L | ].
      intros x [<-|K]; [ now left | right; now apply S ].
Qed.

Lemma addStep_spec (acc : list string) (repo : string) :
  (if negb (Config.validFormat repo) then acc
   else if negb (Config.includesRepo acc repo) then acc ++ [repo] else acc)
  = acc ++ (if Config.validFormat repo && negb (Config.includesRepo acc repo)
            then [repo] else []).
Proof.
  destruct (Config.validFormat repo), (Config.includesRepo acc repo); simpl;
    now rewrite ?app_nil_r.
Qed.

Lemma addMultipleRepos_added (new : list string) :
  forall repos,
  exists added,
    Config.addMultipleRepos new repos = repos ++ added
    /\ NoDup added
    /\ (forall r, In r added
                  <-> In r new /\ Config.validFormat r = true
                      /\ ~ In r repos).
Proof.
  induction new as [|n new IH]; intros repos.
  - exists []. simpl. rewrite app_nil_r.
    split; [ reflexivity | ]. split; [ constructor | ].
    intros r. simpl. tauto.
  - unfold Config.addMultipleRepos in *. cbn [fold_left].
    rewrite addStep_spec.
    set (first := if Config.validFormat n
                     && negb (Config.includesRepo repos n)
                  then [n] else []).
    destruct (IH (repos ++ first)) as (added & E & ND & M).
    exists (first ++ added). rewrite E, app_assoc.
    split; [ reflexivity | ].
    assert (F : forall r, In r first
                          <-> r = n /\ Config.validFormat r = true
                              /\ ~ In r repos).
    { intros r. unfold first.
      destruct (Config.validFormat n) eqn:V,
               (Config.includesRepo repos n) eqn:I; simpl.
      - apply includesRepo_In in I. split; [ tauto | ].
        intros (-> & _ & N). contradiction.
      - assert (N : ~ In n repos)
          by (intros J; apply includesRepo_In in J; congruence).
        split; [ intros [<-|[]]; tauto | intros (-> & _); now left ].
      - split; [ tauto | intros (-> & V' & _); congruence ].
      - split; [ tauto | intros (-> & V' & _); congruence ]. }
    split.
    + apply NoDup_app; [ | exact ND | ].
      * unfold first. destruct (_ && _); repeat constructor. intros [].
      * intros x I J. apply M in J. destruct J as (_ & _ & N).
        apply N, in_or_app. now right.
    + intros r. rewrite in_app_iff, F, M, in_app_iff, F. simpl.
      assert (Sy : n = r <-> r = n) by (split; intros; congruence).
      rewrite Sy. destruct (string_dec r n) as [Eq|D]; tauto.
Qed.

Lemma addMultipleRepos_nothing_new (new : list string) :
  forall repos,
    (forall r, In r new -> Config.validFormat r = true -> In r repos) ->
    Config.addMultipleRepos new repos = repos.
Proof.
  intros repos H.
  destruct (addMultipleRepos_added new repos) as (added & E & _ & M).
  rewrite E. destruct added as [|a added]; [ apply app_nil_r | ].
  exfalso. destruct (proj1 (M a) (or_introl eq_refl)) as (I & V & N).
  apply N. now apply H.
Qed.

(** X28: adding several repositories keeps the list as it is and appends,
    once each and in the order given, exactly the well-formed names that
    it does not hold yet; a list free of repetitions stays so, and adding
    the same names again changes nothing. *)
Theorem addMultipleRepos_appends (new repos : list string) :
  (exists added,
      Config.addMultipleRepos new repos = repos ++ added
      /\ NoDup added
      /\ (forall r, In r added
                    <-> In r new /\ Config.validFormat r = true
                        /\ ~ In r repos))
  /\ (NoDup repos -> NoDup (Config.addMultipleRepos new repos))
  /\ Config.addMultipleRepos new (Config.addMultipleRepos new repos)
     = Config.addMultipleRepos new repos
  /\ Forall (fun r => In r repos \/ Sync.wellFormedRepoPath r = true)
            (Config.addMultipleRepos new repos).
Proof.
  destruct (addMultipleRepos_added new repos) as (added & E & ND & M).
  split; [ now exists added | ]. rewrite E. split; [ | split ].
  - intros NR. apply NoDup_app; try assumption.
    intros x I J. apply M in J. tauto.
  - rewrite <- E. apply addMultipleRepos_nothing_new.
    intros r I V. rewrite E. apply in_or_app.
    destruct (in_dec string_dec r repos) as [K|K]; [ now left | right ].
    apply M. tauto.
  - apply Forall_forall. intros r I. apply in_app_or in I.
    destruct I as [I|I]; [ now left | right ].
    apply M in I. now apply validFormat_wellFormed.
Qed.

(** ** The analysis route *)

Lemma lengthZ_pos_iff {A : Type} (l : list A) :
  (List.length l =? 0)%nat = false <-> 0 < lengthZ l.
Proof.
  unfold lengthZ. destruct l; simpl; split; intros H;
    try reflexivity; try discriminate; lia.
Qed.

(** X29: the analysis route answers with an analysis only for a window
    that does not end before it starts and a non-empty list of
    repositories; the analysis then covers exactly the records read from
    the cache for those repositories and that window, at least one and
    never more than the cache holds, each of a requested repository, and
    is returned with the number of cached records. *)
Theorem analysis_route_answers (since until : option Z)
  (repos : list string) (d : Database.Db) (r : AnalysisResult) (n : Z) :
  Analyze.GET since until repos d = Analyze.Analysis r n ->
  exists s u,
    since = Some s /\ until = Some u /\ s <= u
    /\ repos <> []
    /\ Analyzer.analyzeResults (Database.getPullRequests repos s u d)
                               repos s u = Some r
    /\ n = Database.getTotalCachedPRs d
    /\ 1 <= totalPRs r <= n
    /\ Forall (fun pr => In (repo pr) repos) (prs r).
Proof.
  unfold Analyze.GET.
  destruct since as [s|]; [ | discriminate ].
  destruct until as [u|]; [ | discriminate ].
  destruct (Z.ltb_spec u s) as [LT|LE]; [ discriminate | ].
  destruct repos as [|r0 repos]; [ discriminate | ].
  cbn [List.length Nat.eqb]. cbv zeta.
  destruct (List.length _ =? 0)%nat eqn:L; [ discriminate | ].
  destruct (Analyzer.analyzeResults _ _ s u) as [r'|] eqn:A;
    [ | discriminate ].
  intros E. injection E as <- <-.
  exists s, u. split; [ reflexivity | ]. split; [ reflexivity | ].
  split; [ exact LE | ]. split; [ discriminate | ].
  split; [ exact A | ]. split; [ reflexivity | ].
  apply lengthZ_pos_iff in L.
  assert (T : totalPRs r' = lengthZ (Database.getPullRequests
                                       (r0 :: repos) s u d)).
  { unfold Analyzer.analyzeResults in A. cbv zeta in A.
    destruct (Analyzer.aggregateTimeline _ _ _); [ | discriminate ].
    injection A as <-. simpl. apply annotate_length. }
  split.
  - rewrite T. split; [ lia | ].
    unfold Database.getPullRequests, Database.getTotalCachedPRs, lengthZ.
    rewrite length_map, sort_length. apply inj_le. apply filter_length_le.
  - rewrite (analyzeResults_prs _ _ _ _ _ A).
    apply Forall_forall. intros pr I. unfold Analyzer.annotate in I.
    apply in_map_iff in I. destruct I as (pr0 & <- & I).
    apply getPullRequests_In in I. destruct I as (row & _ & -> & R & _).
    exact R.
Qed.

Lemma analysis_route_answers_witness :
  exists r n,
    Analyze.GET (Some Samples.july1) (Some (Samples.sampleClock 100))
                ["octo/parser"] Samples.cacheAfterParser
    = Analyze.Analysis r n
    /\ 1 <= totalPRs r <= n.
Proof.
  destruct (Analyze.GET (Some Samples.july1) (Some (Samples.sampleClock 100))
                        ["octo/parser"] Samples.cacheAfterParser)
    as [e| |r n|] eqn:E; try (vm_compute in E; discriminate).
  exists r, n. split; [ reflexivity | ].
  destruct (analysis_route_answers _ _ _ _ _ _ E)
    as (s & u & _ & _ & _ & _ & _ & _ & T & _).
  exact T.
Defined.

(** X30: the analysis route refuses an invalid date, a window that ends
    before it starts and an empty list of repositories, in this order,
    before it reads the cache; it asks for a sync when the cache holds no
    record for the request; and it does not fail when every cached record
    carries a creation date. *)
Theorem analysis_route_refusals (since until : option Z)
  (repos : list string) (d : Database.Db) :
  (since = None \/ until = None ->
   Analyze.GET since until repos d
   = Analyze.BadRequest "Invalid date format. Use ISO 8601 format.")
  /\ (forall s u, since = Some s -> until = Some u -> u < s ->
        Analyze.GET since until repos d
        = Analyze.BadRequest "Start date must be before end date")
  /\ (forall s u, since = Some s -> until = Some u -> s <= u ->
        repos = [] ->
        Analyze.GET since until repos d
        = Analyze.BadRequest
            "No repositories configured. Add repositories first.")
  /\ (forall s u, since = Some s -> until = Some u -> s <= u ->
        repos <> [] ->
        Database.getPullRequests repos s u d = [] ->
        Analyze.GET since until repos d = Analyze.NeedsSync)
  /\ (Spec.wellDated (map Database.rowToPullRequest
                          (Database.pull_requests d)) ->
      Analyze.GET since until repos d <> Analyze.ServerError).
Proof.
  unfold Analyze.GET. split; [ | split; [ | split; [ | split ] ] ].
  - intros [->| ->]; [ reflexivity | now destruct since ].
  - intros s u -> -> LT.
    destruct (Z.ltb_spec u s); [ reflexivity | lia ].
  - intros s u -> -> LE ->.
    destruct (Z.ltb_spec u s); [ lia | reflexivity ].
  - intros s u -> -> LE N E.
    destruct (Z.ltb_spec u s); [ lia | ].
    destruct repos; [ contradiction | ]. cbn [List.length Nat.eqb].
    cbv zeta. now rewrite E.
  - intros WD.
    destruct since as [s|]; [ | discriminate ].
    destruct until as [u|]; [ | discriminate ].
    destruct (u <? s); [ discriminate | ].
    destruct (List.length repos =? 0)%nat; [ discriminate | ]. cbv zeta.
    destruct (List.length _ =? 0)%nat; [ discriminate | ].
    destruct (analyzeResults_some
                (Database.getPullRequests repos s u d) repos s u)
      as [r E].
    + unfold Spec.wellDated in *. rewrite Forall_forall in *.
      intros pr I. apply getPullRequests_In in I.
      destruct I as (row & I & -> & _). apply WD. now apply in_map.
    + rewrite E. discriminate.
Qed.

(** ** Sample runs of the cache, the sync and the routes *)

Lemma aggregateLanguageDistribution_shares_witness :
  sumZ (map snd (Spec.allEstimates [Samples.emptyRecord])) <= 0
  /\ Analyzer.aggregateLanguageDistribution [Samples.emptyRecord] = [].
Proof.
  assert (H : sumZ (map snd (Spec.allEstimates [Samples.emptyRecord])) <= 0)
    by (vm_compute; discriminate).
  split; [ exact H | ].
  exact (proj2 (proj2 (proj2
           (aggregateLanguageDistribution_shares [Samples.emptyRecord]))) H).
Defined.

Lemma updateSyncStatus_then_getLastSyncedAt_witness :
  Spec.oneStatusPerRepo Database.emptyDb
  /\ Spec.oneStatusPerRepo
       (Database.updateSyncStatus Samples.july1 "octo/parser" 3
                                  Database.emptyDb).
Proof.
  assert (H : Spec.oneStatusPerRepo Database.emptyDb) by constructor.
  split; [ exact H | ].
  exact (proj1 (proj2 (proj2
           (updateSyncStatus_then_getLastSyncedAt Samples.july1 "octo/parser"
              3 Database.emptyDb))) H).
Defined.

Lemma getPullRequests_selects_witness :
  0 < 1
  /\ Database.getPullRequests ["octo/parser"] 1 0 Samples.cacheAfterParser
     = [].
Proof.
  assert (H : 0 < 1) by reflexivity.
  split; [ exact H | ].
  exact (proj1 (proj2 (proj2
           (getPullRequests_selects ["octo/parser"] 1 0
              Samples.cacheAfterParser))) H).
Defined.

Lemma clearRepoData_clears_witness :
  In (Database.toRow (Samples.sampleClock 0) Samples.parserRecord)
     (Database.pull_requests Samples.cacheAfterParser)
  /\ Database.row_repo
       (Database.toRow (Samples.sampleClock 0) Samples.parserRecord)
     <> "octo/lexer"
  /\ In (Database.toRow (Samples.sampleClock 0) Samples.parserRecord)
        (Database.pull_requests
           (Database.clearRepoData "octo/lexer" Samples.cacheAfterParser)).
Proof.
  assert (I : In (Database.toRow (Samples.sampleClock 0)
                                 Samples.parserRecord)
                 (Database.pull_requests Samples.cacheAfterParser))
    by (left; reflexivity).
  assert (N : Database.row_repo
                (Database.toRow (Samples.sampleClock 0) Samples.parserRecord)
              <> "octo/lexer") by discriminate.
  split; [ exact I | ]. split; [ exact N | ].
  exact (proj1 (proj2 (proj2 (proj2
           (clearRepoData_clears "octo/lexer" Samples.cacheAfterParser))))
           _ I N).
Defined.

Lemma savePullRequests_batch_witness :
  [Samples.parserRecord] <> []
  /\ 1 <= Database.getTotalCachedPRs
            (Database.savePullRequests Samples.sampleClock
               [Samples.parserRecord] Database.emptyDb).
Proof.
  assert (N : [Samples.parserRecord] <> []) by discriminate.
  split; [ exact N | ].
  exact (proj1 (proj2
           (savePullRequests_batch Samples.sampleClock [Samples.parserRecord]
              Database.emptyDb)) N).
Defined.


Lemma buildPullRequest_reviews_witness :
  reviews (Sync.buildPullRequest Sync.EXTENSION_TO_LANGUAGE "octo/parser"
                                 Samples.reviewedNode)
  = Some [ {| reviewer := "bob"; review_state := APPROVED;
              submittedAt := "2025-07-03T08:00:00Z" |} ]
  /\ [ {| reviewer := "bob"; review_state := APPROVED;
          submittedAt := "2025-07-03T08:00:00Z" |} ]
     = Sync.reviewsOf Samples.reviewedNode.
Proof.
  assert (E : reviews (Sync.buildPullRequest Sync.EXTENSION_TO_LANGUAGE
                         "octo/parser" Samples.reviewedNode)
              = Some [ {| reviewer := "bob"; review_state := APPROVED;
                          submittedAt := "2025-07-03T08:00:00Z" |} ])
    by reflexivity.
  split; [ exact E | ].
  exact (proj1 (proj2
           (buildPullRequest_reviews Sync.EXTENSION_TO_LANGUAGE "octo/parser"
              Samples.reviewedNode)) _ E).
Defined.

Lemma resumeFilter_partition_witness :
  In ("octo/parser", Sync.Page [] None) [("octo/parser", Sync.Page [] None)]
  /\ Database.getLastSyncedAt "octo/parser" Database.emptyDb = None
  /\ In ("octo/parser", Sync.Page [] None)
        (fst (Sync.resumeFilter Samples.july1 Database.emptyDb
                [("octo/parser", Sync.Page [] None)])).
Proof.
  assert (I : In ("octo/parser", Sync.Page [] None)
                 [("octo/parser", Sync.Page [] None)])
    by (left; reflexivity).
  assert (N : Database.getLastSyncedAt "octo/parser" Database.emptyDb = None)
    by reflexivity.
  split; [ exact I | ]. split; [ exact N | ].
  exact (proj1 (proj2
           (resumeFilter_partition Samples.july1 Database.emptyDb
              [("octo/parser", Sync.Page [] None)])) _ I N).
Defined.

Lemma addMultipleRepos_appends_witness :
  NoDup ["octo/parser"]
  /\ NoDup (Config.addMultipleRepos ["octo/lexer"; "lexer"; "octo/parser"]
                                    ["octo/parser"]).
Proof.
  assert (ND : NoDup ["octo/parser"])
    by (repeat constructor; intros []).
  split; [ exact ND | ].
  exact (proj1 (proj2
           (addMultipleRepos_appends ["octo/lexer"; "lexer"; "octo/parser"]
              ["octo/parser"])) ND).
Defined.

Lemma analysis_route_refusals_witness :
  Spec.wellDated (map Database.rowToPullRequest
                      (Database.pull_requests Samples.cacheAfterParser))
  /\ Analyze.GET (Some Samples.july1) (Some (Samples.sampleClock 100))
                 ["octo/parser"] Samples.cacheAfterParser
     <> Analyze.ServerError.
Proof.
  assert (WD : Spec.wellDated
                 (map Database.rowToPullRequest
                      (Database.pull_requests Samples.cacheAfterParser)))
    by (repeat constructor; vm_compute; discriminate).
  split; [ exact WD | ].
  exact (proj2 (proj2 (proj2 (proj2
           (analysis_route_refusals (Some Samples.july1)
              (Some (Samples.sampleClock 100)) ["octo/parser"]
              Samples.cacheAfterParser)))) WD).
Defined.
